(** * Yalla chat service: a shallow embedding of [services/yallaChatService.js]

    The development follows the source file top to bottom: the JavaScript
    values the tools exchange, the five tool executors of [toolExecutors],
    the two label helpers, and the bounded conversation loop of [chat].
    The text search helper of [utils/googlePlaces.js] is embedded as far as
    [search_place] calls it, and the handler of [POST /api/chat] in
    [routes/chat.js] as the caller of [chat].

    Conventions.
    - A JavaScript number is an exact rational ([Q]); integer quantities the
      upstream services deliver (seconds, metres, category codes) are in [Z].
      [Math.round] is [floor (x + 1/2)].  The source computes on IEEE
      doubles: [Binary64] repeats the speed tests of [get_traffic_flow] on
      them, and a property that depends on how a double rounds is stated
      where the two readings agree (whole speeds, durations that fit).
    - A [string] holds a JavaScript string in UTF-8, one [ascii] per byte;
      [length] and [trim] go through its code points.
    - A property that may be missing is an [option]; [None] is [undefined].
    - An awaited promise either resolves or rejects: [Completion].
    - Everything outside the process is a field of a record: TomTom, Google
      Places, the clock and [Math.cos] in [Services], the model and the
      services as they answer from pass to pass in [World]. *)

From Stdlib Require Import ZArith QArith Qround Qabs List String Ascii Bool Lia.
From Stdlib Require Import DecimalString Lqa.
From Stdlib Require Uint63 PrimFloat.
Import ListNotations.

Open Scope string_scope.

(** ** JavaScript values and control *)

Module Js.

(** The outcome of awaiting a promise, or of evaluating code that may
    throw: the value, or the thrown error's [message]. *)
Inductive Completion (A : Type) : Type :=
| Returned (value : A)
| Thrown (message : string).
Arguments Returned {A} value.
Arguments Thrown {A} message.

Definition bind {A B : Type} (c : Completion A) (k : A -> Completion B)
  : Completion B :=
  match c with
  | Returned a => k a
  | Thrown m => Thrown m
  end.

(** Truthiness of the values the service tests with [if], [&&], [||], [!]. *)
Definition truthy_number (x : Q) : bool := negb (Qeq_bool x 0).

Definition truthy_string (s : string) : bool :=
  match s with
  | EmptyString => false
  | String _ _ => true
  end.

Definition truthy_opt {A : Type} (truthy : A -> bool) (v : option A) : bool :=
  match v with
  | Some a => truthy a
  | None => false
  end.

(** [a || b] on possibly missing strings. *)
Definition or_string (a b : option string) : option string :=
  if truthy_opt truthy_string a then a else b.

(** [x < y] on numbers. *)
Definition ltb (x y : Q) : bool := negb (Qle_bool y x).

(** [Math.min] of two numbers. *)
Definition Math_min (x y : Q) : Q := if ltb y x then y else x.

(** [Math.round]: the nearest integer, ties towards plus infinity. *)
Definition Math_round (x : Q) : Z := Qfloor (x + (1 # 2)).

(** [`${n}`] for an integer-valued number. *)
Definition show_Z (n : Z) : string := NilZero.string_of_int (Z.to_int n).

(** [x.toFixed(1)]: one decimal, ties away from zero. *)
Definition toFixed1 (x : Q) : string :=
  let n := Qfloor (Qabs x * 10 + (1 # 2)) in
  (if ltb x 0 then "-" else "") ++ show_Z (n / 10) ++ "." ++ show_Z (n mod 10).

(** [xs.map((x, i) => f(x, i))] *)
Fixpoint mapi_from {A B : Type} (f : A -> Z -> B) (i : Z) (xs : list A) : list B :=
  match xs with
  | [] => []
  | x :: rest => f x i :: mapi_from f (i + 1) rest
  end.

Definition mapi {A B : Type} (f : A -> Z -> B) (xs : list A) : list B :=
  mapi_from f 0 xs.

(** [s.replace(c, '')] for a one-character pattern: the first occurrence
    of [c] is removed. *)
Fixpoint remove_first (c : ascii) (s : string) : string :=
  match s with
  | EmptyString => EmptyString
  | String a rest => if Ascii.eqb a c then rest else String a (remove_first c rest)
  end.

(** *** Strings

    The code points of a string held in UTF-8.  [more] continuation bytes
    are still expected for the code point whose leading bits are [acc]; a
    byte that cannot stand where it does yields U+FFFD. *)
Definition byte (c : ascii) : Z := Z.of_nat (nat_of_ascii c).

Fixpoint code_points_from (more : nat) (acc : Z) (s : string) : list Z :=
  match s with
  | EmptyString =>
      match more with
      | O => []
      | S _ => [65533%Z]
      end
  | String c rest =>
      let b := byte c in
      match more with
      | O =>
          if (b <? 128)%Z then b :: code_points_from 0 0 rest
          else if (b <? 192)%Z then 65533%Z :: code_points_from 0 0 rest
          else if (b <? 224)%Z then code_points_from 1 (b - 192) rest
          else if (b <? 240)%Z then code_points_from 2 (b - 224) rest
          else if (b <? 248)%Z then code_points_from 3 (b - 240) rest
          else 65533%Z :: code_points_from 0 0 rest
      | S more' =>
          if ((128 <=? b) && (b <? 192))%Z then
            let acc' := (acc * 64 + (b - 128))%Z in
            match more' with
            | O => acc' :: code_points_from 0 0 rest
            | S _ => code_points_from more' acc' rest
            end
          else 65533%Z :: code_points_from 0 0 rest
      end
  end.

Definition code_points (s : string) : list Z := code_points_from 0 0 s.

(** The UTF-16 code units of a code point: two from U+10000 on. *)
Definition code_units (cp : Z) : nat := if (cp <? 65536)%Z then 1 else 2.

(** [s.length]: the number of UTF-16 code units. *)
Definition String_length (s : string) : nat :=
  list_sum (map code_units (code_points s)).

(** The code points [trim] removes: WhiteSpace (tab, VT, FF, U+FEFF and the
    space separators) and LineTerminator (LF, CR, U+2028, U+2029). *)
Definition is_white_space (cp : Z) : bool :=
  existsb (Z.eqb cp)
    [9; 10; 11; 12; 13; 32; 160; 5760; 8232; 8233; 8239; 8287; 12288; 65279]%Z
  || ((8192 <=? cp) && (cp <=? 8202))%Z.

End Js.

Import Js.

(** ** [utils/googlePlaces.js]: text search and place transformation *)

Module GooglePlaces.

(** The [options] object of [searchPlaces]. *)
Record Options : Type := {
  opt_lat : option Q;
  opt_lng : option Q;
  opt_radius : option Q;
  opt_limit : option Q
}.

(** [{}] *)
Definition no_options : Options :=
  {| opt_lat := None; opt_lng := None; opt_radius := None; opt_limit := None |}.

(** [locationBias.circle] *)
Record Circle : Type := {
  center_latitude : Q;
  center_longitude : Q;
  radius : Q
}.

Record RequestBody : Type := {
  textQuery : option string;
  languageCode : string;
  maxResultCount : Q;
  locationBias : option Circle
}.

(** A place of the Places API, with the fields of the field mask. *)
Record Place : Type := {
  id : option string;
  displayName_text : option string;
  formattedAddress : option string;
  shortFormattedAddress : option string;
  location : option (Q * Q);
  primaryType : option string;
  types : option (list string)
}.

(** [response.data] of [/places:searchText]. *)
Record SearchData : Type := { places : option (list Place) }.

(** [parseFloat] of a number is that number. *)
Definition parseFloat (x : Q) : Q := x.

Definition default {A : Type} (d : A) (v : option A) : A :=
  match v with
  | Some a => a
  | None => d
  end.

(** The request body [searchPlaces] builds before it posts. *)
Definition requestBody (query : option string) (options : Options) : RequestBody :=
  let lat := opt_lat options in
  let lng := opt_lng options in
  let radius := default 50000%Q (opt_radius options) in
  let limit := default 20%Q (opt_limit options) in
  {| textQuery := query;
     languageCode := "en";
     maxResultCount := Math_min limit 20%Q;
     locationBias :=
       match lat, lng with
       | Some la, Some ln =>
           if truthy_number la && truthy_number ln
           then Some {| center_latitude := parseFloat la;
                        center_longitude := parseFloat ln;
                        radius := parseFloat radius |}
           else None
       | _, _ => None
       end |}.

(** [searchPlaces(query, options)]; [post] is the call to the service. *)
Definition searchPlaces (post : RequestBody -> Completion SearchData)
    (query : option string) (options : Options) : Completion (list Place) :=
  bind (post (requestBody query options)) (fun data =>
  Returned (default [] (places data))).

(** The standard place object of [transformPlace]. *)
Record StandardPlace : Type := {
  sp_id : option string;
  sp_name : option string;
  sp_address : option string;
  sp_position : option (Q * Q);
  sp_category : string;
  sp_type : string;
  sp_source : string
}.

Definition first_type (ts : option (list string)) : option string :=
  match ts with
  | Some (t :: _) => Some t
  | _ => None
  end.

Definition transformPlace (place : Place) : StandardPlace :=
  {| sp_id := id place;
     sp_name := or_string (displayName_text place) (formattedAddress place);
     sp_address := or_string (formattedAddress place) (shortFormattedAddress place);
     sp_position := location place;
     sp_category :=
       default "place"
         (or_string (or_string (primaryType place) (first_type (types place)))
                    (Some "place"));
     sp_type := "POI";
     sp_source := "google" |}.

End GooglePlaces.

(** ** [services/yallaChatService.js] *)

Module YallaChat.

Import GooglePlaces.

(** *** Data exchanged with the tools *)

(** The [args] object of a function call.  Every parameter the five
    declarations of [TRAFFIC_TOOLS] name is a property, typed as its schema
    says ([query] a string, the others numbers), and may be missing. *)
Record Args : Type := {
  query : option string;
  nearLat : option Q;
  nearLon : option Q;
  originLat : option Q;
  originLon : option Q;
  destLat : option Q;
  destLon : option Q;
  lat : option Q;
  lon : option Q;
  radiusKm : option Q
}.

Definition no_args : Args :=
  {| query := None; nearLat := None; nearLon := None;
     originLat := None; originLon := None; destLat := None; destLon := None;
     lat := None; lon := None; radiusKm := None |}.

(** A request to [/routing/1/calculateRoute/<origin>:<destination>/json]:
    the two points of the path and the query parameters. *)
Record RouteRequest : Type := {
  rq_origin : option Q * option Q;
  rq_destination : option Q * option Q;
  rq_routeType : string;
  rq_traffic : bool;
  rq_travelMode : string;
  rq_maxAlternatives : option Z;
  rq_departAt : option Z;
  rq_computeTravelTimeFor : string;
  rq_sectionType : option string
}.

Record RouteSummary : Type := {
  travelTimeInSeconds : Z;
  lengthInMeters : Z;
  trafficDelayInSeconds : option Z;
  arrivalTime : option string
}.

Record Route : Type := { summary : option RouteSummary }.

(** [response.data] of a routing call. *)
Record RouteData : Type := { routes : option (list Route) }.

(** A request to [flowSegmentData]: [point] and [unit]. *)
Record FlowRequest : Type := {
  fq_point : option Q * option Q;
  fq_unit : string
}.

Record FlowSegmentData : Type := {
  currentSpeed : Q;
  freeFlowSpeed : Q;
  roadClosure : option bool
}.

Record FlowData : Type := { flowSegmentData : option FlowSegmentData }.

(** The [bbox] parameter of [incidentDetails]; [None] is [NaN]. *)
Record Bbox : Type := {
  minLon : option Q;
  minLat : option Q;
  maxLon : option Q;
  maxLat : option Q
}.

Record IncidentRequest : Type := {
  iq_bbox : Bbox;
  iq_language : string;
  iq_categoryFilter : string;
  iq_timeValidityFilter : string
}.

Record IncidentEvent : Type := { ev_description : option string }.

Record IncidentProperties : Type := {
  iconCategory : option Z;
  magnitudeOfDelay : option Z;
  events : option (list IncidentEvent);
  from : option string;
  to : option string;
  delay : option Q
}.

Record Incident : Type := { properties : option IncidentProperties }.

Record IncidentData : Type := { incidents : option (list Incident) }.

(** *** What the tools return *)

Record FormattedRoute : Type := {
  routeNumber : Z;
  fr_durationMinutes : Z;
  distanceKm : string;
  fr_trafficDelayMinutes : Z;
  fr_arrivalTime : option string
}.

Record FlowReport : Type := {
  currentSpeedKmh : Z;
  freeFlowSpeedKmh : Z;
  condition : string;
  roadClosed : bool
}.

(** An element of [results] in [get_departure_times].  [departureTime] is
    the instant [toISOString] renders, in milliseconds; [isBest] is missing
    until the [forEach] sets it. *)
Record DepartureTime : Type := {
  label : string;
  departureTime : Z;
  durationMinutes : Z;
  trafficDelayMinutes : Z;
  isBest : option bool
}.

Record FormattedIncident : Type := {
  fi_type : string;
  fi_description : string;
  fi_from : option string;
  fi_to : option string;
  delayMinutes : option Z;
  severity : string
}.

(** The object an executor returns, one constructor per shape.
    [Failure e q] is [{ error: e }] or [{ error: e, query: q }]; [Foreign]
    is a value that is none of the service's own shapes. *)
Inductive ToolResult : Type :=
| Failure (error : string) (failed_query : option string)
| Places (found : list StandardPlace) (searched : option string)
| Routes (formatted : list FormattedRoute)
| Flow (report : FlowReport)
| Departures (departureTimes : list DepartureTime) (recommendation : string)
| IncidentsMessage (listed : list FormattedIncident) (message : string)
| Incidents (listed : list FormattedIncident) (totalCount : Z)
| Foreign (rendering : string).

Definition is_failure (r : ToolResult) : bool :=
  match r with
  | Failure _ _ => true
  | _ => false
  end.

(** *** The outside of the process, as the executors see it

    Each field answers one kind of call: the value the awaited call resolves
    to, or the message of the error it rejects with. *)
Record Services : Type := {
  places_searchText : RequestBody -> Completion SearchData;
  tomtom_calculateRoute : RouteRequest -> Completion RouteData;
  tomtom_flowSegmentData : FlowRequest -> Completion FlowData;
  tomtom_incidentDetails : IncidentRequest -> Completion IncidentData;
  (** [Date.now()] in the iteration of [get_departure_times] for an offset *)
  Date_now : Z -> Z;
  (** [x => Math.cos(x * Math.PI / 180)] *)
  cos_degrees : Q -> Q;
  (** a call of a member [toolExecutors] inherits from [Object.prototype] *)
  inherited_call : string -> option Args -> Completion ToolResult
}.

(** *** [toolExecutors.search_place] *)

Definition search_place_options (a : Args) : Options :=
  if truthy_opt truthy_number (nearLat a) && truthy_opt truthy_number (nearLon a)
  then {| opt_lat := nearLat a; opt_lng := nearLon a;
          opt_radius := Some 50000%Q; opt_limit := None |}
  else no_options.

(** The body the text search receives when [search_place] runs on [a]. *)
Definition search_place_request (a : Args) : RequestBody :=
  requestBody (query a) (search_place_options a).

Definition search_place (w : Services) (a : Args) : ToolResult :=
  match searchPlaces (places_searchText w) (query a) (search_place_options a) with
  | Returned results =>
      match results with
      | [] => Failure "No places found" (query a)
      | _ => Places (map transformPlace (firstn 3 results)) (query a)
      end
  | Thrown m => Failure m (query a)
  end.

(** *** [toolExecutors.calculate_routes] *)

Definition calculate_routes_request (a : Args) : RouteRequest :=
  {| rq_origin := (originLat a, originLon a);
     rq_destination := (destLat a, destLon a);
     rq_routeType := "fastest";
     rq_traffic := true;
     rq_travelMode := "car";
     rq_maxAlternatives := Some 2%Z;
     rq_departAt := None;
     rq_computeTravelTimeFor := "all";
     rq_sectionType := Some "traffic" |}.

Definition minutes (seconds : Z) : Z := Math_round (inject_Z seconds / 60).

(** [(s.trafficDelayInSeconds || 0) / 60], rounded *)
Definition delay_minutes (s : RouteSummary) : Z :=
  minutes (default 0%Z (trafficDelayInSeconds s)).

Definition TypeError_travelTime : string :=
  "Cannot read properties of undefined (reading 'travelTimeInSeconds')".

(** The callback of [routes.map]; reading [r.summary.travelTimeInSeconds]
    throws when the route has no summary. *)
Definition format_route (r : Route) (i : Z) : Completion FormattedRoute :=
  match summary r with
  | None => Thrown TypeError_travelTime
  | Some s =>
      Returned {| routeNumber := i + 1;
                  fr_durationMinutes := minutes (travelTimeInSeconds s);
                  distanceKm := toFixed1 (inject_Z (lengthInMeters s) / 1000);
                  fr_trafficDelayMinutes := delay_minutes s;
                  fr_arrivalTime := arrivalTime s |}
  end.

Fixpoint sequence {A : Type} (cs : list (Completion A)) : Completion (list A) :=
  match cs with
  | [] => Returned []
  | c :: rest => bind c (fun a => bind (sequence rest) (fun l => Returned (a :: l)))
  end.

Definition calculate_routes (w : Services) (a : Args) : ToolResult :=
  match tomtom_calculateRoute w (calculate_routes_request a) with
  | Returned data =>
      match routes data with
      | None | Some [] => Failure "No routes found" None
      | Some rs =>
          match sequence (mapi format_route rs) with
          | Returned formatted => Routes formatted
          | Thrown m => Failure m None
          end
      end
  | Thrown m => Failure m None
  end.

(** *** [toolExecutors.get_traffic_flow] *)

Definition get_traffic_flow_request (a : Args) : FlowRequest :=
  {| fq_point := (lat a, lon a); fq_unit := "KMPH" |}.

(** The [if]/[else if] chain over the two speeds. *)
Definition flow_condition (currentSpeed freeFlowSpeed : Q) : string :=
  if ltb currentSpeed (freeFlowSpeed * (3 # 10)) then "severe"
  else if ltb currentSpeed (freeFlowSpeed * (5 # 10)) then "heavy"
  else if ltb currentSpeed (freeFlowSpeed * (7 # 10)) then "moderate"
  else if ltb currentSpeed (freeFlowSpeed * (9 # 10)) then "light"
  else "clear".

Definition flow_report (flow : FlowSegmentData) : FlowReport :=
  {| currentSpeedKmh := Math_round (currentSpeed flow);
     freeFlowSpeedKmh := Math_round (freeFlowSpeed flow);
     condition := flow_condition (currentSpeed flow) (freeFlowSpeed flow);
     roadClosed := default false (roadClosure flow) |}.

Definition get_traffic_flow (w : Services) (a : Args) : ToolResult :=
  match tomtom_flowSegmentData w (get_traffic_flow_request a) with
  | Returned data =>
      match flowSegmentData data with
      | None => Failure "Could not get traffic flow" None
      | Some flow => Flow (flow_report flow)
      end
  | Thrown m => Failure m None
  end.

(** *** [toolExecutors.get_departure_times] *)

Definition offsets : list Z := [0; 30; 60; 120]%Z.

Definition departAt (w : Services) (offset : Z) : Z :=
  (Date_now w offset + offset * 60 * 1000)%Z.

Definition departure_request (w : Services) (a : Args) (offset : Z) : RouteRequest :=
  {| rq_origin := (originLat a, originLon a);
     rq_destination := (destLat a, destLon a);
     rq_routeType := "fastest";
     rq_traffic := true;
     rq_travelMode := "car";
     rq_maxAlternatives := None;
     rq_departAt := Some (departAt w offset);
     rq_computeTravelTimeFor := "all";
     rq_sectionType := None |}.

Definition offset_label (offset : Z) : string :=
  if (offset =? 0)%Z then "Now" else "+" ++ show_Z offset ++ " min".

(** [response.data.routes?.[0]] *)
Definition first_route (data : RouteData) : option Route :=
  match routes data with
  | Some (r :: _) => Some r
  | _ => None
  end.

(** One turn of the [for] loop: the entry pushed for [offset], if any.
    A rejected call, a response without a route and a route without a
    summary all leave [results] as it is. *)
Definition departure_entry (w : Services) (a : Args) (offset : Z)
  : option DepartureTime :=
  match tomtom_calculateRoute w (departure_request w a offset) with
  | Returned data =>
      match first_route data with
      | Some route =>
          match summary route with
          | Some s =>
              Some {| label := offset_label offset;
                      departureTime := departAt w offset;
                      durationMinutes := minutes (travelTimeInSeconds s);
                      trafficDelayMinutes := delay_minutes s;
                      isBest := None |}
          | None => None
          end
      | None => None
      end
  | Thrown _ => None
  end.

Fixpoint collect_departures (w : Services) (a : Args) (offs : list Z)
    (results : list DepartureTime) : list DepartureTime :=
  match offs with
  | [] => results
  | offset :: rest =>
      match departure_entry w a offset with
      | Some e => collect_departures w a rest (results ++ [e])
      | None => collect_departures w a rest results
      end
  end.

(** [results.reduce((min, r) => r.durationMinutes < min.durationMinutes ? r : min, first)] *)
Definition best_of (first : DepartureTime) (results : list DepartureTime)
  : DepartureTime :=
  fold_left
    (fun min r => if (durationMinutes r <? durationMinutes min)%Z then r else min)
    results first.

Definition mark_best (best : DepartureTime) (r : DepartureTime) : DepartureTime :=
  {| label := label r;
     departureTime := departureTime r;
     durationMinutes := durationMinutes r;
     trafficDelayMinutes := trafficDelayMinutes r;
     isBest := Some (String.eqb (label r) (label best)) |}.

Definition plus_sign : ascii := "+"%char.

Definition recommend (best : DepartureTime) (timeSaved : Z) : string :=
  if String.eqb (label best) "Now"
  then "Now is the best time to leave!"
  else "Wait " ++ remove_first plus_sign (label best) ++ " to save "
         ++ show_Z timeSaved ++ " minutes".

(** The part of the executor after the [for] loop. *)
Definition summarize_departures (results : list DepartureTime) : ToolResult :=
  match results with
  | [] => Failure "Could not calculate departure times" None
  | first :: _ =>
      let best := best_of first results in
      let marked := map (mark_best best) results in
      let timeSaved := (durationMinutes first - durationMinutes best)%Z in
      Departures marked (recommend best timeSaved)
  end.

Definition get_departure_times (w : Services) (a : Args) : ToolResult :=
  summarize_departures (collect_departures w a offsets []).

(** *** The two label helpers *)

Definition getIncidentTypeName (iconCategory : option Z) : string :=
  match iconCategory with
  | Some 0%Z => "Unknown"
  | Some 1%Z => "Accident"
  | Some 2%Z => "Fog"
  | Some 3%Z => "Dangerous Conditions"
  | Some 4%Z => "Rain"
  | Some 5%Z => "Ice"
  | Some 6%Z => "Jam"
  | Some 7%Z => "Lane Closed"
  | Some 8%Z => "Road Closed"
  | Some 9%Z => "Road Works"
  | Some 10%Z => "Wind"
  | Some 11%Z => "Flooding"
  | Some 14%Z => "Broken Down Vehicle"
  | _ => "Incident"
  end.

Definition getMagnitudeLabel (magnitude : option Z) : string :=
  match magnitude with
  | Some 0%Z => "Unknown"
  | Some 1%Z => "Minor"
  | Some 2%Z => "Moderate"
  | Some 3%Z => "Major"
  | Some 4%Z => "Severe"
  | _ => "Unknown"
  end.

(** *** [toolExecutors.get_incidents] *)

(** Arithmetic on a number that may be [NaN] ([None]). *)
Definition lift2 (f : Q -> Q -> Q) (x y : option Q) : option Q :=
  match x, y with
  | Some a, Some b => Some (f a b)
  | _, _ => None
  end.

(** The bounding box around the centre.  [radiusKm] defaults to 5; a
    missing [lat] or [lon] makes its bounds [NaN]. *)
Definition bounding_box (w : Services) (a : Args) : Bbox :=
  let radius := default 5%Q (radiusKm a) in
  let latDelta := Some (radius / 111)%Q in
  let lonDelta :=
    option_map (fun la => (radius / (111 * cos_degrees w la))%Q) (lat a) in
  {| minLon := lift2 Qminus (lon a) lonDelta;
     minLat := lift2 Qminus (lat a) latDelta;
     maxLon := lift2 Qplus (lon a) lonDelta;
     maxLat := lift2 Qplus (lat a) latDelta |}.

Definition get_incidents_request (w : Services) (a : Args) : IncidentRequest :=
  {| iq_bbox := bounding_box w a;
     iq_language := "en-GB";
     iq_categoryFilter := "0,1,2,3,4,5,6,7,8,9,10,11,14";
     iq_timeValidityFilter := "present" |}.

(** [inc.properties || {}] *)
Definition no_properties : IncidentProperties :=
  {| iconCategory := None; magnitudeOfDelay := None; events := None;
     from := None; to := None; delay := None |}.

(** [props.events?.[0]?.description] *)
Definition first_description (props : IncidentProperties) : option string :=
  match events props with
  | Some (e :: _) => ev_description e
  | _ => None
  end.

Definition format_incident (inc : Incident) : FormattedIncident :=
  let props := default no_properties (properties inc) in
  {| fi_type := getIncidentTypeName (iconCategory props);
     fi_description :=
       default "Traffic incident"
         (or_string (first_description props) (Some "Traffic incident"));
     fi_from := from props;
     fi_to := to props;
     delayMinutes :=
       match delay props with
       | Some d => if truthy_number d then Some (Math_round (d / 60)) else None
       | None => None
       end;
     severity := getMagnitudeLabel (magnitudeOfDelay props) |}.

Definition clear_message : string :=
  "No incidents reported in this area - roads are clear!".

Definition get_incidents (w : Services) (a : Args) : ToolResult :=
  match tomtom_incidentDetails w (get_incidents_request w a) with
  | Returned data =>
      match default [] (incidents data) with
      | [] => IncidentsMessage [] clear_message
      | found =>
          Incidents (map format_incident (firstn 5 found))
                    (Z.of_nat (List.length found))
      end
  | Thrown m => Failure m None
  end.

(** *** The table [toolExecutors] *)

Inductive Tool : Type :=
| Search_place
| Calculate_routes
| Get_traffic_flow
| Get_departure_times
| Get_incidents.

Definition tool_name (t : Tool) : string :=
  match t with
  | Search_place => "search_place"
  | Calculate_routes => "calculate_routes"
  | Get_traffic_flow => "get_traffic_flow"
  | Get_departure_times => "get_departure_times"
  | Get_incidents => "get_incidents"
  end.

Definition all_tools : list Tool :=
  [Search_place; Calculate_routes; Get_traffic_flow; Get_departure_times;
   Get_incidents].

(** The names declared in [TRAFFIC_TOOLS]. *)
Definition TRAFFIC_TOOLS : list string := map tool_name all_tools.

Definition own_executor (name : string) : option Tool :=
  find (fun t => String.eqb (tool_name t) name) all_tools.

(** The property names every plain object inherits from [Object.prototype]. *)
Definition Object_prototype_keys : list string :=
  ["constructor"; "hasOwnProperty"; "isPrototypeOf"; "propertyIsEnumerable";
   "toLocaleString"; "toString"; "valueOf"; "__proto__";
   "__defineGetter__"; "__defineSetter__"; "__lookupGetter__";
   "__lookupSetter__"].

(** What [toolExecutors[name]] evaluates to: one of the five executors, a
    member inherited from [Object.prototype] (truthy as well), or
    [undefined]. *)
Inductive Property : Type :=
| Executor (t : Tool)
| Inherited (key : string)
| Undefined.

Definition toolExecutors_get (name : string) : Property :=
  match own_executor name with
  | Some t => Executor t
  | None =>
      if existsb (String.eqb name) Object_prototype_keys
      then Inherited name
      else Undefined
  end.

(** The body of one of the five executors, a single [try]/[catch] that
    returns in both branches. *)
Definition run_tool (w : Services) (t : Tool) (a : Args) : ToolResult :=
  match t with
  | Search_place => search_place w a
  | Calculate_routes => calculate_routes w a
  | Get_traffic_flow => get_traffic_flow w a
  | Get_departure_times => get_departure_times w a
  | Get_incidents => get_incidents w a
  end.

(** The first property each executor destructures from its parameter. *)
Definition first_parameter (t : Tool) : string :=
  match t with
  | Search_place => "query"
  | Calculate_routes => "originLat"
  | Get_traffic_flow => "lat"
  | Get_departure_times => "originLat"
  | Get_incidents => "lat"
  end.

(** [await executor(args)] for one of the five executors: destructuring
    the parameter throws, outside the [try], when [args] is missing;
    otherwise the call resolves. *)
Definition call_tool (w : Services) (t : Tool) (a : option Args)
  : Completion ToolResult :=
  match a with
  | Some a => Returned (run_tool w t a)
  | None =>
      Thrown ("Cannot destructure property '" ++ first_parameter t
                ++ "' of 'undefined' as it is undefined.")
  end.

(** *** The model's side of [chat] *)

(** A function call of a model turn; [args] may be missing. *)
Record FunctionCall : Type := { name : string; args : option Args }.

Record Part : Type := {
  text : option string;
  functionCall : option FunctionCall
}.

(** A candidate; [None] when [candidate.content] has no [parts] to read. *)
Record Candidate : Type := { content_parts : option (list Part) }.

(** [response.response] of a resolved [sendMessage]. *)
Record GenerateResult : Type := { candidates : option (list Candidate) }.

(** What [chat] sends: the user's text, or a [functionResponse]. *)
Inductive Request : Type :=
| TextMessage (body : string)
| FunctionResponse (tool : string) (response : ToolResult).

(** An element of [history]. *)
Record Content : Type := { role : string; parts : list string }.

(** The chat session: how [sendMessage] completes, given every request
    sent on the session so far, the current one last. *)
Definition ChatSession : Type := list Request -> Completion GenerateResult.

Record Location : Type := { loc_lat : option Q; loc_lon : option Q }.

(** The [context] argument of [chat]. *)
Record Context : Type := {
  userLocation : option Location;
  conversationHistory : option (list Content)
}.

(** Everything [chat] reaches outside the process: the model
    ([getFlashModel().startChat]), number formatting in template strings,
    and the services as they answer during the n-th pass of the loop. *)
Record World : Type := {
  startChat : list Content -> Completion ChatSession;
  Number_toString : Q -> string;
  services : nat -> Services
}.

Definition newline : string := String (ascii_of_nat 10) EmptyString.

Definition YALLA_SYSTEM_PROMPT : string :=
  "You are Yalla (يلا), a friendly and helpful Dubai traffic assistant. Your personality:

- Warm and conversational - you're a helpful friend, not a robot
- Use emojis occasionally to add personality (but don't overdo it)
- Give concise, actionable answers
- Celebrate good traffic conditions and empathize with bad ones
- You know Dubai roads well - Sheikh Zayed Road, Al Khail, E11, Business Bay, Marina, DIFC, etc.
- When suggesting routes, explain WHY one is better
- Always offer to help further at the end

IMPORTANT:
- Use the provided tools to get real-time traffic data - never make up traffic information
- If a tool call fails, apologize and offer alternatives
- Convert times to minutes/hours in a human-friendly way
- For locations, always clarify if you're unsure which place the user means
- Keep responses under 150 words unless the user asks for details
- When reporting multiple routes, use formatting to make it easy to compare".

Definition greeting : string :=
  "Hey! I'm Yalla, your friendly Dubai traffic assistant! 🚗 How can I help you get where you need to go today?".

Definition session_history (conversationHistory : list Content) : list Content :=
  {| role := "user"; parts := ["System: " ++ YALLA_SYSTEM_PROMPT] |}
  :: {| role := "model"; parts := [greeting] |}
  :: conversationHistory.

Definition show_coordinate (w : World) (x : option Q) : string :=
  match x with
  | Some q => Number_toString w q
  | None => "undefined"
  end.

Definition enrichedMessage (w : World) (message : string)
    (userLocation : option Location) : string :=
  match userLocation with
  | Some loc =>
      "[User's current location: lat " ++ show_coordinate w (loc_lat loc)
        ++ ", lon " ++ show_coordinate w (loc_lon loc) ++ "]"
        ++ newline ++ newline ++ "User: " ++ message
  | None => message
  end.

(** [response.response.candidates?.[0]] *)
Definition first_candidate (r : GenerateResult) : option Candidate :=
  match candidates r with
  | Some (c :: _) => Some c
  | _ => None
  end.

(** [parts.find(p => p.functionCall)], projected on the call it holds. *)
Fixpoint find_functionCall (ps : list Part) : option FunctionCall :=
  match ps with
  | [] => None
  | p :: rest =>
      match functionCall p with
      | Some fc => Some fc
      | None => find_functionCall rest
      end
  end.

(** [parts.filter(p => p.text).map(p => p.text).join('')] *)
Fixpoint joined_text (ps : list Part) : string :=
  match ps with
  | [] => ""
  | p :: rest =>
      match text p with
      | Some t => if truthy_string t then t ++ joined_text rest else joined_text rest
      | None => joined_text rest
      end
  end.

Definition TypeError_parts : string :=
  "Cannot read properties of undefined (reading 'parts')".

(** *** The loop of [chat] *)

Definition maxIterations : nat := 5.

(** The variables of the loop, with two logs the source does not keep:
    [sent], the requests sent on the session, and [executed], the executor
    calls made, each in order. *)
Record LoopState : Type := {
  response : GenerateResult;
  responseText : string;
  iterations : nat;
  toolsUsed : list string;
  sent : list Request;
  executed : list (string * option Args)
}.

Definition count (st : LoopState) : LoopState :=
  {| response := response st; responseText := responseText st;
     iterations := S (iterations st); toolsUsed := toolsUsed st;
     sent := sent st; executed := executed st |}.

Definition push_tool (n : string) (st : LoopState) : LoopState :=
  {| response := response st; responseText := responseText st;
     iterations := iterations st; toolsUsed := toolsUsed st ++ [n];
     sent := sent st; executed := executed st |}.

Definition log_call (n : string) (a : option Args) (st : LoopState) : LoopState :=
  {| response := response st; responseText := responseText st;
     iterations := iterations st; toolsUsed := toolsUsed st;
     sent := sent st; executed := executed st ++ [(n, a)] |}.

Definition log_request (rq : Request) (st : LoopState) : LoopState :=
  {| response := response st; responseText := responseText st;
     iterations := iterations st; toolsUsed := toolsUsed st;
     sent := sent st ++ [rq]; executed := executed st |}.

Definition set_response (r : GenerateResult) (st : LoopState) : LoopState :=
  {| response := r; responseText := responseText st;
     iterations := iterations st; toolsUsed := toolsUsed st;
     sent := sent st; executed := executed st |}.

Definition set_text (t : string) (st : LoopState) : LoopState :=
  {| response := response st; responseText := t;
     iterations := iterations st; toolsUsed := toolsUsed st;
     sent := sent st; executed := executed st |}.

(** Why the loop was left. *)
Inductive Exit : Type :=
| FinalText
| NoCandidate
| UnknownTool (requested : string)
| BoundReached
| Caught (error_message : string).

(** One pass through the loop body. *)
Inductive Step : Type :=
| Continue (st : LoopState)
| Break (why : Exit) (st : LoopState)
| Throw (error_message : string) (st : LoopState).

(** [response = await chatSession.sendMessage(rq)] *)
Definition sendMessage (session : ChatSession) (rq : Request) (st : LoopState)
  : Step :=
  let st' := log_request rq st in
  match session (sent st') with
  | Returned r => Continue (set_response r st')
  | Thrown m => Throw m st'
  end.

(** [const result = await executor(args)] followed by the [sendMessage]
    of the function response; a rejected call leaves the [try] block. *)
Definition respond (session : ChatSession) (tool : string)
    (call : Completion ToolResult) (st : LoopState) : Step :=
  match call with
  | Returned result => sendMessage session (FunctionResponse tool result) st
  | Thrown m => Throw m st
  end.

Definition loop_body (w : World) (session : ChatSession) (st : LoopState) : Step :=
  let st := count st in
  match first_candidate (response st) with
  | None => Break NoCandidate st
  | Some candidate =>
      match content_parts candidate with
      | None => Throw TypeError_parts st
      | Some ps =>
          match find_functionCall ps with
          | Some fc =>
              let st := push_tool (name fc) st in
              let now := services w (iterations st) in
              match toolExecutors_get (name fc) with
              | Executor t =>
                  respond session (name fc)
                    (call_tool now t (args fc))
                    (log_call (name fc) (args fc) st)
              | Inherited key =>
                  respond session (name fc)
                    (inherited_call now key (args fc))
                    (log_call (name fc) (args fc) st)
              | Undefined => Break (UnknownTool (name fc)) st
              end
          | None => Break FinalText (set_text (joined_text ps) st)
          end
      end
  end.

(** How the [while] statement ends: by its guard or a [break], or by an
    error that leaves the [try] block. *)
Inductive LoopEnd : Type :=
| Left (why : Exit) (st : LoopState)
| Raised (error_message : string) (st : LoopState).

(** [while (iterations < maxIterations) { ... }].  [fuel] bounds the number
    of times the guard is evaluated; [None] is fuel exhausted. *)
Fixpoint while_loop (fuel : nat) (w : World) (session : ChatSession)
    (st : LoopState) : option LoopEnd :=
  match fuel with
  | O => None
  | S fuel' =>
      if (iterations st <? maxIterations)%nat then
        match loop_body w session st with
        | Continue st' => while_loop fuel' w session st'
        | Break why st' => Some (Left why st')
        | Throw m st' => Some (Raised m st')
        end
      else Some (Left BoundReached st)
  end.

(** The object [chat] resolves to. *)
Record ChatResult : Type := {
  success : bool;
  message : string;
  toolsUsed_returned : option (list string);
  error : option string
}.

Definition friendly_message : string :=
  "Oops! I had trouble processing that. Could you try rephrasing your question? 🤔".

(** The [return] after the loop. *)
Definition completed (st : LoopState) : ChatResult :=
  {| success := true;
     message := responseText st;
     toolsUsed_returned := Some (toolsUsed st);
     error := None |}.

(** The [return] of the [catch] block. *)
Definition caught (error_message : string) : ChatResult :=
  {| success := false;
     message := friendly_message;
     toolsUsed_returned := None;
     error := Some error_message |}.

(** A run of [chat]: what it returns, how the loop was left, and the
    variables and logs at that point. *)
Record Run : Type := {
  result : ChatResult;
  exit : Exit;
  final : LoopState
}.

Definition initial_state (r : GenerateResult) (first : Request) : LoopState :=
  {| response := r; responseText := ""; iterations := 0; toolsUsed := [];
     sent := [first]; executed := [] |}.

Definition no_response : GenerateResult := {| candidates := None |}.

Definition chat_fuel (fuel : nat) (w : World) (message : string)
    (context : Context) : option Run :=
  match startChat w (session_history (default [] (conversationHistory context))) with
  | Thrown m =>
      Some {| result := caught m; exit := Caught m;
              final := {| response := no_response; responseText := "";
                          iterations := 0; toolsUsed := []; sent := [];
                          executed := [] |} |}
  | Returned chatSession =>
      let first := TextMessage (enrichedMessage w message (userLocation context)) in
      match chatSession [first] with
      | Thrown m =>
          Some {| result := caught m; exit := Caught m;
                  final := initial_state no_response first |}
      | Returned r =>
          match while_loop fuel w chatSession (initial_state r first) with
          | None => None
          | Some (Left why st) =>
              Some {| result := completed st; exit := why; final := st |}
          | Some (Raised m st) =>
              Some {| result := caught m; exit := Caught m; final := st |}
          end
      end
  end.

(** [chat(message, context)]: the guard is evaluated at most
    [maxIterations + 1] times. *)
Definition chat (w : World) (message : string) (context : Context) : option Run :=
  chat_fuel (S maxIterations) w message context.

End YallaChat.

(** ** [routes/chat.js]: [POST /api/chat] *)

Module ChatRoute.

Import YallaChat.

(** [req.body.conversationHistory], by the cases the handler tells apart. *)
Inductive HistoryField : Type :=
| NoHistory                               (* undefined or null *)
| HistoryArray (turns : list Content)
| HistoryEmptyString                      (* '' *)
| HistoryFalsy                            (* 0, NaN or false *)
| HistoryOther.                           (* any other value: truthy, no array *)

(** [req.body]; [body_message] is [None] when [message] is missing or is
    not a string. *)
Record Body : Type := {
  body_message : option string;
  body_userLocation : option Location;
  body_conversationHistory : HistoryField
}.

(** What the handler writes with [res.status(..).json(..)]. *)
Inductive Reply : Type :=
| BadRequest (error : string)                              (* 400 *)
| Ok (chat_result : ChatResult)                            (* 200 *)
| ServerError (message : string) (error : option string).  (* 500 *)

(** [message.trim().length === 0]: nothing but white space. *)
Definition blank (s : string) : bool :=
  forallb is_white_space (code_points s).

(** [xs.slice(-10)] *)
Definition last_ten {A : Type} (xs : list A) : list A :=
  skipn (List.length xs - 10) xs.

Definition route_friendly_message : string :=
  "Sorry, I'm having trouble right now. Please try again in a moment!".

(** The [catch] block of the handler; [development] is
    [process.env.NODE_ENV === 'development']. *)
Definition server_error (development : bool) (error_message : string) : Reply :=
  ServerError route_friendly_message
    (if development then Some error_message else None).

(** [conversationHistory?.slice(-10) || []] *)
Definition limitedHistory (h : HistoryField) : Completion (list Content) :=
  match h with
  | NoHistory => Returned []
  | HistoryArray turns => Returned (last_ten turns)
  | HistoryEmptyString => Returned []
  | HistoryFalsy => Thrown "conversationHistory?.slice is not a function"
  | HistoryOther => Returned []
  end.

(** The handler of [router.post('/')].  [None]: the loop of [chat] ran out
    of fuel. *)
Definition post (development : bool) (w : World) (body : option Body)
  : option Reply :=
  match body with
  | None =>
      Some (server_error development
              "Cannot destructure property 'message' of 'req.body' as it is undefined.")
  | Some b =>
      match body_message b with
      | None => Some (BadRequest "Message is required")
      | Some message =>
          if blank message then Some (BadRequest "Message is required")
          else if (1000 <? String_length message)%nat
          then Some (BadRequest "Message too long (max 1000 characters)")
          else
            match body_conversationHistory b with
            | HistoryOther => Some (BadRequest "conversationHistory must be an array")
            | h =>
                match limitedHistory h with
                | Thrown m => Some (server_error development m)
                | Returned history =>
                    match chat w message
                            {| userLocation := body_userLocation b;
                               conversationHistory := Some history |} with
                    | Some run => Some (Ok (result run))
                    | None => None
                    end
                end
            end
      end
  end.

End ChatRoute.

(** ** Notions used to state the properties *)

Module Properties.

Import YallaChat.

(** The congestion tier as the specification words it: by the current
    speed as a fraction of the free-flow speed. *)
Definition tier_of_ratio (ratio : Q) : string :=
  if ltb ratio (30 # 100) then "severe"
  else if ltb ratio (50 # 100) then "heavy"
  else if ltb ratio (70 # 100) then "moderate"
  else if ltb ratio (90 # 100) then "light"
  else "clear".

(** What [search_place] makes of the answer to its one text search. *)
Definition search_place_outcome (a : Args) (answer : Completion GooglePlaces.SearchData)
  : ToolResult :=
  match answer with
  | Returned data =>
      match GooglePlaces.default [] (GooglePlaces.places data) with
      | [] => Failure "No places found" (query a)
      | results => Places (map GooglePlaces.transformPlace (firstn 3 results)) (query a)
      end
  | Thrown m => Failure m (query a)
  end.

(** The computation for one offset yields no entry. *)
Definition offset_fails (w : Services) (a : Args) (offset : Z) : Prop :=
  match tomtom_calculateRoute w (departure_request w a offset) with
  | Thrown _ => True
  | Returned data =>
      match first_route data with
      | None => True
      | Some route => summary route = None
      end
  end.

(** The loop is about to inspect a model turn that asks for [fc]. *)
Definition requests (st : LoopState) (fc : FunctionCall) : Prop :=
  exists candidate ps,
    first_candidate (response st) = Some candidate /\
    content_parts candidate = Some ps /\
    find_functionCall ps = Some fc.

(** A completed [sendMessage] whose model turn asks for one of the five
    registered tools, with an [args] object. *)
Definition asks_registered_tool (c : Completion GenerateResult) : Prop :=
  exists r candidate ps fc t a,
    c = Returned r /\
    first_candidate r = Some candidate /\
    content_parts candidate = Some ps /\
    find_functionCall ps = Some fc /\
    toolExecutors_get (name fc) = Executor t /\
    args fc = Some a.

(** [reaches w session st st']: the loop, entered in [st], is at the top of
    a pass in [st'] after zero or more full passes. *)
Inductive reaches (w : World) (session : ChatSession)
  : LoopState -> LoopState -> Prop :=
| reaches_here : forall st, reaches w session st st
| reaches_next : forall st st' st'',
    (iterations st < maxIterations)%nat ->
    loop_body w session st = Continue st' ->
    reaches w session st' st'' ->
    reaches w session st st''.

(** The state a pass, or the loop, ends in. *)
Definition step_state (s : Step) : LoopState :=
  match s with
  | Continue st => st
  | Break _ st => st
  | Throw _ st => st
  end.

Definition end_state (e : LoopEnd) : LoopState :=
  match e with
  | Left _ st => st
  | Raised _ st => st
  end.

(** The loop, with exactly the fuel its guard needs. *)
Definition loop_end (w : World) (session : ChatSession) (st : LoopState)
  : option LoopEnd :=
  while_loop (S (maxIterations - iterations st)) w session st.

(** The first request of a conversation. *)
Definition first_request (w : World) (message : string) (context : Context)
  : Request :=
  TextMessage (enrichedMessage w message (userLocation context)).

(** The state at the top of the pass that follows [n] full passes, when the
    loop gets that far. *)
Fixpoint passes (w : World) (session : ChatSession) (n : nat) (st : LoopState)
  : option LoopState :=
  match n with
  | O => Some st
  | S n' =>
      if (iterations st <? maxIterations)%nat then
        match loop_body w session st with
        | Continue st' => passes w session n' st'
        | _ => None
        end
      else None
  end.

(** The model turn the run inspects, or would inspect, after [k] full
    passes asks for a registered tool: the run that enters the loop in
    [st] gets that far, and the turn it then holds is such a request.
    Turn [k + 1] of the conversation is the one held after [k] passes. *)
Definition turn_asks (w : World) (session : ChatSession) (st : LoopState)
    (k : nat) : Prop :=
  exists st',
    reaches w session st st' /\
    iterations st' = k /\
    asks_registered_tool (Returned (response st')).








End Properties.

(** ** The speed tests of [get_traffic_flow] on IEEE doubles *)

Module Binary64.

Import YallaChat PrimFloat.

#[local] Set Warnings "-inexact-float".

(** The chain of [flow_condition], with the product and the comparison of
    binary64 and the constants rounded as the source's literals are. *)
Definition flow_condition (currentSpeed freeFlowSpeed : PrimFloat.float) : string :=
  if PrimFloat.ltb currentSpeed (PrimFloat.mul freeFlowSpeed 0.3%float) then "severe"
  else if PrimFloat.ltb currentSpeed (PrimFloat.mul freeFlowSpeed 0.5%float) then "heavy"
  else if PrimFloat.ltb currentSpeed (PrimFloat.mul freeFlowSpeed 0.7%float) then "moderate"
  else if PrimFloat.ltb currentSpeed (PrimFloat.mul freeFlowSpeed 0.9%float) then "light"
  else "clear".

Definition of_Z (z : Z) : PrimFloat.float := PrimFloat.of_uint63 (Uint63.of_Z z).

(** The two readings give one tier for whole speeds [c] and [f]. *)
Definition agree (c f : Z) : bool :=
  String.eqb (flow_condition (of_Z c) (of_Z f))
             (YallaChat.flow_condition (inject_Z c) (inject_Z f)).

Definition upto (n : nat) : list Z := map Z.of_nat (seq 0 (S n)).

Definition agree_upto (n : nat) : bool :=
  forallb (fun f => forallb (fun c => agree c f) (upto n)) (upto n).




End Binary64.

(** ** Concrete services, models and conversations *)

Module Scenario.

Import GooglePlaces YallaChat.

(** Services none of which answers. *)
Definition offline : Services :=
  {| places_searchText := fun _ => Thrown "External service unavailable";
     tomtom_calculateRoute := fun _ => Thrown "External service unavailable";
     tomtom_flowSegmentData := fun _ => Thrown "External service unavailable";
     tomtom_incidentDetails := fun _ => Thrown "External service unavailable";
     Date_now := fun _ => 1700000000000%Z;
     cos_degrees := fun _ => (9 # 10)%Q;
     inherited_call := fun _ _ => Thrown "executor is not a function" |}.

(** The flow service reports one segment. *)
Definition flowing (flow : FlowSegmentData) : Services :=
  {| places_searchText := places_searchText offline;
     tomtom_calculateRoute := tomtom_calculateRoute offline;
     tomtom_flowSegmentData := fun _ => Returned {| flowSegmentData := Some flow |};
     tomtom_incidentDetails := tomtom_incidentDetails offline;
     Date_now := Date_now offline;
     cos_degrees := cos_degrees offline;
     inherited_call := inherited_call offline |}.

(** The incident service answers with no incident. *)
Definition quiet_roads : Services :=
  {| places_searchText := places_searchText offline;
     tomtom_calculateRoute := tomtom_calculateRoute offline;
     tomtom_flowSegmentData := tomtom_flowSegmentData offline;
     tomtom_incidentDetails := fun _ => Returned {| incidents := Some [] |};
     Date_now := Date_now offline;
     cos_degrees := cos_degrees offline;
     inherited_call := inherited_call offline |}.

Definition one_route (seconds : Z) : RouteData :=
  {| routes := Some [ {| summary := Some
       {| travelTimeInSeconds := seconds; lengthInMeters := 24000;
          trafficDelayInSeconds := Some 300%Z; arrivalTime := None |} |} ] |}.

(** The routing service answers by how far ahead of [Date.now()] the
    departure is: [travel minutes_ahead] is the travel time in seconds, or
    [None] when the call is rejected. *)
Definition routing (travel : Z -> option Z) : Services :=
  {| places_searchText := places_searchText offline;
     tomtom_calculateRoute := fun rq =>
       match rq_departAt rq with
       | Some t =>
           match travel ((t - 1700000000000) / 60000)%Z with
           | Some seconds => Returned (one_route seconds)
           | None => Thrown "External service unavailable"
           end
       | None => Thrown "External service unavailable"
       end;
     tomtom_flowSegmentData := tomtom_flowSegmentData offline;
     tomtom_incidentDetails := tomtom_incidentDetails offline;
     Date_now := Date_now offline;
     cos_degrees := cos_degrees offline;
     inherited_call := inherited_call offline |}.

(** Travel times of 40, 35, 45 and 50 minutes at the four offsets. *)
Definition all_four (ahead : Z) : option Z :=
  match ahead with
  | 0%Z => Some 2400%Z
  | 30%Z => Some 2100%Z
  | 60%Z => Some 2700%Z
  | 120%Z => Some 3000%Z
  | _ => None
  end.

(** The computation for leaving now is rejected; the others give 35, 30
    and 50 minutes. *)
Definition now_rejected (ahead : Z) : option Z :=
  match ahead with
  | 30%Z => Some 2100%Z
  | 60%Z => Some 1800%Z
  | 120%Z => Some 3000%Z
  | _ => None
  end.

Definition trip : Args :=
  {| query := None; nearLat := None; nearLon := None;
     originLat := Some (25204 # 1000)%Q; originLon := Some (55270 # 1000)%Q;
     destLat := Some (25197 # 1000)%Q; destLon := Some (55279 # 1000)%Q;
     lat := None; lon := None; radiusKm := None |}.

Definition here : Args :=
  {| query := None; nearLat := None; nearLon := None;
     originLat := None; originLon := None; destLat := None; destLon := None;
     lat := Some (25204 # 1000)%Q; lon := Some (55270 # 1000)%Q;
     radiusKm := None |}.

Definition near (la ln : Q) : Args :=
  {| query := Some "Dubai Mall"; nearLat := Some la; nearLon := Some ln;
     originLat := None; originLon := None; destLat := None; destLon := None;
     lat := None; lon := None; radiusKm := None |}.

Definition segment (current free : Q) (closure : option bool) : FlowSegmentData :=
  {| currentSpeed := current; freeFlowSpeed := free; roadClosure := closure |}.

(** A model turn that asks for one tool. *)
Definition tool_turn (tool : string) (a : Args) : GenerateResult :=
  {| candidates := Some [ {| content_parts := Some
       [ {| text := None;
            functionCall := Some {| name := tool; args := Some a |} |} ] |} ] |}.

(** A model that asks for the same tool whatever it is sent. *)
Definition insisting (tool : string) (a : Args) : ChatSession :=
  fun _ => Returned (tool_turn tool a).

Definition world_of (start : Completion ChatSession) (s : Services) : World :=
  {| startChat := fun _ => start;
     Number_toString := fun _ => "25.2";
     services := fun _ => s |}.

(** The model asks for [get_incidents] on every turn. *)
Definition greedy : World :=
  world_of (Returned (insisting "get_incidents" here)) quiet_roads.

(** The model asks for a tool that is not in the table. *)
Definition confused : World :=
  world_of (Returned (insisting "get_weather" here)) quiet_roads.

(** The model asks for [toString], a name every object inherits; the
    member found there returns the tag of its receiver. *)
Definition literal : World :=
  world_of (Returned (insisting "toString" here))
    {| places_searchText := places_searchText offline;
       tomtom_calculateRoute := tomtom_calculateRoute offline;
       tomtom_flowSegmentData := tomtom_flowSegmentData offline;
       tomtom_incidentDetails := tomtom_incidentDetails offline;
       Date_now := Date_now offline;
       cos_degrees := cos_degrees offline;
       inherited_call := fun _ _ => Returned (Foreign "[object Undefined]") |}.

(** The model asks for [get_incidents] and gives no arguments. *)
Definition forgetful : World :=
  world_of
    (Returned (fun _ => Returned
       {| candidates := Some [ {| content_parts := Some
            [ {| text := None;
                 functionCall := Some {| name := "get_incidents";
                                         args := None |} |} ] |} ] |}))
    quiet_roads.

(** The model cannot be reached: every [sendMessage] is rejected. *)
Definition unreachable : World :=
  world_of
    (Returned (fun _ => Thrown "API key not valid. Please pass a valid API key."))
    quiet_roads.

Definition no_context : Context :=
  {| userLocation := None; conversationHistory := None |}.

Definition question : string := "Any incidents nearby?".


End Scenario.

(** ** Plain objects: properties in insertion order *)

Module PlainObject.

Definition Obj (V : Type) : Type := list (string * V).

(** [o[k]] *)
Fixpoint get {V : Type} (k : string) (o : Obj V) : option V :=
  match o with
  | [] => None
  | (k', v) :: rest => if String.eqb k' k then Some v else get k rest
  end.

(** [o[k] = v]: an existing property keeps its place, a new one goes last. *)
Fixpoint set {V : Type} (k : string) (v : V) (o : Obj V) : Obj V :=
  match o with
  | [] => [(k, v)]
  | (k', v') :: rest =>
      if String.eqb k' k then (k', v) :: rest else (k', v') :: set k v rest
  end.

End PlainObject.

(** ** [utils/tomtom.js]: the client and its two interceptors *)

Module TomTomClient.

Import PlainObject.

Inductive ParamValue : Type :=
| Text (s : string)
| Number (q : Q)
| Flag (b : bool).

(** The request configuration, as far as the service uses it. *)
Record Config : Type := {
  url : string;
  params : option (Obj ParamValue)
}.

(** A rejected request: the error's [message] and, when the server
    answered, [error.response.status]. *)
Record AxiosError : Type := {
  error_message : string;
  response_status : option Z
}.

(** The request interceptor; the argument is [process.env.TOMTOM_API_KEY]. *)
Definition addKey (TOMTOM_API_KEY : option string) (config : Config)
  : Completion Config :=
  match TOMTOM_API_KEY with
  | Some apiKey =>
      if truthy_string apiKey then
        Returned {| url := url config;
                    params := Some (set "key" (Text apiKey)
                                      (GooglePlaces.default [] (params config))) |}
      else Thrown "TOMTOM_API_KEY not configured"
  | None => Thrown "TOMTOM_API_KEY not configured"
  end.

(** The rejection handler of the response interceptor: the message of the
    error it throws. *)
Definition rejected (error : AxiosError) : string :=
  match response_status error with
  | Some status =>
      if ((status =? 401) || (status =? 403))%Z then "API authentication failed"
      else if (status =? 429)%Z then "Rate limit exceeded"
      else if (500 <=? status)%Z then "External service unavailable"
      else error_message error
  | None => error_message error
  end.

(** [tomtom.get(url, { params })]: the request interceptor, the transport,
    the response interceptor.  An error of the request interceptor has no
    [response] and passes the rejection handler as it is. *)
Definition get {D : Type} (TOMTOM_API_KEY : option string)
    (transport : Config -> AxiosError + D) (config : Config) : Completion D :=
  match addKey TOMTOM_API_KEY config with
  | Returned config' =>
      match transport config' with
      | inl error => Thrown (rejected error)
      | inr data => Returned data
      end
  | Thrown m => Thrown (rejected {| error_message := m; response_status := None |})
  end.

End TomTomClient.

(** ** [utils/googlePlaces.js]: the rejection handler of the client *)

Module PlacesClient.

Import TomTomClient.

Definition rejected (error : AxiosError) : string :=
  match response_status error with
  | Some status =>
      if ((status =? 401) || (status =? 403))%Z then "Google API authentication failed"
      else if (status =? 429)%Z then "Rate limit exceeded"
      else if (500 <=? status)%Z then "External service unavailable"
      else error_message error
  | None => error_message error
  end.

End PlacesClient.

(** ** [utils/cache.js]: [getOrFetch] *)

Module Cache.

Section Values.

Variable V : Type.

(** One [NodeCache], seen through [get]: the value under a key now, [None]
    for [undefined]. *)
Definition Store : Type := string -> option V.

(** [cache.set(key, data)] *)
Definition store_set (s : Store) (key : string) (data : option V) : Store :=
  fun k => if String.eqb k key then data else s k.

(** The object [caches]. *)
Record Caches : Type := {
  traffic : Store;
  incidents : Store;
  routes : Store;
  search : Store;
  geocoding : Store
}.

Inductive CacheType : Type :=
| Traffic | Incidents | Routes | Search | Geocoding.

Definition cacheType_of (name : string) : option CacheType :=
  if String.eqb name "traffic" then Some Traffic
  else if String.eqb name "incidents" then Some Incidents
  else if String.eqb name "routes" then Some Routes
  else if String.eqb name "search" then Some Search
  else if String.eqb name "geocoding" then Some Geocoding
  else None.

Definition select (caches : Caches) (t : CacheType) : Store :=
  match t with
  | Traffic => traffic caches
  | Incidents => incidents caches
  | Routes => routes caches
  | Search => search caches
  | Geocoding => geocoding caches
  end.

Definition replace (caches : Caches) (t : CacheType) (s : Store) : Caches :=
  match t with
  | Traffic =>
      {| traffic := s; incidents := incidents caches; routes := routes caches;
         search := search caches; geocoding := geocoding caches |}
  | Incidents =>
      {| traffic := traffic caches; incidents := s; routes := routes caches;
         search := search caches; geocoding := geocoding caches |}
  | Routes =>
      {| traffic := traffic caches; incidents := incidents caches; routes := s;
         search := search caches; geocoding := geocoding caches |}
  | Search =>
      {| traffic := traffic caches; incidents := incidents caches;
         routes := routes caches; search := s; geocoding := geocoding caches |}
  | Geocoding =>
      {| traffic := traffic caches; incidents := incidents caches;
         routes := routes caches; search := search caches; geocoding := s |}
  end.

(** What [getOrFetch] resolves to. *)
Record Fetched : Type := { data : option V; cached : bool }.

(** [getOrFetch(cacheType, key, fetchFn)] on the caches as they are, with
    the caches it leaves.  [fetchFn] is how the call of [fetchFn] completes
    if it is made.  A name [caches] only inherits from [Object.prototype]
    is truthy and has no [get]. *)
Definition getOrFetch (caches : Caches) (cacheType key : string)
    (fetchFn : Completion (option V)) : Completion Fetched * Caches :=
  match cacheType_of cacheType with
  | Some t =>
      match select caches t key with
      | Some hit => (Returned {| data := Some hit; cached := true |}, caches)
      | None =>
          match fetchFn with
          | Returned fresh =>
              (Returned {| data := fresh; cached := false |},
               replace caches t (store_set (select caches t) key fresh))
          | Thrown m => (Thrown m, caches)
          end
      end
  | None =>
      if existsb (String.eqb cacheType) YallaChat.Object_prototype_keys
      then (Thrown "cache.get is not a function", caches)
      else (Thrown ("Unknown cache type: " ++ cacheType), caches)
  end.

End Values.

Arguments store_set {V} s key data.
Arguments traffic {V} c.
Arguments incidents {V} c.
Arguments routes {V} c.
Arguments search {V} c.
Arguments geocoding {V} c.
Arguments select {V} caches t.
Arguments replace {V} caches t s.
Arguments data {V} f.
Arguments cached {V} f.
Arguments getOrFetch {V} caches cacheType key fetchFn.

End Cache.

(** ** [routes/traffic.js]: the cached proxies of TomTom *)

Module TrafficRoute.

Import PlainObject TomTomClient.

#[local] Unset Elimination Schemes.

(** A JSON value, as [response.data] holds it. *)
Inductive Json : Type :=
| JNull
| JBool (b : bool)
| JNumber (q : Q)
| JString (s : string)
| JArray (items : list Json)
| JObject (fields : Obj Json).

#[local] Set Elimination Schemes.

Fixpoint indexed (i : Z) (items : list Json) : Obj Json :=
  match items with
  | [] => []
  | x :: rest => (show_Z i, x) :: indexed (i + 1) rest
  end.

Fixpoint characters (i : Z) (s : string) : Obj Json :=
  match s with
  | EmptyString => []
  | String c rest =>
      (show_Z i, JString (String c EmptyString)) :: characters (i + 1) rest
  end.

(** [{ ...data }]: the own enumerable properties of [data]. *)
Definition spread (data : option Json) : Obj Json :=
  match data with
  | Some (JObject fields) => fields
  | Some (JArray items) => indexed 0 items
  | Some (JString s) => characters 0 s
  | _ => []
  end.

(** What a handler writes. *)
Inductive Reply : Type :=
| BadRequest (error : string)      (* 400 *)
| Ok (body : Obj Json)             (* 200 *)
| ServerError (error : string).    (* 500 *)

(** [{ ...data, _cached: cached }] *)
Definition with_cached (f : Cache.Fetched Json) : Obj Json :=
  set "_cached" (JBool (Cache.cached f)) (spread (Cache.data f)).

(** [error.message || fallback] *)
Definition message_or (m fallback : string) : string :=
  if truthy_string m then m else fallback.

(** [req.query] of [GET /flow]. *)
Record FlowQuery : Type := {
  lat : option string;
  lng : option string;
  zoom : option string
}.

Definition flow_cacheKey (lat lng zoom : string) : string :=
  "flow:" ++ lat ++ ":" ++ lng ++ ":" ++ zoom.

Definition flow_config (lat lng zoom : string) : Config :=
  {| url := "/traffic/services/4/flowSegmentData/relative0/" ++ zoom ++ "/json";
     params := Some [("point", Text (lat ++ "," ++ lng)); ("unit", Text "KMPH")] |}.

(** The handler of [GET /flow], on the caches as they are, with the caches
    it leaves; [tomtom_get] is [tomtom.get] followed by [response.data]. *)
Definition flow (tomtom_get : Config -> Completion (option Json))
    (caches : Cache.Caches Json) (query : FlowQuery)
  : Reply * Cache.Caches Json :=
  let zoom := GooglePlaces.default "10" (zoom query) in
  match lat query, lng query with
  | Some lat, Some lng =>
      if truthy_string lat && truthy_string lng then
        match Cache.getOrFetch caches "traffic" (flow_cacheKey lat lng zoom)
                (tomtom_get (flow_config lat lng zoom)) with
        | (Returned fetched, caches') => (Ok (with_cached fetched), caches')
        | (Thrown m, caches') =>
            (ServerError (message_or m "Failed to fetch traffic flow"), caches')
        end
      else (BadRequest "lat and lng are required", caches)
  | _, _ => (BadRequest "lat and lng are required", caches)
  end.

(** [req.query] of [GET /incidents]. *)
Record IncidentsQuery : Type := {
  minLat : option string;
  minLng : option string;
  maxLat : option string;
  maxLng : option string
}.

Definition incidents_cacheKey (minLat minLng maxLat maxLng : string) : string :=
  "incidents:" ++ minLat ++ ":" ++ minLng ++ ":" ++ maxLat ++ ":" ++ maxLng.

Definition incidents_fields : string :=
  "{incidents{type,geometry{type,coordinates},properties{iconCategory,magnitudeOfDelay,events{description,code,iconCategory},startTime,endTime,from,to,length,delay,roadNumbers,aci{probabilityOfOccurrence,numberOfReports,lastReportTime}}}}".

Definition incidents_config (minLat minLng maxLat maxLng : string) : Config :=
  {| url := "/traffic/services/5/incidentDetails";
     params := Some
       [("bbox", Text (minLng ++ "," ++ minLat ++ "," ++ maxLng ++ "," ++ maxLat));
        ("fields", Text incidents_fields);
        ("language", Text "en-GB");
        ("categoryFilter", Text "0,1,2,3,4,5,6,7,8,9,10,11,14");
        ("timeValidityFilter", Text "present")] |}.

Definition required (v : option string) : option string :=
  match v with
  | Some s => if truthy_string s then Some s else None
  | None => None
  end.

(** The handler of [GET /incidents]. *)
Definition incidents (tomtom_get : Config -> Completion (option Json))
    (caches : Cache.Caches Json) (query : IncidentsQuery)
  : Reply * Cache.Caches Json :=
  match required (minLat query), required (minLng query),
        required (maxLat query), required (maxLng query) with
  | Some minLat, Some minLng, Some maxLat, Some maxLng =>
      match Cache.getOrFetch caches "incidents"
              (incidents_cacheKey minLat minLng maxLat maxLng)
              (tomtom_get (incidents_config minLat minLng maxLat maxLng)) with
      | (Returned fetched, caches') => (Ok (with_cached fetched), caches')
      | (Thrown m, caches') =>
          (ServerError (message_or m "Failed to fetch incidents"), caches')
      end
  | _, _, _, _ =>
      (BadRequest "Bounding box required: minLat, minLng, maxLat, maxLng", caches)
  end.

(** Caches with nothing in them. *)
Definition empty_caches : Cache.Caches Json :=
  {| Cache.traffic := fun _ => None; Cache.incidents := fun _ => None;
     Cache.routes := fun _ => None; Cache.search := fun _ => None;
     Cache.geocoding := fun _ => None |}.

End TrafficRoute.

(** ** Further notions and cases *)

Module Notions.

Import YallaChat.

(** How bad a tier is, from clear to severe. *)
Definition tier_rank (condition : string) : nat :=
  if String.eqb condition "severe" then 4
  else if String.eqb condition "heavy" then 3
  else if String.eqb condition "moderate" then 2
  else if String.eqb condition "light" then 1
  else 0.

(** The computation for one offset yields an entry. *)
Definition survives (w : Services) (a : Args) (offset : Z) : bool :=
  match departure_entry w a offset with
  | Some _ => true
  | None => false
  end.

(** The name the loop was left for, when it was left for an unknown tool. *)
Definition unknown_name (why : Exit) : list string :=
  match why with
  | UnknownTool n => [n]
  | _ => []
  end.

End Notions.

Module Cases.

Import GooglePlaces YallaChat.

Definition incident (category : Z) : Incident :=
  {| properties := Some
       {| iconCategory := Some category; magnitudeOfDelay := Some 2%Z;
          events := None; from := None; to := None; delay := Some 90%Q |} |}.

(** The incident service answers with seven incidents. *)
Definition busy_roads : Services :=
  {| places_searchText := places_searchText Scenario.offline;
     tomtom_calculateRoute := tomtom_calculateRoute Scenario.offline;
     tomtom_flowSegmentData := tomtom_flowSegmentData Scenario.offline;
     tomtom_incidentDetails := fun _ =>
       Returned {| incidents := Some (map incident [1; 6; 6; 7; 8; 9; 14]%Z) |};
     Date_now := Date_now Scenario.offline;
     cos_degrees := cos_degrees Scenario.offline;
     inherited_call := inherited_call Scenario.offline |}.

Definition route_of (seconds metres : Z) : Route :=
  {| summary := Some {| travelTimeInSeconds := seconds; lengthInMeters := metres;
                        trafficDelayInSeconds := None; arrivalTime := None |} |}.

(** The routing service answers every request with the given routes. *)
Definition routes_found (rs : list Route) : Services :=
  {| places_searchText := places_searchText Scenario.offline;
     tomtom_calculateRoute := fun _ => Returned {| routes := Some rs |};
     tomtom_flowSegmentData := tomtom_flowSegmentData Scenario.offline;
     tomtom_incidentDetails := tomtom_incidentDetails Scenario.offline;
     Date_now := Date_now Scenario.offline;
     cos_degrees := cos_degrees Scenario.offline;
     inherited_call := inherited_call Scenario.offline |}.

Definition place_named (n : string) : Place :=
  {| id := Some n; displayName_text := Some n; formattedAddress := None;
     shortFormattedAddress := None; location := None; primaryType := None;
     types := None |}.

(** The text search finds the given places. *)
Definition places_found (ps : list Place) : Services :=
  {| places_searchText := fun _ => Returned {| places := Some ps |};
     tomtom_calculateRoute := tomtom_calculateRoute Scenario.offline;
     tomtom_flowSegmentData := tomtom_flowSegmentData Scenario.offline;
     tomtom_incidentDetails := tomtom_incidentDetails Scenario.offline;
     Date_now := Date_now Scenario.offline;
     cos_degrees := cos_degrees Scenario.offline;
     inherited_call := inherited_call Scenario.offline |}.

(** Leaving now and leaving in 30 minutes both take 35 minutes. *)
Definition level (ahead : Z) : option Z :=
  match ahead with
  | 0%Z => Some 2100%Z
  | 30%Z => Some 2100%Z
  | 60%Z => Some 2700%Z
  | _ => None
  end.

(** A model turn of plain text. *)
Definition text_turn (t : string) : GenerateResult :=
  {| candidates := Some [ {| content_parts := Some
       [ {| text := Some t; functionCall := None |} ] |} ] |}.

(** A model that answers the first message with text. *)
Definition talkative : World :=
  Scenario.world_of (Returned (fun _ => Returned (text_turn "Roads are clear!")))
    Scenario.quiet_roads.

(** A model that asks for the traffic flow once, then answers with text. *)
Definition one_lookup : ChatSession :=
  fun log =>
    match log with
    | [_] => Returned (Scenario.tool_turn "get_traffic_flow" Scenario.here)
    | _ => Returned (text_turn "Sorry, I could not reach the traffic service.")
    end.

Definition unlucky : World :=
  Scenario.world_of (Returned one_lookup) Scenario.offline.

Definition turn (n : nat) : Content :=
  {| role := "user"; parts := [Js.show_Z (Z.of_nat n)] |}.

Definition twelve_turns : list Content := map turn (seq 0 12).

Definition body_with (m : option string) (h : ChatRoute.HistoryField)
  : ChatRoute.Body :=
  {| ChatRoute.body_message := m;
     ChatRoute.body_userLocation := None;
     ChatRoute.body_conversationHistory := h |}.

(** U+00A0, a no-break space, and U+3000, an ideographic space, in UTF-8. *)
Definition no_break_space : string :=
  String (ascii_of_nat 194) (String (ascii_of_nat 160) EmptyString).

Definition ideographic_space : string :=
  String (ascii_of_nat 227)
    (String (ascii_of_nat 128) (String (ascii_of_nat 128) EmptyString)).

(** [n] times the same text. *)
Fixpoint times (n : nat) (s : string) : string :=
  match n with
  | O => EmptyString
  | S n' => s ++ times n' s
  end.

(** 600 accented letters, of two bytes each, and a question after them. *)
Definition accented_question : string := times 600 "é" ++ " ?".

End Cases.

Module TrafficCases.

Import PlainObject TomTomClient TrafficRoute.

(** A request that already carries a [key] and a unit. *)
Definition keyed_config : Config :=
  {| url := "/traffic/services/4/flowSegmentData/relative0/10/json";
     params := Some [("key", Text "mine"); ("unit", Text "KMPH")] |}.

Definition segment_data : Json :=
  JObject [("flowSegmentData",
            JObject [("currentSpeed", JNumber 42); ("freeFlowSpeed", JNumber 80)]);
           ("_cached", JString "upstream")].

(** TomTom answers every request with the same segment. *)
Definition answering : Config -> Completion (option Json) :=
  fun _ => Returned (Some segment_data).

(** TomTom rejects every request, with an empty message. *)
Definition silent : Config -> Completion (option Json) :=
  fun _ => Thrown "".

Definition marina : FlowQuery :=
  {| lat := Some "25.08"; lng := Some "55.14"; zoom := None |}.

Definition no_latitude : FlowQuery :=
  {| lat := Some ""; lng := Some "55.14"; zoom := None |}.

Definition half_box : IncidentsQuery :=
  {| minLat := Some "25.0"; minLng := Some "55.0"; maxLat := None;
     maxLng := Some "55.4" |}.

End TrafficCases.

(** * Properties *)

Import Js GooglePlaces YallaChat Properties.

(** ** Numbers *)

Lemma ltb_lt (x y : Q) : ltb x y = true <-> (x < y)%Q.
Proof.
  unfold ltb. rewrite negb_true_iff.
  destruct (Qle_bool y x) eqn:E.
  - apply Qle_bool_iff in E. split; [discriminate|].
    intro H. exfalso. exact (Qlt_not_le _ _ H E).
  - split; [intros _|reflexivity].
    apply Qnot_le_lt. intro H. apply Qle_bool_iff in H. congruence.
Qed.

Lemma ltb_ge (x y : Q) : ltb x y = false <-> (y <= x)%Q.
Proof.
  unfold ltb. rewrite negb_false_iff. apply Qle_bool_iff.
Qed.

(** Two tests that decide the same order agree. *)
Lemma ltb_ext (x y x' y' : Q) :
  ((x < y)%Q <-> (x' < y')%Q) -> ltb x y = ltb x' y'.
Proof.
  intros H.
  destruct (ltb x y) eqn:E, (ltb x' y') eqn:E'; try reflexivity.
  - apply ltb_lt in E. apply H in E. apply ltb_lt in E. congruence.
  - apply ltb_lt in E'. apply H in E'. apply ltb_lt in E'. congruence.
Qed.

(** Comparing a speed with a fraction of a positive speed is comparing
    their ratio with the fraction. *)
Lemma ltb_fraction (current free c : Q) :
  (0 < free)%Q -> ltb current (free * c) = ltb (current / free) c.
Proof.
  intros Hfree. apply ltb_ext. split; intros H.
  - apply Qlt_shift_div_r; [exact Hfree|].
    rewrite Qmult_comm. exact H.
  - assert (Hne : ~ (free == 0)%Q).
    { intro E. rewrite E in Hfree. discriminate. }
    rewrite <- (Qmult_div_r current free Hne).
    apply Qmult_lt_l; assumption.
Qed.

Lemma ltb_same_bound (x c c' : Q) : (c == c')%Q -> ltb x c = ltb x c'.
Proof.
  intros E. apply ltb_ext. rewrite E. reflexivity.
Qed.

Example Math_round_half_up :
  Math_round (5 # 2) = 3%Z /\ Math_round (-5 # 2) = (-2)%Z /\
  Math_round (2100 / 60) = 35%Z /\ Math_round (7 # 5) = 1%Z.
Proof. repeat split; reflexivity. Qed.

Example toFixed1_examples :
  toFixed1 (12345 / 1000) = "12.3" /\ toFixed1 (980 / 1000) = "1.0" /\
  toFixed1 (40 / 1000) = "0.0".
Proof. repeat split; reflexivity. Qed.

Example show_Z_examples :
  show_Z 5 = "5" /\ show_Z 0 = "0" /\ show_Z (-12) = "-12".
Proof. repeat split; reflexivity. Qed.

(** [length] counts UTF-16 code units and [trim] removes Unicode white
    space, whatever the bytes that hold them. *)
Example String_length_examples :
  String_length "Marina" = 6%nat /\
  String_length "é" = 1%nat /\
  String_length "🤔" = 2%nat /\
  String_length Cases.accented_question = 602%nat /\
  String.length Cases.accented_question = 1202%nat /\
  ChatRoute.blank (" " ++ Cases.no_break_space ++ Cases.ideographic_space) = true /\
  ChatRoute.blank "" = true /\
  ChatRoute.blank " é" = false.
Proof. repeat split; vm_compute; reflexivity. Qed.

(** ** [get_traffic_flow] *)

Lemma flow_condition_ratio (current free : Q) :
  (0 < free)%Q -> flow_condition current free = tier_of_ratio (current / free).
Proof.
  intros Hfree. unfold flow_condition, tier_of_ratio.
  rewrite !(ltb_fraction _ _ _ Hfree).
  rewrite (ltb_same_bound _ (3 # 10) (30 # 100)) by reflexivity.
  rewrite (ltb_same_bound _ (5 # 10) (50 # 100)) by reflexivity.
  rewrite (ltb_same_bound _ (7 # 10) (70 # 100)) by reflexivity.
  rewrite (ltb_same_bound _ (9 # 10) (90 # 100)) by reflexivity.
  reflexivity.
Qed.

(** With no free-flow speed to compare with, no test of the chain holds. *)
Lemma flow_condition_standstill (current : Q) :
  (0 <= current)%Q -> flow_condition current 0 = "clear".
Proof.
  intros H. unfold flow_condition.
  assert (E : forall c, ltb current (0 * c) = false).
  { intro c. apply ltb_ge. rewrite Qmult_0_l. exact H. }
  rewrite !E. reflexivity.
Qed.

Lemma upto_spec (n : nat) (z : Z) :
  (0 <= z <= Z.of_nat n)%Z -> In z (Binary64.upto n).
Proof.
  intros H. unfold Binary64.upto. apply in_map_iff.
  exists (Z.to_nat z). split; [lia|].
  apply in_seq. lia.
Qed.

Lemma agree_upto_spec (n : nat) (c f : Z) :
  Binary64.agree_upto n = true ->
  (0 <= c <= Z.of_nat n)%Z -> (0 <= f <= Z.of_nat n)%Z ->
  Binary64.agree c f = true.
Proof.
  unfold Binary64.agree_upto. intros Hgrid Hc Hf.
  rewrite forallb_forall in Hgrid.
  specialize (Hgrid f (upto_spec n f Hf)).
  rewrite forallb_forall in Hgrid.
  exact (Hgrid c (upto_spec n c Hc)).
Qed.

Lemma binary64_grid : Binary64.agree_upto 300 = true.
Proof. vm_compute. reflexivity. Qed.


Example binary64_examples :
  Binary64.flow_condition (Binary64.of_Z 20) (Binary64.of_Z 80) = "severe" /\
  Binary64.flow_condition (Binary64.of_Z 75) (Binary64.of_Z 80) = "clear" /\
  Binary64.flow_condition (Binary64.of_Z 63) (Binary64.of_Z 90) = "light".
Proof. repeat split; vm_compute; reflexivity. Qed.

Lemma get_traffic_flow_report (w : Services) (a : Args) (flow : FlowSegmentData) :
  tomtom_flowSegmentData w (get_traffic_flow_request a)
    = Returned {| flowSegmentData := Some flow |} ->
  get_traffic_flow w a = Flow (flow_report flow).
Proof.
  intros H. unfold get_traffic_flow. rewrite H. reflexivity.
Qed.




(** C7, as stated, fails: with the closure flagged the report still
    carries the tier derived from the two speeds, severe for 20 against 80
    and clear for 75 against 80; only [roadClosed] reflects the flag. *)
Lemma closure_does_not_override :
  get_traffic_flow (Scenario.flowing (Scenario.segment 20 80 (Some true))) Scenario.here
    = Flow {| currentSpeedKmh := 20; freeFlowSpeedKmh := 80;
              condition := "severe"; roadClosed := true |} /\
  get_traffic_flow (Scenario.flowing (Scenario.segment 75 80 (Some true))) Scenario.here
    = Flow {| currentSpeedKmh := 75; freeFlowSpeedKmh := 80;
              condition := "clear"; roadClosed := true |} /\
  ~ (forall f1 f2 : FlowSegmentData,
       roadClosure f1 = Some true -> roadClosure f2 = Some true ->
       condition (flow_report f1) = condition (flow_report f2)).
Proof.
  split; [reflexivity|]. split; [reflexivity|].
  intros H.
  specialize (H (Scenario.segment 20 80 (Some true))
                (Scenario.segment 75 80 (Some true)) eq_refl eq_refl).
  discriminate H.
Qed.

(** C7, amended.  When the flow data flags a road closure, the report has
    [roadClosed] true, a field of its own, and its [condition] is the tier
    derived from the two speeds, the same as without the flag. *)
Theorem closure_is_a_separate_field
    (w : Services) (a : Args) (flow : FlowSegmentData) :
  tomtom_flowSegmentData w (get_traffic_flow_request a)
    = Returned {| flowSegmentData := Some flow |} ->
  roadClosure flow = Some true ->
  exists report,
    get_traffic_flow w a = Flow report /\
    roadClosed report = true /\
    condition report = flow_condition (currentSpeed flow) (freeFlowSpeed flow) /\
    forall closure,
      condition (flow_report (Scenario.segment (currentSpeed flow)
                                (freeFlowSpeed flow) closure))
        = condition report.
Proof.
  intros Hcall Hclosed.
  exists (flow_report flow). split.
  - apply get_traffic_flow_report. exact Hcall.
  - split; [|split].
    + unfold flow_report. simpl. rewrite Hclosed. reflexivity.
    + reflexivity.
    + intros closure. reflexivity.
Qed.

Lemma closure_is_a_separate_field_witness :
  exists report,
    get_traffic_flow (Scenario.flowing (Scenario.segment 75 80 (Some true)))
                     Scenario.here = Flow report /\
    roadClosed report = true /\
    condition report = "clear".
Proof.
  destruct (closure_is_a_separate_field
              (Scenario.flowing (Scenario.segment 75 80 (Some true)))
              Scenario.here (Scenario.segment 75 80 (Some true))
              eq_refl eq_refl)
    as [report [Hrun [Hclosed [Htier _]]]].
  exists report. split; [exact Hrun|]. split; [exact Hclosed|].
  rewrite Htier. reflexivity.
Defined.

(** ** [get_departure_times] *)

Lemma collect_departures_none (w : Services) (a : Args) (offs : list Z)
    (results : list DepartureTime) :
  (forall offset, In offset offs -> departure_entry w a offset = None) ->
  collect_departures w a offs results = results.
Proof.
  revert results. induction offs as [|offset rest IH]; intros results H.
  - reflexivity.
  - simpl. rewrite (H offset (or_introl eq_refl)).
    apply IH. intros o Ho. apply H. right. exact Ho.
Qed.

Lemma offset_fails_no_entry (w : Services) (a : Args) (offset : Z) :
  offset_fails w a offset -> departure_entry w a offset = None.
Proof.
  unfold offset_fails, departure_entry.
  destruct (tomtom_calculateRoute w (departure_request w a offset)) as [data|m].
  - destruct (first_route data) as [route|].
    + intros H. rewrite H. reflexivity.
    + reflexivity.
  - reflexivity.
Qed.

Lemma summarize_departures_nonempty (results : list DepartureTime)
    (times : list DepartureTime) (text : string) :
  summarize_departures results = Departures times text -> times <> [].
Proof.
  destruct results as [|first rest]; simpl.
  - discriminate.
  - intros H. injection H as Htimes _. rewrite <- Htimes. discriminate.
Qed.

(** C8. If the computation fails for all four offsets (0, 30, 60, 120
    minutes), [get_departure_times] returns a failure descriptor; and
    whatever the services do, a result that lists departure times lists at
    least one. *)
Theorem get_departure_times_all_fail (w : Services) (a : Args) :
  (forall offset, In offset [0; 30; 60; 120]%Z -> offset_fails w a offset) ->
  get_departure_times w a = Failure "Could not calculate departure times" None /\
  forall w' a' times text,
    get_departure_times w' a' = Departures times text -> times <> [].
Proof.
  intros Hfail. split.
  - unfold get_departure_times.
    rewrite collect_departures_none.
    + reflexivity.
    + intros offset Hin. apply offset_fails_no_entry. apply Hfail. exact Hin.
  - intros w' a' times text H.
    exact (summarize_departures_nonempty _ _ _ H).
Qed.

Lemma get_departure_times_all_fail_witness :
  get_departure_times Scenario.offline Scenario.trip
    = Failure "Could not calculate departure times" None.
Proof.
  apply (get_departure_times_all_fail Scenario.offline Scenario.trip).
  intros offset Hin. exact I.
Defined.

Lemma collect_departures_app (w : Services) (a : Args) (offs : list Z)
    (results : list DepartureTime) :
  collect_departures w a offs results
    = (results ++ collect_departures w a offs [])%list.
Proof.
  revert results. induction offs as [|offset rest IH]; intros results; simpl.
  - rewrite app_nil_r. reflexivity.
  - destruct (departure_entry w a offset) as [e|].
    + rewrite (IH (results ++ [e])%list), (IH [e]).
      rewrite <- app_assoc. reflexivity.
    + apply IH.
Qed.

(** The entries [get_departure_times] collects are those of the offsets
    that did not fail, in the order of the offsets. *)
Lemma collect_departures_survivors (w : Services) (a : Args) (offs : list Z) :
  collect_departures w a offs []
    = flat_map (fun offset => match departure_entry w a offset with
                              | Some e => [e]
                              | None => []
                              end) offs.
Proof.
  induction offs as [|offset rest IH]; simpl.
  - reflexivity.
  - destruct (departure_entry w a offset) as [e|].
    + rewrite collect_departures_app, IH. reflexivity.
    + exact IH.
Qed.

Lemma departure_entry_label (w : Services) (a : Args) (offset : Z)
    (e : DepartureTime) :
  departure_entry w a offset = Some e -> label e = offset_label offset.
Proof.
  unfold departure_entry.
  destruct (tomtom_calculateRoute w (departure_request w a offset)) as [data|m];
    [|discriminate].
  destruct (first_route data) as [route|]; [|discriminate].
  destruct (summary route) as [s|]; [|discriminate].
  intros H. injection H as <-. reflexivity.
Qed.

(** The reduction returns an element of the list it reduces... *)
Lemma best_of_in (results : list DepartureTime) (first : DepartureTime) :
  best_of first results = first \/ In (best_of first results) results.
Proof.
  unfold best_of. revert first.
  induction results as [|r rest IH]; intros first; simpl.
  - left. reflexivity.
  - destruct (durationMinutes r <? durationMinutes first)%Z.
    + destruct (IH r) as [E|Hin]; [right; left; symmetry; exact E|right; right; exact Hin].
    + destruct (IH first) as [E|Hin]; [left; exact E|right; right; exact Hin].
Qed.

(** ... and none of the list is shorter than it. *)
Lemma best_of_le (results : list DepartureTime) (first : DepartureTime) :
  (durationMinutes (best_of first results) <= durationMinutes first)%Z /\
  forall r, In r results ->
    (durationMinutes (best_of first results) <= durationMinutes r)%Z.
Proof.
  unfold best_of. revert first.
  induction results as [|r rest IH]; intros first; simpl.
  - split; [lia|]. intros r [].
  - destruct (durationMinutes r <? durationMinutes first)%Z eqn:E.
    + apply Z.ltb_lt in E. destruct (IH r) as [Hr Hrest]. split; [lia|].
      intros x [<-|Hx]; [exact Hr|exact (Hrest x Hx)].
    + apply Z.ltb_ge in E. destruct (IH first) as [Hf Hrest]. split; [exact Hf|].
      intros x [<-|Hx]; [lia|exact (Hrest x Hx)].
Qed.

(** The recommendation of a non-empty list of surviving results: the best
    entry is one of them, none is shorter, every entry is marked by
    comparing its label with the best one's, and the time saved is counted
    from the first surviving entry. *)
Lemma summarize_departures_best (first : DepartureTime) (rest : list DepartureTime) :
  exists best,
    summarize_departures (first :: rest)
      = Departures (map (mark_best best) (first :: rest))
          (recommend best (durationMinutes first - durationMinutes best)) /\
    In best (first :: rest) /\
    forall r, In r (first :: rest) -> (durationMinutes best <= durationMinutes r)%Z.
Proof.
  exists (best_of first (first :: rest)). split; [reflexivity|]. split.
  - destruct (best_of_in (first :: rest) first) as [E|Hin].
    + rewrite E. left. reflexivity.
    + exact Hin.
  - intros r Hr. apply (proj2 (best_of_le (first :: rest) first)). exact Hr.
Qed.

(** X8. When the computation for leaving now succeeds, its entry is the first
    one, and the time saved is its duration minus the duration of the best
    entry. *)
Lemma time_saved_against_now (w : Services) (a : Args) (now : DepartureTime) :
  departure_entry w a 0 = Some now ->
  exists best later,
    get_departure_times w a
      = Departures (map (mark_best best) (now :: later))
          (recommend best (durationMinutes now - durationMinutes best)) /\
    label now = "Now" /\
    In best (now :: later) /\
    forall r, In r (now :: later) -> (durationMinutes best <= durationMinutes r)%Z.
Proof.
  intros Hnow.
  unfold get_departure_times, offsets.
  rewrite collect_departures_survivors.
  set (entries := fun offset => match departure_entry w a offset with
                                | Some e => [e]
                                | None => []
                                end).
  change (flat_map entries [0; 30; 60; 120]%Z)
    with (entries 0%Z ++ flat_map entries [30; 60; 120]%Z)%list.
  unfold entries at 1. rewrite Hnow.
  change ([now] ++ flat_map entries [30; 60; 120]%Z)%list
    with (now :: flat_map entries [30; 60; 120]%Z).
  destruct (summarize_departures_best now (flat_map entries [30; 60; 120]%Z))
    as [best [Hsum [Hin Hmin]]].
  exists best, (flat_map entries [30; 60; 120]%Z).
  split; [exact Hsum|]. split; [|split; assumption].
  apply (departure_entry_label w a 0 now Hnow).
Qed.

(** The example of the specification: 40, 35, 45 and 50 minutes at the four
    offsets recommend leaving in 30 minutes, which saves 5 minutes, and
    mark that entry alone. *)
Example departure_times_example :
  exists times,
    get_departure_times (Scenario.routing Scenario.all_four) Scenario.trip
      = Departures times "Wait 30 min to save 5 minutes" /\
    map (fun r => (label r, durationMinutes r, isBest r)) times
      = [("Now", 40%Z, Some false); ("+30 min", 35%Z, Some true);
         ("+60 min", 45%Z, Some false); ("+120 min", 50%Z, Some false)].
Proof.
  eexists. split; vm_compute; reflexivity.
Qed.

(** C5 fails when the computation for leaving now is rejected and a later
    offset is not the first to survive.  With 35, 30 and 50 minutes at 30,
    60 and 120 minutes, the recommendation is to wait 60 minutes, and the 5
    minutes it reports saved are counted from the entry for 30 minutes: no
    duration at offset 0 exists. *)
Theorem time_saved_without_now :
  exists times,
    get_departure_times (Scenario.routing Scenario.now_rejected) Scenario.trip
      = Departures times "Wait 60 min to save 5 minutes" /\
    map (fun r => (label r, durationMinutes r, isBest r)) times
      = [("+30 min", 35%Z, Some false); ("+60 min", 30%Z, Some true);
         ("+120 min", 50%Z, Some false)] /\
    departure_entry (Scenario.routing Scenario.now_rejected) Scenario.trip 0 = None.
Proof.
  eexists. split; [|split]; vm_compute; reflexivity.
Qed.

Lemma survivor_offset (w : Services) (a : Args) (offs : list Z) (e : DepartureTime) :
  In e (collect_departures w a offs []) ->
  exists offset, In offset offs /\ departure_entry w a offset = Some e.
Proof.
  rewrite collect_departures_survivors. intros H.
  apply in_flat_map in H. destruct H as [offset [Hin He]].
  exists offset. split; [exact Hin|].
  destruct (departure_entry w a offset) as [e'|].
  - destruct He as [<-|[]]. reflexivity.
  - destruct He.
Qed.

Lemma offset_label_injective (o1 o2 : Z) :
  In o1 offsets -> In o2 offsets -> offset_label o1 = offset_label o2 -> o1 = o2.
Proof.
  unfold offsets. simpl.
  intros [<-|[<-|[<-|[<-|[]]]]] [<-|[<-|[<-|[<-|[]]]]] H;
    solve [reflexivity | vm_compute in H; discriminate H].
Qed.

(** Two surviving entries with one label are one entry. *)
Lemma survivors_by_label (w : Services) (a : Args) (e1 e2 : DepartureTime) :
  In e1 (collect_departures w a offsets []) ->
  In e2 (collect_departures w a offsets []) ->
  label e1 = label e2 -> e1 = e2.
Proof.
  intros H1 H2 Hlabel.
  destruct (survivor_offset w a offsets e1 H1) as [o1 [Ho1 He1]].
  destruct (survivor_offset w a offsets e2 H2) as [o2 [Ho2 He2]].
  rewrite (departure_entry_label w a o1 e1 He1) in Hlabel.
  rewrite (departure_entry_label w a o2 e2 He2) in Hlabel.
  assert (E : o1 = o2) by (apply offset_label_injective; assumption).
  subst o2. congruence.
Qed.

(** X7. Whenever [get_departure_times] lists departure times, exactly one entry
    has [isBest] true, and no entry is shorter than it. *)
Lemma one_entry_is_best (w : Services) (a : Args)
    (times : list DepartureTime) (text : string) :
  get_departure_times w a = Departures times text ->
  exists best,
    In best times /\ isBest best = Some true /\
    (forall r, In r times -> isBest r = Some true -> r = best) /\
    (forall r, In r times -> (durationMinutes best <= durationMinutes r)%Z).
Proof.
  unfold get_departure_times.
  remember (collect_departures w a offsets []) as results eqn:Hres.
  destruct results as [|first rest]; [discriminate|].
  destruct (summarize_departures_best first rest) as [best [Hsum [Hin Hmin]]].
  rewrite Hsum. intros H.
  assert (Htimes : times = map (mark_best best) (first :: rest)) by congruence.
  clear H. subst times.
  exists (mark_best best best). split; [|split; [|split]].
  - exact (in_map (mark_best best) _ _ Hin).
  - simpl. rewrite String.eqb_refl. reflexivity.
  - intros r Hr Hbest. apply in_map_iff in Hr. destruct Hr as [r0 [<- Hr0]].
    simpl in Hbest. injection Hbest as Hbest. apply String.eqb_eq in Hbest.
    rewrite Hres in Hr0, Hin.
    rewrite (survivors_by_label w a r0 best Hr0 Hin Hbest). reflexivity.
  - intros r Hr. apply in_map_iff in Hr. destruct Hr as [r0 [<- Hr0]].
    simpl. apply Hmin. exact Hr0.
Qed.

(** ** [get_incidents] *)

(** C9. When the incident service answers with no incident for the
    bounding box, [get_incidents] returns an empty incident list with the
    message that the roads are clear, which is not a failure descriptor. *)
Theorem get_incidents_none
    (w : Services) (a : Args) (data : IncidentData) :
  tomtom_incidentDetails w (get_incidents_request w a) = Returned data ->
  incidents data = None \/ incidents data = Some [] ->
  get_incidents w a
    = IncidentsMessage [] "No incidents reported in this area - roads are clear!" /\
  is_failure (get_incidents w a) = false.
Proof.
  intros Hcall Hnone.
  assert (E : get_incidents w a = IncidentsMessage [] clear_message).
  { unfold get_incidents. rewrite Hcall.
    destruct Hnone as [-> | ->]; reflexivity. }
  rewrite E. split; reflexivity.
Qed.

Lemma get_incidents_none_witness :
  get_incidents Scenario.quiet_roads Scenario.here
    = IncidentsMessage [] "No incidents reported in this area - roads are clear!" /\
  is_failure (get_incidents Scenario.quiet_roads Scenario.here) = false.
Proof.
  apply (get_incidents_none Scenario.quiet_roads Scenario.here
           {| incidents := Some [] |} eq_refl).
  right. reflexivity.
Defined.

(** ** [search_place] *)

(** [search_place] posts [search_place_request] and nothing else. *)
Lemma search_place_posts (w : Services) (a : Args) :
  search_place w a =
    match places_searchText w (search_place_request a) with
    | Returned data =>
        match default [] (places data) with
        | [] => Failure "No places found" (query a)
        | results => Places (map transformPlace (firstn 3 results)) (query a)
        end
    | Thrown m => Failure m (query a)
    end.
Proof.
  unfold search_place, searchPlaces, search_place_request.
  destruct (places_searchText w _) as [data|m]; simpl; [|reflexivity].
  destruct (default [] (places data)); reflexivity.
Qed.

Lemma truthy_number_nonzero (x : Q) : truthy_number x = true <-> ~ (x == 0)%Q.
Proof.
  unfold truthy_number. rewrite negb_true_iff.
  destruct (Qeq_bool x 0) eqn:E.
  - apply Qeq_bool_iff in E. split; [discriminate|]. intros H. contradiction.
  - split; [|reflexivity]. intros _ H. apply Qeq_bool_iff in H. congruence.
Qed.

(** The body [search_place] has [searchPlaces] build carries a location
    bias only when [nearLat] and [nearLon] are both supplied and both
    nonzero. *)
Lemma search_place_request_bias (a : Args) :
  (forall circle,
     locationBias (search_place_request a) = Some circle ->
     exists la ln,
       nearLat a = Some la /\ nearLon a = Some ln /\
       ~ (la == 0)%Q /\ ~ (ln == 0)%Q /\
       circle = {| center_latitude := la; center_longitude := ln;
                   radius := 50000%Q |}) /\
  (forall la ln,
     nearLat a = Some la -> nearLon a = Some ln ->
     ~ (la == 0)%Q -> ~ (ln == 0)%Q ->
     locationBias (search_place_request a)
       = Some {| center_latitude := la; center_longitude := ln;
                 radius := 50000%Q |}) /\
  (nearLat a = None \/ nearLon a = None \/
   (exists la, nearLat a = Some la /\ (la == 0)%Q) \/
   (exists ln, nearLon a = Some ln /\ (ln == 0)%Q) ->
   locationBias (search_place_request a) = None).
Proof.
  unfold search_place_request, search_place_options.
  destruct (nearLat a) as [la|], (nearLon a) as [ln|]; simpl.
  - destruct (truthy_number la) eqn:Ela, (truthy_number ln) eqn:Eln; simpl;
      try rewrite Ela; try rewrite Eln; simpl.
    + apply truthy_number_nonzero in Ela. apply truthy_number_nonzero in Eln.
      split; [|split].
      * intros circle H. injection H as <-. exists la, ln.
        repeat split; assumption.
      * intros la' ln' Hla Hln _ _. injection Hla as <-. injection Hln as <-.
        reflexivity.
      * intros [H|[H|[[x [H Hx]]|[x [H Hx]]]]]; try discriminate H;
          injection H as <-; contradiction.
    + split; [|split].
      * intros circle H. discriminate H.
      * intros la' ln' Hla Hln _ Hnz. injection Hln as <-.
        apply truthy_number_nonzero in Hnz. congruence.
      * reflexivity.
    + split; [|split].
      * intros circle H. discriminate H.
      * intros la' ln' Hla Hln Hnz _. injection Hla as <-.
        apply truthy_number_nonzero in Hnz. congruence.
      * reflexivity.
    + split; [|split].
      * intros circle H. discriminate H.
      * intros la' ln' Hla Hln Hnz _. injection Hla as <-.
        apply truthy_number_nonzero in Hnz. congruence.
      * reflexivity.
  - destruct (truthy_number la); simpl;
      (split; [|split];
       [intros circle H; discriminate H | intros ? ? ? H; discriminate H | reflexivity]).
  - split; [|split];
      [intros circle H; discriminate H | intros ? ? H; discriminate H | reflexivity].
  - split; [|split];
      [intros circle H; discriminate H | intros ? ? H; discriminate H | reflexivity].
Qed.

(** C10. [search_place] runs one text search, and its result is what that
    search answers.  The body it posts asks for the query and carries a
    location bias only when [nearLat] and [nearLon] are both supplied and
    both nonzero; the bias is then the circle of 50000 metres around them.
    When either is missing or is 0, the body posted carries no location
    bias at all. *)
Theorem search_place_bias (a : Args) :
  exists body : RequestBody,
    (forall w : Services,
       search_place w a = search_place_outcome a (places_searchText w body)) /\
    textQuery body = query a /\
    (forall circle,
       locationBias body = Some circle ->
       exists la ln,
         nearLat a = Some la /\ nearLon a = Some ln /\
         ~ (la == 0)%Q /\ ~ (ln == 0)%Q /\
         circle = {| center_latitude := la; center_longitude := ln;
                     radius := 50000%Q |}) /\
    (forall la ln,
       nearLat a = Some la -> nearLon a = Some ln ->
       ~ (la == 0)%Q -> ~ (ln == 0)%Q ->
       locationBias body
         = Some {| center_latitude := la; center_longitude := ln;
                   radius := 50000%Q |}) /\
    (nearLat a = None \/ nearLon a = None \/
     (exists la, nearLat a = Some la /\ (la == 0)%Q) \/
     (exists ln, nearLon a = Some ln /\ (ln == 0)%Q) ->
     locationBias body = None).
Proof.
  exists (search_place_request a).
  split; [|split; [reflexivity|exact (search_place_request_bias a)]].
  intros w. unfold search_place_outcome. apply search_place_posts.
Qed.

Lemma search_place_bias_witness :
  exists body : RequestBody,
    (forall w : Services,
       search_place w (Scenario.near (25204 # 1000) (55270 # 1000))
         = search_place_outcome (Scenario.near (25204 # 1000) (55270 # 1000))
             (places_searchText w body)) /\
    locationBias body
      = Some {| center_latitude := (25204 # 1000)%Q;
                center_longitude := (55270 # 1000)%Q; radius := 50000%Q |}.
Proof.
  destruct (search_place_bias (Scenario.near (25204 # 1000) (55270 # 1000)))
    as [body [Hposts [_ [_ [Hbias _]]]]].
  exists body. split; [exact Hposts|].
  apply (Hbias (25204 # 1000)%Q (55270 # 1000)%Q eq_refl eq_refl);
    intros H; discriminate H.
Defined.

(** ** The loop of [chat] *)

Section Loop.

Variable w : World.
Variable session : ChatSession.

Ltac step_cases st :=
  unfold loop_body, respond, sendMessage;
  destruct (first_candidate (response (count st))) as [candidate|]; simpl;
  [destruct (content_parts candidate) as [ps|]; simpl;
   [destruct (find_functionCall ps) as [fc|]; simpl;
    [destruct (toolExecutors_get (name fc)) as [t|key|]; simpl;
     [destruct (args fc) as [a|]; simpl;
      [destruct (session _) as [r|m]; simpl|]
     |destruct (inherited_call _ key (args fc)) as [res|m]; simpl;
      [destruct (session _) as [r|m']; simpl|]
     |]
    |]
   |]
  |].

(** Every pass counts once. *)
Lemma loop_body_counts (st : LoopState) :
  iterations (step_state (loop_body w session st)) = S (iterations st).
Proof.
  step_cases st; reflexivity.
Qed.

(** A pass executes at most one tool and sends at most one request. *)
Lemma loop_body_logs (st : LoopState) :
  (List.length (executed (step_state (loop_body w session st)))
     <= S (List.length (executed st)))%nat /\
  (List.length (sent (step_state (loop_body w session st)))
     <= S (List.length (sent st)))%nat /\
  (List.length (toolsUsed (step_state (loop_body w session st)))
     <= S (List.length (toolsUsed st)))%nat.
Proof.
  step_cases st; rewrite ?length_app; simpl; lia.
Qed.

(** The text stays as it is unless the pass ends with the final text. *)
Lemma loop_body_text (st : LoopState) :
  match loop_body w session st with
  | Break FinalText _ => True
  | other => responseText (step_state other) = responseText st
  end.
Proof.
  step_cases st; try reflexivity; exact I.
Qed.

Lemma while_loop_S (fuel : nat) (st : LoopState) :
  while_loop (S fuel) w session st =
    if (iterations st <? maxIterations)%nat then
      match loop_body w session st with
      | Continue st' => while_loop fuel w session st'
      | Break why st' => Some (Left why st')
      | Throw m st' => Some (Raised m st')
      end
    else Some (Left BoundReached st).
Proof. reflexivity. Qed.

Lemma while_loop_enough (fuel : nat) : forall st,
  (maxIterations - iterations st < fuel)%nat ->
  exists e,
    while_loop fuel w session st = Some e /\
    loop_end w session st = Some e /\
    (iterations (end_state e) <= Nat.max maxIterations (iterations st))%nat.
Proof.
  induction fuel as [|fuel IH]; intros st Hfuel; [lia|].
  unfold loop_end. rewrite !while_loop_S.
  destruct (iterations st <? maxIterations)%nat eqn:Hguard.
  - apply Nat.ltb_lt in Hguard.
    pose proof (loop_body_counts st) as Hcount.
    destruct (loop_body w session st) as [st'|why st'|m st'] eqn:Hbody;
      simpl in Hcount.
    + destruct (IH st') as [e [Hrun [Hend Hbound]]]; [lia|].
      exists e. split; [exact Hrun|]. split.
      * unfold loop_end in Hend.
        replace (maxIterations - iterations st)%nat
          with (S (maxIterations - iterations st'))%nat by lia.
        exact Hend.
      * lia.
    + exists (Left why st'). split; [reflexivity|]. split; [reflexivity|].
      unfold end_state. lia.
    + exists (Raised m st'). split; [reflexivity|]. split; [reflexivity|].
      unfold end_state. lia.
  - exists (Left BoundReached st). split; [reflexivity|]. split; [reflexivity|].
    unfold end_state. lia.
Qed.

(** A property every pass preserves holds when the loop is left. *)
Lemma while_loop_invariant (P : LoopState -> Prop) :
  (forall st, P st -> P (step_state (loop_body w session st))) ->
  forall fuel st e,
    P st -> while_loop fuel w session st = Some e -> P (end_state e).
Proof.
  intros Hstep. induction fuel as [|fuel IH]; intros st e HP; simpl.
  - discriminate.
  - destruct (iterations st <? maxIterations)%nat.
    + pose proof (Hstep st HP) as HP'.
      destruct (loop_body w session st) as [st'|why st'|m st']; simpl in HP'.
      * apply IH. exact HP'.
      * intros H. injection H as <-. exact HP'.
      * intros H. injection H as <-. exact HP'.
    + intros H. injection H as <-. exact HP.
Qed.

(** The text is empty when the loop is left, unless it is left with the
    final text. *)
Lemma while_loop_text : forall fuel st e,
  responseText st = "" ->
  while_loop fuel w session st = Some e ->
  match e with
  | Left FinalText _ => True
  | other => responseText (end_state other) = ""
  end.
Proof.
  induction fuel as [|fuel IH]; intros st e Htext; simpl.
  - discriminate.
  - destruct (iterations st <? maxIterations)%nat.
    + pose proof (loop_body_text st) as Hbody.
      destruct (loop_body w session st) as [st'|why st'|m st'].
      * apply IH. simpl in Hbody. congruence.
      * intros H. injection H as <-.
        destruct why; simpl in *; try exact I; congruence.
      * intros H. injection H as <-. simpl in *. congruence.
    + intros H. injection H as <-. exact Htext.
Qed.

(** The loop is left by [break] or by the guard only as the exits say. *)
Lemma while_loop_never_caught : forall fuel st why st',
  while_loop fuel w session st = Some (Left why st') ->
  forall m, why <> Caught m.
Proof.
  induction fuel as [|fuel IH]; intros st why st'; simpl.
  - discriminate.
  - destruct (iterations st <? maxIterations)%nat.
    + unfold loop_body at 1, respond, sendMessage.
      destruct (first_candidate (response (count st))) as [candidate|]; simpl;
        [|intros H; injection H as <- <-; discriminate].
      destruct (content_parts candidate) as [ps|]; simpl; [|discriminate].
      destruct (find_functionCall ps) as [fc|]; simpl;
        [|intros H; injection H as <- <-; discriminate].
      destruct (toolExecutors_get (name fc)) as [t|key|]; simpl.
      * destruct (args fc) as [a|]; simpl; [|discriminate].
        destruct (session _) as [r|m]; simpl; [apply IH|discriminate].
      * destruct (inherited_call _ key (args fc)) as [res|m]; simpl;
          [|discriminate].
        destruct (session _) as [r|m']; simpl; [apply IH|discriminate].
      * intros H. injection H as <- <-. discriminate.
    + intros H. injection H as <- <-. discriminate.
Qed.

End Loop.

(** ** Termination of the conversation *)

Lemma loop_logs_bounded (w : World) (session : ChatSession)
    (fuel : nat) (st : LoopState) (e : LoopEnd) :
  (List.length (executed st) <= iterations st)%nat ->
  (List.length (sent st) <= S (iterations st))%nat ->
  while_loop fuel w session st = Some e ->
  (List.length (executed (end_state e)) <= iterations (end_state e))%nat /\
  (List.length (sent (end_state e)) <= S (iterations (end_state e)))%nat.
Proof.
  intros Hexec Hsent Hrun.
  apply (while_loop_invariant w session
           (fun s => (List.length (executed s) <= iterations s)%nat /\
                     (List.length (sent s) <= S (iterations s))%nat))
    with (fuel := fuel) (st := st); [|split; assumption|exact Hrun].
  intros s [H1 H2].
  pose proof (loop_body_counts w session s) as Hc.
  pose proof (loop_body_logs w session s) as [Hl1 [Hl2 _]].
  split; lia.
Qed.

(** From the first response on, the loop is left after at most
    [maxIterations] passes, whatever fuel above that it is given. *)
Lemma loop_terminates (w : World) (session : ChatSession)
    (r : GenerateResult) (first : Request) :
  exists e,
    (forall extra,
       while_loop (S maxIterations + extra) w session (initial_state r first)
         = Some e) /\
    (iterations (end_state e) <= maxIterations)%nat /\
    (List.length (executed (end_state e)) <= maxIterations)%nat /\
    (List.length (sent (end_state e)) <= S maxIterations)%nat.
Proof.
  destruct (while_loop_enough w session (S maxIterations) (initial_state r first))
    as [e [Hrun [Hend Hbound]]]; [cbn [iterations initial_state]; lia|].
  exists e. split.
  - intros extra.
    destruct (while_loop_enough w session (S maxIterations + extra)
                (initial_state r first)) as [e' [Hrun' [Hend' _]]];
      [cbn [iterations initial_state]; lia|].
    rewrite Hrun'. rewrite Hend in Hend'. symmetry. exact Hend'.
  - destruct (loop_logs_bounded w session (S maxIterations)
                (initial_state r first) e (Nat.le_refl 0) (Nat.le_refl 1) Hrun)
      as [Hexec Hsent].
    cbn [iterations initial_state] in Hbound. rewrite Nat.max_0_r in Hbound.
    repeat split; lia.
Qed.

(** C2. Whatever the message, the location, the history and the answers of
    the model and of the services, [chat] returns, after at most 5 passes
    through its loop (hence at most 5 tool executions and 6 requests to the
    model); more fuel than the 6 evaluations of the guard changes nothing. *)
Theorem chat_terminates (w : World) (message : string) (context : Context) :
  exists run,
    chat w message context = Some run /\
    (forall extra,
       chat_fuel (S maxIterations + extra) w message context = Some run) /\
    (iterations (final run) <= 5)%nat /\
    (List.length (executed (final run)) <= 5)%nat /\
    (List.length (sent (final run)) <= 6)%nat.
Proof.
  unfold chat, chat_fuel.
  destruct (startChat w _) as [chatSession|m].
  - set (first := TextMessage (enrichedMessage w message (userLocation context))).
    destruct (chatSession [first]) as [r|m].
    + destruct (loop_terminates w chatSession r first)
        as [e [Hrun [Hiter [Hexec Hsent]]]].
      pose proof (Hrun 0%nat) as Hrun0. rewrite Nat.add_0_r in Hrun0.
      destruct e as [why st|m st]; simpl in Hiter, Hexec, Hsent.
      * exists {| result := completed st; exit := why; final := st |}.
        split; [rewrite Hrun0; reflexivity|].
        split; [intros extra; rewrite Hrun; reflexivity|].
        unfold maxIterations in *. simpl. repeat split; lia.
      * exists {| result := caught m; exit := Caught m; final := st |}.
        split; [rewrite Hrun0; reflexivity|].
        split; [intros extra; rewrite Hrun; reflexivity|].
        unfold maxIterations in *. simpl. repeat split; lia.
    + eexists. split; [reflexivity|]. split; [reflexivity|].
      simpl. repeat split; lia.
  - eexists. split; [reflexivity|]. split; [reflexivity|].
    simpl. repeat split; lia.
Qed.

(** ** Along the run *)

Lemma loop_end_next (w : World) (session : ChatSession) (st st' : LoopState) :
  (iterations st < maxIterations)%nat ->
  loop_body w session st = Continue st' ->
  loop_end w session st = loop_end w session st'.
Proof.
  intros Hguard Hbody. unfold loop_end.
  rewrite while_loop_S.
  replace (iterations st <? maxIterations)%nat with true
    by (symmetry; apply Nat.ltb_lt; exact Hguard).
  rewrite Hbody.
  pose proof (loop_body_counts w session st) as Hcount.
  rewrite Hbody in Hcount. simpl in Hcount.
  replace (maxIterations - iterations st)%nat
    with (S (maxIterations - iterations st'))%nat by lia.
  reflexivity.
Qed.

(** The passes before a state change neither how the loop ends nor the
    text. *)
Lemma reaches_loop_end (w : World) (session : ChatSession) (st st' : LoopState) :
  reaches w session st st' ->
  loop_end w session st = loop_end w session st' /\
  responseText st' = responseText st.
Proof.
  induction 1 as [st|st st1 st2 Hguard Hbody Hreach [IHend IHtext]].
  - split; reflexivity.
  - split.
    + rewrite (loop_end_next w session st st1 Hguard Hbody). exact IHend.
    + pose proof (loop_body_text w session st) as Htext.
      rewrite Hbody in Htext. simpl in Htext. congruence.
Qed.

Lemma passes_reaches (w : World) (session : ChatSession) (n : nat) :
  forall st st', passes w session n st = Some st' -> reaches w session st st'.
Proof.
  induction n as [|n IH]; intros st st'; simpl.
  - intros H. injection H as <-. apply reaches_here.
  - destruct (iterations st <? maxIterations)%nat eqn:Hguard; [|discriminate].
    destruct (loop_body w session st) as [st1|why st1|m st1] eqn:Hbody;
      try discriminate.
    intros H. apply (reaches_next w session st st1 st').
    + apply Nat.ltb_lt. exact Hguard.
    + exact Hbody.
    + apply IH. exact H.
Qed.

(** A full pass adds one entry to the tools used and to the executor
    calls. *)
Lemma loop_body_continue (w : World) (session : ChatSession)
    (st st' : LoopState) :
  loop_body w session st = Continue st' ->
  List.length (toolsUsed st') = S (List.length (toolsUsed st)) /\
  List.length (executed st') = S (List.length (executed st)).
Proof.
  unfold loop_body, respond, sendMessage.
  destruct (first_candidate (response (count st))) as [candidate|]; simpl;
    [|discriminate].
  destruct (content_parts candidate) as [ps|]; simpl; [|discriminate].
  destruct (find_functionCall ps) as [fc|]; simpl; [|discriminate].
  destruct (toolExecutors_get (name fc)) as [t|key|]; simpl; [| |discriminate].
  - destruct (call_tool _ t (args fc)) as [res|m]; simpl; [|discriminate].
    destruct (session _) as [r'|m]; simpl; [|discriminate].
    intros H. injection H as <-. simpl. rewrite !length_app. simpl. lia.
  - destruct (inherited_call _ key (args fc)) as [res|m]; simpl; [|discriminate].
    destruct (session _) as [r'|m]; simpl; [|discriminate].
    intros H. injection H as <-. simpl. rewrite !length_app. simpl. lia.
Qed.

(** After [k] full passes there are [k] more tools used and [k] more
    executor calls. *)
Lemma reaches_logs (w : World) (session : ChatSession) (st st' : LoopState) :
  reaches w session st st' ->
  (List.length (toolsUsed st') + iterations st
     = List.length (toolsUsed st) + iterations st')%nat /\
  (List.length (executed st') + iterations st
     = List.length (executed st) + iterations st')%nat.
Proof.
  induction 1 as [st|st st1 st2 Hguard Hbody Hreach [IHused IHexec]].
  - split; reflexivity.
  - destruct (loop_body_continue w session st st1 Hbody) as [Hused Hexec].
    pose proof (loop_body_counts w session st) as Hcount.
    rewrite Hbody in Hcount. simpl in Hcount.
    split; lia.
Qed.

(** ** A model that keeps asking for tools *)

(** C1, as stated, fails: a model that asks for [get_incidents] on every
    turn gets five executions, and the conversation ends with [success]
    true, an empty message and five tools used. *)
Lemma six_tool_requests_succeed :
  option_map result (chat Scenario.greedy Scenario.question Scenario.no_context)
    = Some {| success := true;
              message := "";
              toolsUsed_returned :=
                Some ["get_incidents"; "get_incidents"; "get_incidents";
                      "get_incidents"; "get_incidents"];
              error := None |} /\
  option_map (fun run => success (result run))
    (chat Scenario.greedy Scenario.question Scenario.no_context) <> Some false.
Proof.
  split.
  - vm_compute. reflexivity.
  - vm_compute. discriminate.
Qed.

(** C1, amended.  If the model asks for a registered tool, with its
    arguments, on six consecutive turns of the conversation (the first
    response and the responses to the five function responses that follow),
    the loop is left by its bound after five executions, the sixth request
    not being looked at: [chat] returns [success] true with an empty message
    and no error, and the list of tools used has length exactly 5. *)
Theorem six_tool_requests
    (w : World) (question : string) (context : Context)
    (session : ChatSession) (r : GenerateResult) :
  startChat w (session_history (default [] (conversationHistory context)))
    = Returned session ->
  session [first_request w question context] = Returned r ->
  (forall k, (k < 6)%nat ->
     turn_asks w session (initial_state r (first_request w question context)) k) ->
  exists run used,
    chat w question context = Some run /\
    exit run = BoundReached /\
    success (result run) = true /\
    message (result run) = "" /\
    error (result run) = None /\
    toolsUsed_returned (result run) = Some used /\
    List.length used = 5%nat /\
    List.length (executed (final run)) = 5%nat.
Proof.
  intros Hstart Hfirst Hsix.
  destruct (Hsix 5%nat ltac:(lia)) as [st [Hreach [Hiter _]]].
  destruct (reaches_loop_end w session _ _ Hreach) as [Hend Htext].
  destruct (reaches_logs w session _ _ Hreach) as [Hused Hexec].
  cbn [initial_state toolsUsed executed iterations List.length] in Hused, Hexec.
  assert (Hloop : while_loop (S maxIterations) w session
                    (initial_state r (first_request w question context))
                  = Some (Left BoundReached st)).
  { change (while_loop (S maxIterations) w session
              (initial_state r (first_request w question context)))
      with (loop_end w session (initial_state r (first_request w question context))).
    rewrite Hend. unfold loop_end. rewrite while_loop_S.
    replace (iterations st <? maxIterations)%nat with false; [reflexivity|].
    symmetry. apply Nat.ltb_ge. unfold maxIterations. lia. }
  unfold chat, chat_fuel. rewrite Hstart.
  unfold first_request in Hfirst, Hloop. rewrite Hfirst, Hloop.
  exists {| result := completed st; exit := BoundReached; final := st |},
         (toolsUsed st).
  simpl. repeat split; try lia. exact Htext.
Qed.

Lemma six_tool_requests_witness :
  exists run used,
    chat Scenario.greedy Scenario.question Scenario.no_context = Some run /\
    exit run = BoundReached /\
    success (result run) = true /\
    message (result run) = "" /\
    error (result run) = None /\
    toolsUsed_returned (result run) = Some used /\
    List.length used = 5%nat /\
    List.length (executed (final run)) = 5%nat.
Proof.
  apply (six_tool_requests Scenario.greedy Scenario.question Scenario.no_context
           (Scenario.insisting "get_incidents" Scenario.here)
           (Scenario.tool_turn "get_incidents" Scenario.here) eq_refl eq_refl).
  assert (Hasks : forall st,
            response st = Scenario.tool_turn "get_incidents" Scenario.here ->
            asks_registered_tool (Returned (response st))).
  { intros st ->.
    exists (Scenario.tool_turn "get_incidents" Scenario.here).
    eexists. eexists. eexists. exists Get_incidents, Scenario.here.
    repeat split; reflexivity. }
  intros k Hk.
  assert (Hpass : exists st,
            passes Scenario.greedy
              (Scenario.insisting "get_incidents" Scenario.here) k
              (initial_state (Scenario.tool_turn "get_incidents" Scenario.here)
                 (first_request Scenario.greedy Scenario.question
                    Scenario.no_context)) = Some st /\
            iterations st = k /\
            response st = Scenario.tool_turn "get_incidents" Scenario.here).
  { destruct k as [|[|[|[|[|[|k]]]]]]; [| | | | | |lia];
      (eexists; split; [vm_compute; reflexivity|split; reflexivity]). }
  destruct Hpass as [st [Hpass [Hiter Hresp]]].
  exists st. split; [exact (passes_reaches _ _ _ _ _ Hpass)|].
  split; [exact Hiter|apply Hasks; exact Hresp].
Defined.

(** ** A request for a tool that is not in the table *)

Lemma loop_body_unknown (w : World) (session : ChatSession)
    (st : LoopState) (fc : FunctionCall) :
  requests st fc ->
  toolExecutors_get (name fc) = Undefined ->
  loop_body w session st
    = Break (UnknownTool (name fc)) (push_tool (name fc) (count st)).
Proof.
  intros [candidate [ps [Hcand [Hparts Hcall]]]] Hget.
  unfold loop_body.
  change (response (count st)) with (response st).
  rewrite Hcand, Hparts, Hcall, Hget. reflexivity.
Qed.

(** The names [toolExecutors] answers with [undefined]: neither one of the
    five tools nor a member of [Object.prototype]. *)
Lemma toolExecutors_get_undefined (n : string) :
  toolExecutors_get n = Undefined <->
  ~ In n TRAFFIC_TOOLS /\ ~ In n Object_prototype_keys.
Proof.
  unfold toolExecutors_get, TRAFFIC_TOOLS.
  assert (Hkeys : existsb (String.eqb n) Object_prototype_keys = true
                  <-> In n Object_prototype_keys).
  { rewrite existsb_exists. split.
    - intros [k [Hk Heq]]. apply String.eqb_eq in Heq. subst k. exact Hk.
    - intros Hin. exists n. split; [exact Hin|apply String.eqb_refl]. }
  destruct (own_executor n) as [t|] eqn:Hown.
  - split; [discriminate|]. intros [Hnot _]. exfalso. apply Hnot.
    apply find_some in Hown. destruct Hown as [Hin Heq].
    apply String.eqb_eq in Heq. subst n. apply in_map. exact Hin.
  - assert (Hnot : ~ In n (map tool_name all_tools)).
    { intros Hin. apply in_map_iff in Hin. destruct Hin as [t [Hname Hin]].
      pose proof (find_none _ _ Hown t Hin) as Hfalse. simpl in Hfalse.
      rewrite Hname, String.eqb_refl in Hfalse. discriminate. }
    destruct (existsb (String.eqb n) Object_prototype_keys) eqn:E.
    + split; [discriminate|]. intros [_ H]. exfalso. apply H.
      apply Hkeys. reflexivity.
    + split; [intros _|reflexivity]. split; [exact Hnot|].
      intros Hin. apply Hkeys in Hin. congruence.
Qed.

(** C3, as stated, fails: when the model asks for [get_weather], which is
    not a tool, no executor is invoked, but the conversation returns
    [success] true with an empty message. *)
Lemma unknown_tool_succeeds :
  toolExecutors_get "get_weather" = Undefined /\
  option_map (fun run => (result run, exit run, executed (final run)))
    (chat Scenario.confused Scenario.question Scenario.no_context)
    = Some ({| success := true;
               message := "";
               toolsUsed_returned := Some ["get_weather"];
               error := None |},
            UnknownTool "get_weather", []) /\
  option_map (fun run => success (result run))
    (chat Scenario.confused Scenario.question Scenario.no_context) <> Some false.
Proof.
  split; [reflexivity|]. split.
  - vm_compute. reflexivity.
  - vm_compute. discriminate.
Qed.

(** C3, amended.  If, in any pass of the loop, the model turn asks for a
    name that is none of the five tools (nor a name every object inherits,
    for which [toolExecutors] has a member as well), the loop is left at once:
    no executor is invoked for that request and nothing more is sent to the
    model; [chat] returns [success] true with an empty message and a list of
    tools used that ends with the unknown name. *)
Theorem unknown_tool_ends_conversation
    (w : World) (question : string) (context : Context)
    (session : ChatSession) (r : GenerateResult)
    (st : LoopState) (fc : FunctionCall) :
  startChat w (session_history (default [] (conversationHistory context)))
    = Returned session ->
  session [first_request w question context] = Returned r ->
  reaches w session (initial_state r (first_request w question context)) st ->
  (iterations st < maxIterations)%nat ->
  requests st fc ->
  ~ In (name fc) TRAFFIC_TOOLS ->
  ~ In (name fc) Object_prototype_keys ->
  exists run,
    chat w question context = Some run /\
    exit run = UnknownTool (name fc) /\
    success (result run) = true /\
    message (result run) = "" /\
    error (result run) = None /\
    toolsUsed_returned (result run) = Some (toolsUsed st ++ [name fc])%list /\
    executed (final run) = executed st /\
    sent (final run) = sent st.
Proof.
  intros Hstart Hfirst Hreach Hguard Hreq Hnot Hnokey.
  assert (Hget : toolExecutors_get (name fc) = Undefined)
    by (apply toolExecutors_get_undefined; split; assumption).
  destruct (reaches_loop_end w session _ _ Hreach) as [Hend Htext].
  assert (Hloop : while_loop (S maxIterations) w session
                    (initial_state r (first_request w question context))
                  = Some (Left (UnknownTool (name fc))
                            (push_tool (name fc) (count st)))).
  { change (while_loop (S maxIterations) w session
              (initial_state r (first_request w question context)))
      with (loop_end w session (initial_state r (first_request w question context))).
    rewrite Hend. unfold loop_end. rewrite while_loop_S.
    replace (iterations st <? maxIterations)%nat with true
      by (symmetry; apply Nat.ltb_lt; exact Hguard).
    rewrite (loop_body_unknown w session st fc Hreq Hget). reflexivity. }
  unfold chat, chat_fuel. rewrite Hstart.
  unfold first_request in Hfirst, Hloop. rewrite Hfirst, Hloop.
  eexists. split; [reflexivity|]. simpl.
  repeat split. exact Htext.
Qed.

Lemma unknown_tool_ends_conversation_witness :
  exists run,
    chat Scenario.confused Scenario.question Scenario.no_context = Some run /\
    exit run = UnknownTool "get_weather" /\
    success (result run) = true /\
    message (result run) = "" /\
    error (result run) = None /\
    toolsUsed_returned (result run) = Some ["get_weather"] /\
    executed (final run) = [] /\
    sent (final run) = [TextMessage Scenario.question].
Proof.
  apply (unknown_tool_ends_conversation
           Scenario.confused Scenario.question Scenario.no_context
           (Scenario.insisting "get_weather" Scenario.here)
           (Scenario.tool_turn "get_weather" Scenario.here)
           (initial_state (Scenario.tool_turn "get_weather" Scenario.here)
              (TextMessage Scenario.question))
           {| name := "get_weather"; args := Some Scenario.here |}
           eq_refl eq_refl).
  - apply reaches_here.
  - simpl. unfold maxIterations. lia.
  - eexists. eexists. repeat split; reflexivity.
  - simpl. intros [H|[H|[H|[H|[H|[]]]]]]; discriminate H.
  - simpl. intros H.
    repeat (destruct H as [H|H]; [discriminate H|]). exact H.
Defined.

(** A name every object inherits is not unknown to the table: the member
    found under it is called like an executor, and the loop goes on. *)
Example inherited_member_is_called :
  toolExecutors_get "toString" = Inherited "toString" /\
  option_map (fun run => (success (result run), exit run,
                          List.length (executed (final run))))
    (chat Scenario.literal Scenario.question Scenario.no_context)
    = Some (true, BoundReached, 5%nat).
Proof.
  split; vm_compute; reflexivity.
Qed.

(** A call without arguments throws before the executor's [try]; the
    [catch] of [chat] takes over. *)
Example missing_args_are_caught :
  option_map (fun run => (result run, executed (final run)))
    (chat Scenario.forgetful Scenario.question Scenario.no_context)
    = Some (caught "Cannot destructure property 'lat' of 'undefined' as it is undefined.",
            [("get_incidents", None)]).
Proof. vm_compute. reflexivity. Qed.

(** ** What the caller gets on the fatal paths *)


(** [chat] returns. *)
Lemma chat_total (w : World) (question : string) (context : Context) :
  exists run, chat w question context = Some run.
Proof.
  unfold chat, chat_fuel.
  destruct (startChat w _) as [session|m]; [|eexists; reflexivity].
  destruct (session _) as [r|m]; [|eexists; reflexivity].
  destruct (loop_terminates w session r
              (TextMessage (enrichedMessage w question (userLocation context))))
    as [e [Hrun _]].
  specialize (Hrun 0%nat). rewrite Nat.add_0_r in Hrun. rewrite Hrun.
  destruct e; eexists; reflexivity.
Qed.


(** * Further properties *)

Import Notions.

(** ** More on [get_departure_times] *)

Lemma one_entry_is_best_witness :
  exists times text best,
    get_departure_times (Scenario.routing Scenario.all_four) Scenario.trip
      = Departures times text /\
    In best times /\ isBest best = Some true /\
    (forall r, In r times -> isBest r = Some true -> r = best) /\
    (forall r, In r times -> (durationMinutes best <= durationMinutes r)%Z).
Proof.
  destruct departure_times_example as [times [Hrun _]].
  destruct (one_entry_is_best (Scenario.routing Scenario.all_four) Scenario.trip
              times "Wait 30 min to save 5 minutes" Hrun) as [best Hbest].
  exists times, "Wait 30 min to save 5 minutes", best.
  split; [exact Hrun|exact Hbest].
Defined.

Lemma time_saved_against_now_witness :
  exists now best later,
    departure_entry (Scenario.routing Scenario.all_four) Scenario.trip 0 = Some now /\
    get_departure_times (Scenario.routing Scenario.all_four) Scenario.trip
      = Departures (map (mark_best best) (now :: later))
          (recommend best (durationMinutes now - durationMinutes best)) /\
    label now = "Now".
Proof.
  eexists.
  destruct (time_saved_against_now (Scenario.routing Scenario.all_four)
              Scenario.trip _ eq_refl) as [best [later [Hrun [Hlabel _]]]].
  exists best, later. split; [reflexivity|]. split; [exact Hrun|exact Hlabel].
Defined.

(** The reduction keeps its first argument unless something is strictly
    shorter. *)
Lemma best_of_first (results : list DepartureTime) (first : DepartureTime) :
  (forall r, In r results -> (durationMinutes first <= durationMinutes r)%Z) ->
  best_of first results = first.
Proof.
  unfold best_of. induction results as [|r rest IH]; intros H; simpl.
  - reflexivity.
  - replace (durationMinutes r <? durationMinutes first)%Z with false.
    + apply IH. intros x Hx. apply H. right. exact Hx.
    + symmetry. apply Z.ltb_ge. apply H. left. reflexivity.
Qed.

(** X9. Ties go to the earliest departure.  When the computation for leaving
    now succeeds and no later offset is strictly shorter,
    [get_departure_times] recommends leaving now, and the entries marked
    best are those labelled "Now". *)
Theorem leave_now_unless_shorter (w : Services) (a : Args) (now : DepartureTime) :
  departure_entry w a 0 = Some now ->
  (forall offset e,
     In offset [30; 60; 120]%Z -> departure_entry w a offset = Some e ->
     (durationMinutes now <= durationMinutes e)%Z) ->
  exists times,
    get_departure_times w a = Departures times "Now is the best time to leave!" /\
    forall r, In r times -> (isBest r = Some true <-> label r = "Now").
Proof.
  intros Hnow Hlater.
  pose proof (departure_entry_label w a 0 now Hnow) as Hlabel.
  change (offset_label 0) with "Now" in Hlabel.
  unfold get_departure_times, offsets.
  rewrite collect_departures_survivors.
  set (entries := fun offset => match departure_entry w a offset with
                                | Some e => [e]
                                | None => []
                                end).
  change (flat_map entries [0; 30; 60; 120]%Z)
    with (entries 0%Z ++ flat_map entries [30; 60; 120]%Z)%list.
  unfold entries at 1. rewrite Hnow.
  change ([now] ++ flat_map entries [30; 60; 120]%Z)%list
    with (now :: flat_map entries [30; 60; 120]%Z).
  set (later := flat_map entries [30; 60; 120]%Z).
  assert (Hbest : best_of now (now :: later) = now).
  { apply best_of_first. intros r [<-|Hr]; [lia|].
    unfold later, entries in Hr. rewrite <- collect_departures_survivors in Hr.
    destruct (survivor_offset w a _ r Hr) as [offset [Hin He]].
    exact (Hlater offset r Hin He). }
  exists (map (mark_best now) (now :: later)). split.
  - unfold summarize_departures. rewrite Hbest.
    unfold recommend. rewrite Hlabel. reflexivity.
  - intros r Hr. apply in_map_iff in Hr. destruct Hr as [r0 [<- _]].
    simpl. rewrite Hlabel. split.
    + intros H. injection H as H. apply String.eqb_eq. exact H.
    + intros H. rewrite H. reflexivity.
Qed.

Lemma leave_now_unless_shorter_witness :
  exists times,
    get_departure_times (Scenario.routing Cases.level) Scenario.trip
      = Departures times "Now is the best time to leave!" /\
    forall r, In r times -> (isBest r = Some true <-> label r = "Now").
Proof.
  eapply (leave_now_unless_shorter (Scenario.routing Cases.level) Scenario.trip).
  - reflexivity.
  - intros offset e [<-|[<-|[<-|[]]]] H; vm_compute in H;
      try discriminate H; injection H as <-; vm_compute; discriminate.
Defined.

Lemma survivor_labels (w : Services) (a : Args) (offs : list Z) :
  map label (collect_departures w a offs [])
    = map offset_label (filter (survives w a) offs).
Proof.
  rewrite collect_departures_survivors.
  induction offs as [|offset rest IH]; simpl.
  - reflexivity.
  - unfold survives at 1.
    destruct (departure_entry w a offset) as [e|] eqn:He; simpl.
    + rewrite IH, (departure_entry_label w a offset e He). reflexivity.
    + exact IH.
Qed.

(** X10. The departure times listed are those of the offsets whose
    computation succeeded, in the order 0, 30, 60, 120: their labels are
    the labels of these offsets, so at most four, none twice. *)
Theorem departure_times_follow_offsets (w : Services) (a : Args)
    (times : list DepartureTime) (text : string) :
  get_departure_times w a = Departures times text ->
  map label times
    = map offset_label (filter (survives w a) [0; 30; 60; 120]%Z) /\
  (1 <= List.length times <= 4)%nat /\
  NoDup (map label times).
Proof.
  unfold get_departure_times. intros H.
  pose proof (survivor_labels w a offsets) as Hlabels.
  remember (collect_departures w a offsets []) as results eqn:Hres.
  destruct results as [|first rest]; [discriminate|].
  destruct (summarize_departures_best first rest) as [best [Hsum _]].
  rewrite Hsum in H.
  assert (Htimes : times = map (mark_best best) (first :: rest)) by congruence.
  assert (Hmap : map label times = map label (first :: rest)).
  { rewrite Htimes, map_map. apply map_ext. intros r. reflexivity. }
  rewrite Hmap, Hlabels. unfold offsets. split; [reflexivity|].
  assert (Hlen : List.length times = List.length (first :: rest)).
  { rewrite Htimes. apply length_map. }
  split.
  - rewrite Hlen. split; [simpl; lia|].
    rewrite <- (length_map label), Hlabels, length_map.
    pose proof (filter_length_le (survives w a) offsets) as Hle.
    simpl in Hle. exact Hle.
  - unfold offsets. cbn [filter].
    destruct (survives w a 0), (survives w a 30), (survives w a 60),
      (survives w a 120); vm_compute;
      repeat (apply NoDup_cons; [simpl; intuition discriminate|]);
      apply NoDup_nil.
Qed.

Lemma departure_times_follow_offsets_witness :
  exists times,
    get_departure_times (Scenario.routing Scenario.all_four) Scenario.trip
      = Departures times "Wait 30 min to save 5 minutes" /\
    map label times = ["Now"; "+30 min"; "+60 min"; "+120 min"] /\
    (1 <= List.length times <= 4)%nat.
Proof.
  destruct departure_times_example as [times [Hrun _]].
  exists times. split; [exact Hrun|].
  destruct (departure_times_follow_offsets
              (Scenario.routing Scenario.all_four) Scenario.trip times
              "Wait 30 min to save 5 minutes" Hrun) as [Hlabels [Hlen _]].
  split; [rewrite Hlabels; vm_compute; reflexivity|exact Hlen].
Defined.

(** ** The other executors *)

(** X11. [search_place] answers with one to three places, the first ones
    found, or with a failure descriptor; both carry the query. *)
Theorem search_place_at_most_three (w : Services) (a : Args) :
  match search_place w a with
  | Places found searched =>
      (1 <= List.length found <= 3)%nat /\ searched = query a /\
      exists data all,
        places_searchText w (search_place_request a) = Returned data /\
        places data = Some all /\
        found = map transformPlace (firstn 3 all)
  | Failure _ searched => searched = query a
  | _ => False
  end.
Proof.
  rewrite search_place_posts.
  destruct (places_searchText w (search_place_request a)) as [data|m];
    [|reflexivity].
  destruct (places data) as [[|p rest]|] eqn:Hplaces;
    cbn [GooglePlaces.default]; try reflexivity.
  cbv iota. split; [|split; [reflexivity|]].
  - rewrite length_map, length_firstn. simpl List.length. lia.
  - exists data, (p :: rest). repeat split. exact Hplaces.
Qed.

Lemma sequence_format_route (rs : list Route) : forall (i : Z) (l : list FormattedRoute),
  sequence (mapi_from format_route i rs) = Returned l ->
  List.length l = List.length rs /\
  map routeNumber l = map (fun k => (i + Z.of_nat k)%Z) (seq 1 (List.length rs)).
Proof.
  induction rs as [|r rest IH]; intros i l; simpl.
  - intros H. injection H as <-. split; reflexivity.
  - unfold format_route at 1. destruct (summary r) as [s|]; simpl; [|discriminate].
    destruct (sequence (mapi_from format_route (i + 1) rest)) as [l'|m] eqn:Hrest;
      simpl; [|discriminate].
    intros H. injection H as <-.
    destruct (IH (i + 1)%Z l' Hrest) as [Hlen Hnum].
    split; [simpl; congruence|].
    simpl. f_equal.
    rewrite Hnum, <- (seq_shift (List.length rest) 1), map_map.
    apply map_ext. intros k. lia.
Qed.

Lemma sequence_format_route_throws (rs : list Route) : forall (i : Z) (r : Route),
  In r rs -> summary r = None ->
  sequence (mapi_from format_route i rs) = Thrown TypeError_travelTime.
Proof.
  induction rs as [|r0 rest IH]; intros i r Hin Hnone; [destruct Hin|].
  simpl. unfold format_route at 1.
  destruct (summary r0) as [s|] eqn:Hs; simpl; [|reflexivity].
  destruct Hin as [->|Hin]; [congruence|].
  rewrite (IH (i + 1)%Z r Hin Hnone). reflexivity.
Qed.

(** X12. When [calculate_routes] answers with routes, there are as many as
    the routing service returned, at least one, numbered 1, 2, ... in the
    order of the service. *)
Theorem calculate_routes_numbers (w : Services) (a : Args)
    (formatted : list FormattedRoute) :
  calculate_routes w a = Routes formatted ->
  exists rs,
    tomtom_calculateRoute w (calculate_routes_request a)
      = Returned {| routes := Some rs |} /\
    List.length formatted = List.length rs /\
    (1 <= List.length formatted)%nat /\
    map routeNumber formatted = map Z.of_nat (seq 1 (List.length rs)).
Proof.
  unfold calculate_routes.
  destruct (tomtom_calculateRoute w (calculate_routes_request a)) as [[rs]|m];
    [|discriminate].
  simpl. destruct rs as [[|r rest]|]; try discriminate.
  destruct (sequence (mapi format_route (r :: rest))) as [l|m] eqn:Hseq;
    [|discriminate].
  intros H. injection H as <-.
  destruct (sequence_format_route (r :: rest) 0 l Hseq) as [Hlen Hnum].
  exists (r :: rest). split; [reflexivity|]. split; [exact Hlen|].
  split; [rewrite Hlen; simpl; lia|].
  rewrite Hnum. apply map_ext. intros k. lia.
Qed.

Lemma calculate_routes_numbers_witness :
  exists formatted,
    calculate_routes
      (Cases.routes_found [Cases.route_of 1500 21000; Cases.route_of 1740 19500])
      Scenario.trip = Routes formatted /\
    map routeNumber formatted = [1; 2]%Z.
Proof.
  eexists. split; [vm_compute; reflexivity|].
  destruct (calculate_routes_numbers
              (Cases.routes_found [Cases.route_of 1500 21000; Cases.route_of 1740 19500])
              Scenario.trip _ eq_refl) as [rs [Hcall [_ [_ Hnum]]]].
  injection Hcall as <-. exact Hnum.
Defined.

(** X13. One route without a summary fails the whole answer: the executor
    returns the message of the type error, and no route at all. *)
Theorem calculate_routes_all_or_nothing (w : Services) (a : Args)
    (rs : list Route) (r : Route) :
  tomtom_calculateRoute w (calculate_routes_request a)
    = Returned {| routes := Some rs |} ->
  In r rs -> summary r = None ->
  calculate_routes w a
    = Failure "Cannot read properties of undefined (reading 'travelTimeInSeconds')"
        None.
Proof.
  intros Hcall Hin Hnone. unfold calculate_routes. rewrite Hcall. simpl.
  destruct rs as [|r0 rest]; [destruct Hin|].
  unfold mapi. rewrite (sequence_format_route_throws (r0 :: rest) 0 r Hin Hnone).
  reflexivity.
Qed.

Lemma calculate_routes_all_or_nothing_witness :
  calculate_routes
    (Cases.routes_found [Cases.route_of 1500 21000; {| summary := None |}])
    Scenario.trip
    = Failure "Cannot read properties of undefined (reading 'travelTimeInSeconds')"
        None.
Proof.
  apply (calculate_routes_all_or_nothing
           (Cases.routes_found [Cases.route_of 1500 21000; {| summary := None |}])
           Scenario.trip
           [Cases.route_of 1500 21000; {| summary := None |}]
           {| summary := None |} eq_refl).
  - right. left. reflexivity.
  - reflexivity.
Defined.

(** X14. When [get_incidents] lists incidents, [totalCount] is the number the
    service returned, and the list holds the first five of them at most. *)
Theorem get_incidents_first_five (w : Services) (a : Args)
    (listed : list FormattedIncident) (total : Z) :
  get_incidents w a = Incidents listed total ->
  exists found,
    tomtom_incidentDetails w (get_incidents_request w a)
      = Returned {| incidents := Some found |} /\
    total = Z.of_nat (List.length found) /\
    listed = map format_incident (firstn 5 found) /\
    List.length listed = Nat.min 5 (List.length found) /\
    (1 <= List.length listed)%nat.
Proof.
  unfold get_incidents.
  destruct (tomtom_incidentDetails w (get_incidents_request w a)) as [[found]|m];
    [|discriminate].
  cbn [incidents].
  destruct found as [[|inc rest]|]; cbn [GooglePlaces.default];
    try discriminate.
  cbv iota. intros H.
  assert (Hlisted : listed = map format_incident (firstn 5 (inc :: rest)))
    by congruence.
  assert (Htotal : total = Z.of_nat (List.length (inc :: rest))) by congruence.
  clear H. subst listed total.
  exists (inc :: rest). split; [reflexivity|]. split; [reflexivity|].
  split; [reflexivity|].
  assert (Hlen : List.length (map format_incident (firstn 5 (inc :: rest)))
                 = Nat.min 5 (List.length (inc :: rest))).
  { rewrite length_map. apply length_firstn. }
  split; [exact Hlen|]. rewrite Hlen. simpl List.length. lia.
Qed.

Lemma get_incidents_first_five_witness :
  exists listed,
    get_incidents Cases.busy_roads Scenario.here = Incidents listed 7 /\
    List.length listed = 5%nat.
Proof.
  eexists. split; [vm_compute; reflexivity|].
  destruct (get_incidents_first_five Cases.busy_roads Scenario.here _ 7 eq_refl)
    as [found [Hcall [_ [_ [Hlen _]]]]].
  injection Hcall as <-. exact Hlen.
Defined.

(** X15. Every field of a listed incident that is a label has a value: the
    type and the description are never empty, the severity is one of five
    words; the delay is missing exactly when the service gave none or 0. *)
Theorem format_incident_labels (inc : Incident) :
  fi_type (format_incident inc) <> "" /\
  fi_description (format_incident inc) <> "" /\
  In (severity (format_incident inc))
     ["Unknown"; "Minor"; "Moderate"; "Major"; "Severe"] /\
  (delayMinutes (format_incident inc) = None <->
   forall props d,
     properties inc = Some props -> delay props = Some d -> (d == 0)%Q).
Proof.
  unfold format_incident.
  set (props := GooglePlaces.default no_properties (properties inc)).
  simpl. split; [|split; [|split]].
  - unfold getIncidentTypeName.
    destruct (iconCategory props) as [[|p|p]|]; try discriminate.
    do 4 (destruct p; try discriminate).
  - unfold or_string.
    destruct (first_description props) as [[|c s]|]; simpl; discriminate.
  - unfold getMagnitudeLabel.
    destruct (magnitudeOfDelay props) as [[|p|p]|]; simpl; auto.
    do 3 (destruct p; simpl; auto 6).
  - unfold props. destruct (properties inc) as [p|]; simpl.
    + destruct (delay p) as [d|] eqn:Hdelay.
      * destruct (truthy_number d) eqn:Hd.
        -- split; [discriminate|]. intros H.
           apply truthy_number_nonzero in Hd. exfalso. apply Hd.
           exact (H p d eq_refl Hdelay).
        -- split; [intros _|reflexivity].
           intros p' d' Hp Hd'. injection Hp as <-.
           rewrite Hdelay in Hd'. injection Hd' as <-.
           unfold truthy_number in Hd. apply negb_false_iff in Hd.
           apply Qeq_bool_iff. exact Hd.
      * split; [|reflexivity]. intros _ p' d' Hp Hd'.
        injection Hp as <-. rewrite Hdelay in Hd'. discriminate Hd'.
    + split; [|reflexivity]. intros _ p' d' Hp. discriminate Hp.
Qed.

(** X16. The bounding box [get_incidents] asks for holds the point asked
    for: with a radius that is not negative (5 km when none is given) and a
    positive cosine of the latitude, the centre's latitude lies between the
    southern and the northern bound and its longitude between the western
    and the eastern one. *)
Theorem bounding_box_holds_centre (w : Services) (a : Args) (la lo : Q) :
  lat a = Some la -> lon a = Some lo ->
  (0 <= GooglePlaces.default 5 (radiusKm a))%Q ->
  (0 < cos_degrees w la)%Q ->
  exists south north west east,
    bounding_box w a
      = {| minLon := Some west; minLat := Some south;
           maxLon := Some east; maxLat := Some north |} /\
    (south <= la <= north)%Q /\
    (west <= lo <= east)%Q.
Proof.
  intros Hlat Hlon Hradius Hcos. unfold bounding_box. rewrite Hlat, Hlon. simpl.
  eexists. eexists. eexists. eexists. split; [reflexivity|].
  set (radius := GooglePlaces.default 5 (radiusKm a)) in *.
  assert (Hlatd : (0 <= radius / 111)%Q).
  { apply Qle_shift_div_l; [reflexivity|]. rewrite Qmult_0_l. exact Hradius. }
  assert (Hlond : (0 <= radius / (111 * cos_degrees w la))%Q).
  { apply Qle_shift_div_l.
    - apply Qmult_lt_0_compat; [reflexivity|exact Hcos].
    - rewrite Qmult_0_l. exact Hradius. }
  repeat split; lra.
Qed.

Lemma bounding_box_holds_centre_witness :
  exists south north west east,
    bounding_box Scenario.offline Scenario.here
      = {| minLon := Some west; minLat := Some south;
           maxLon := Some east; maxLat := Some north |} /\
    (south <= 25204 # 1000 <= north)%Q /\
    (west <= 55270 # 1000 <= east)%Q.
Proof.
  apply (bounding_box_holds_centre Scenario.offline Scenario.here
           (25204 # 1000) (55270 # 1000) eq_refl eq_refl).
  - vm_compute. discriminate.
  - reflexivity.
Defined.

(** X17. How a rejected TomTom call surfaces.  When every call is rejected
    with one message, [get_traffic_flow], [calculate_routes] and
    [get_incidents] return that message as their error, while
    [get_departure_times] returns its own fixed message. *)
Theorem rejection_surfaces (w : Services) (a : Args) (m : string) :
  (forall rq, tomtom_calculateRoute w rq = Thrown m) ->
  (forall rq, tomtom_flowSegmentData w rq = Thrown m) ->
  (forall rq, tomtom_incidentDetails w rq = Thrown m) ->
  get_traffic_flow w a = Failure m None /\
  calculate_routes w a = Failure m None /\
  get_incidents w a = Failure m None /\
  get_departure_times w a = Failure "Could not calculate departure times" None.
Proof.
  intros Hroute Hflow Hinc.
  unfold get_traffic_flow, calculate_routes, get_incidents.
  rewrite Hroute, Hflow, Hinc. repeat split.
  unfold get_departure_times. rewrite collect_departures_none; [reflexivity|].
  intros offset _. unfold departure_entry. rewrite Hroute. reflexivity.
Qed.

Lemma rejection_surfaces_witness :
  get_traffic_flow Scenario.offline Scenario.trip
    = Failure "External service unavailable" None /\
  calculate_routes Scenario.offline Scenario.trip
    = Failure "External service unavailable" None /\
  get_incidents Scenario.offline Scenario.trip
    = Failure "External service unavailable" None /\
  get_departure_times Scenario.offline Scenario.trip
    = Failure "Could not calculate departure times" None.
Proof.
  apply (rejection_surfaces Scenario.offline Scenario.trip
           "External service unavailable"); intros rq; reflexivity.
Defined.

(** ** The tier of [get_traffic_flow], once more *)

(** X18. On whole speeds from 1 to 300 km/h the tests of [get_traffic_flow],
    computed on IEEE doubles as the source computes them, give the tier of
    the exact ratio of the two speeds. *)
Theorem binary64_tier_of_ratio (c f : Z) :
  (0 <= c <= 300)%Z -> (1 <= f <= 300)%Z ->
  Binary64.flow_condition (Binary64.of_Z c) (Binary64.of_Z f)
    = tier_of_ratio (inject_Z c / inject_Z f).
Proof.
  intros Hc Hf.
  rewrite <- flow_condition_ratio.
  - apply String.eqb_eq.
    apply (agree_upto_spec 300 c f binary64_grid); lia.
  - change 0%Q with (inject_Z 0). rewrite <- Zlt_Qlt. lia.
Qed.

Lemma binary64_tier_of_ratio_witness :
  Binary64.flow_condition (Binary64.of_Z 63) (Binary64.of_Z 90) = "light".
Proof.
  rewrite (binary64_tier_of_ratio 63 90); [reflexivity|lia|lia].
Defined.

Lemma tier_rank_flow_condition (current free : Q) :
  tier_rank (flow_condition current free) =
    if ltb current (free * (3 # 10)) then 4%nat
    else if ltb current (free * (5 # 10)) then 3%nat
    else if ltb current (free * (7 # 10)) then 2%nat
    else if ltb current (free * (9 # 10)) then 1%nat
    else 0%nat.
Proof.
  unfold flow_condition.
  destruct (ltb current (free * (3 # 10))); [reflexivity|].
  destruct (ltb current (free * (5 # 10))); [reflexivity|].
  destruct (ltb current (free * (7 # 10))); [reflexivity|].
  destruct (ltb current (free * (9 # 10))); reflexivity.
Qed.

(** X19. Against one free-flow speed, a slower current speed never gets a
    lighter tier. *)
Theorem slower_is_never_lighter (slow fast free : Q) :
  (0 <= free)%Q -> (slow <= fast)%Q ->
  (tier_rank (flow_condition fast free) <= tier_rank (flow_condition slow free))%nat.
Proof.
  intros Hfree Hle. rewrite !tier_rank_flow_condition.
  destruct (ltb slow (free * (3 # 10))) eqn:S3;
  destruct (ltb slow (free * (5 # 10))) eqn:S5;
  destruct (ltb slow (free * (7 # 10))) eqn:S7;
  destruct (ltb slow (free * (9 # 10))) eqn:S9;
  destruct (ltb fast (free * (3 # 10))) eqn:F3;
  destruct (ltb fast (free * (5 # 10))) eqn:F5;
  destruct (ltb fast (free * (7 # 10))) eqn:F7;
  destruct (ltb fast (free * (9 # 10))) eqn:F9;
  try lia; exfalso;
  repeat match goal with
         | H : ltb _ _ = true |- _ => apply ltb_lt in H
         | H : ltb _ _ = false |- _ => apply ltb_ge in H
         end; lra.
Qed.

Lemma slower_is_never_lighter_witness :
  (tier_rank (flow_condition 75 80) <= tier_rank (flow_condition 20 80))%nat.
Proof.
  apply (slower_is_never_lighter 20 75 80); discriminate.
Defined.

(** ** Minutes *)

Lemma minutes_div (seconds : Z) : minutes seconds = ((seconds + 30) / 60)%Z.
Proof.
  unfold minutes, Math_round.
  assert (E : (inject_Z seconds / 60 + (1 # 2) == (seconds + 30) # 60)%Q).
  { unfold Qeq, Qdiv, Qmult, Qplus, Qinv, inject_Z. simpl. lia. }
  rewrite (Qfloor_comp _ _ E). reflexivity.
Qed.

(** X20. The minutes reported for a travel time of up to 1,000,000,000
    seconds (where the quotient by 60 of the source, a double, rounds as
    the exact one) are the nearest whole minutes, half a minute counting up:
    never more than 30 seconds off; and of two such travel times the longer
    never gets fewer minutes. *)
Theorem minutes_nearest (seconds : Z) :
  (0 <= seconds <= 1000000000)%Z ->
  (60 * minutes seconds - 30 <= seconds < 60 * minutes seconds + 30)%Z /\
  (forall later,
     (seconds <= later <= 1000000000)%Z -> (minutes seconds <= minutes later)%Z).
Proof.
  intros _. rewrite minutes_div. split.
  - pose proof (Z.div_mod (seconds + 30) 60 ltac:(lia)) as Hdm.
    pose proof (Z.mod_pos_bound (seconds + 30) 60 ltac:(lia)) as Hb.
    lia.
  - intros later Hle. rewrite minutes_div.
    apply Z.div_le_mono; lia.
Qed.

Lemma minutes_nearest_witness :
  minutes 1830 = 31%Z /\
  (60 * minutes 1830 - 30 <= 1830 < 60 * minutes 1830 + 30)%Z /\
  (minutes 1830 <= minutes 1889)%Z.
Proof.
  split; [reflexivity|].
  destruct (minutes_nearest 1830 ltac:(lia)) as [Hnear Hmono].
  split; [exact Hnear|]. apply Hmono. lia.
Defined.

(** ** More on the loop of [chat] *)

Lemma loop_body_final_text (w : World) (session : ChatSession)
    (st : LoopState) (candidate : Candidate) (ps : list Part) :
  first_candidate (response st) = Some candidate ->
  content_parts candidate = Some ps ->
  find_functionCall ps = None ->
  loop_body w session st = Break FinalText (set_text (joined_text ps) (count st)).
Proof.
  intros Hcand Hparts Hcall. unfold loop_body.
  change (response (count st)) with (response st).
  rewrite Hcand, Hparts, Hcall. reflexivity.
Qed.

Lemma loop_end_guarded (w : World) (session : ChatSession) (st : LoopState) :
  (iterations st < maxIterations)%nat ->
  loop_end w session st =
    match loop_body w session st with
    | Continue st' => loop_end w session st'
    | Break why st' => Some (Left why st')
    | Throw m st' => Some (Raised m st')
    end.
Proof.
  intros Hguard.
  destruct (loop_body w session st) as [st'|why st'|m st'] eqn:Hbody.
  - exact (loop_end_next w session st st' Hguard Hbody).
  - unfold loop_end. rewrite while_loop_S, Hbody.
    replace (iterations st <? maxIterations)%nat with true; [reflexivity|].
    symmetry. apply Nat.ltb_lt. exact Hguard.
  - unfold loop_end. rewrite while_loop_S, Hbody.
    replace (iterations st <? maxIterations)%nat with true; [reflexivity|].
    symmetry. apply Nat.ltb_lt. exact Hguard.
Qed.

(** [chat], once the session is started and the first response is in. *)
Lemma chat_after_first (w : World) (question : string) (context : Context)
    (session : ChatSession) (r : GenerateResult) :
  startChat w (session_history (GooglePlaces.default [] (conversationHistory context)))
    = Returned session ->
  session [first_request w question context] = Returned r ->
  chat w question context =
    match loop_end w session (initial_state r (first_request w question context)) with
    | Some (Left why st) =>
        Some {| result := completed st; exit := why; final := st |}
    | Some (Raised m st) =>
        Some {| result := caught m; exit := Caught m; final := st |}
    | None => None
    end.
Proof.
  intros Hstart Hfirst. unfold chat, chat_fuel. rewrite Hstart.
  unfold first_request in *. rewrite Hfirst. reflexivity.
Qed.

(** X1. A model turn without a function call ends the conversation with
    its text.  In whatever pass it comes, [chat] returns [success] true, the
    concatenated text of the turn as the message and the tools used until
    then; no executor is invoked and nothing more is sent to the model.  In
    the first pass the list of tools is empty. *)
Theorem text_turn_is_the_answer
    (w : World) (question : string) (context : Context)
    (session : ChatSession) (r : GenerateResult)
    (st : LoopState) (candidate : Candidate) (ps : list Part) :
  startChat w (session_history (GooglePlaces.default [] (conversationHistory context)))
    = Returned session ->
  session [first_request w question context] = Returned r ->
  reaches w session (initial_state r (first_request w question context)) st ->
  (iterations st < maxIterations)%nat ->
  first_candidate (response st) = Some candidate ->
  content_parts candidate = Some ps ->
  find_functionCall ps = None ->
  exists run,
    chat w question context = Some run /\
    exit run = FinalText /\
    result run = {| success := true;
                    message := joined_text ps;
                    toolsUsed_returned := Some (toolsUsed st);
                    error := None |} /\
    executed (final run) = executed st /\
    sent (final run) = sent st.
Proof.
  intros Hstart Hfirst Hreach Hguard Hcand Hparts Hcall.
  rewrite (chat_after_first w question context session r Hstart Hfirst).
  rewrite (proj1 (reaches_loop_end w session _ _ Hreach)).
  rewrite (loop_end_guarded w session st Hguard).
  rewrite (loop_body_final_text w session st candidate ps Hcand Hparts Hcall).
  eexists. split; [reflexivity|]. repeat split.
Qed.

Lemma text_turn_is_the_answer_witness :
  exists run,
    chat Cases.talkative Scenario.question Scenario.no_context = Some run /\
    exit run = FinalText /\
    result run = {| success := true;
                    message := "Roads are clear!";
                    toolsUsed_returned := Some [];
                    error := None |} /\
    executed (final run) = [] /\
    sent (final run) = [TextMessage Scenario.question].
Proof.
  apply (text_turn_is_the_answer
           Cases.talkative Scenario.question Scenario.no_context
           (fun _ => Returned (Cases.text_turn "Roads are clear!"))
           (Cases.text_turn "Roads are clear!")
           (initial_state (Cases.text_turn "Roads are clear!")
              (TextMessage Scenario.question))
           {| content_parts := Some [ {| text := Some "Roads are clear!";
                                        functionCall := None |} ] |}
           [ {| text := Some "Roads are clear!"; functionCall := None |} ]
           eq_refl eq_refl).
  - apply reaches_here.
  - simpl. unfold maxIterations. lia.
  - reflexivity.
  - reflexivity.
  - reflexivity.
Defined.

(** X2. A tool that fails does not end the conversation.  When the model
    asks for a registered tool and, given its result, answers with text,
    [chat] returns [success] true with that text and the one tool used,
    whatever the tool returned, a failure descriptor included. *)
Theorem tool_result_goes_back_to_model
    (w : World) (question : string) (context : Context)
    (session : ChatSession) (fc : FunctionCall) (t : Tool) (a : Args)
    (r : GenerateResult) (candidate : Candidate) (ps : list Part)
    (r' : GenerateResult) (candidate' : Candidate) (ps' : list Part) :
  startChat w (session_history (GooglePlaces.default [] (conversationHistory context)))
    = Returned session ->
  session [first_request w question context] = Returned r ->
  first_candidate r = Some candidate ->
  content_parts candidate = Some ps ->
  find_functionCall ps = Some fc ->
  toolExecutors_get (name fc) = Executor t ->
  args fc = Some a ->
  session [first_request w question context;
           FunctionResponse (name fc) (run_tool (services w 1) t a)]
    = Returned r' ->
  first_candidate r' = Some candidate' ->
  content_parts candidate' = Some ps' ->
  find_functionCall ps' = None ->
  exists run,
    chat w question context = Some run /\
    result run = {| success := true;
                    message := joined_text ps';
                    toolsUsed_returned := Some [name fc];
                    error := None |} /\
    executed (final run) = [(name fc, Some a)] /\
    sent (final run)
      = [first_request w question context;
         FunctionResponse (name fc) (run_tool (services w 1) t a)].
Proof.
  intros Hstart Hfirst Hcand Hparts Hcall Htool Hargs Hsecond Hcand' Hparts' Hcall'.
  rewrite (chat_after_first w question context session r Hstart Hfirst).
  set (st0 := initial_state r (first_request w question context)).
  set (st1 := set_response r'
                (log_request (FunctionResponse (name fc)
                                (run_tool (services w 1) t a))
                   (log_call (name fc) (Some a)
                      (push_tool (name fc) (count st0))))).
  assert (Hbody : loop_body w session st0 = Continue st1).
  { unfold loop_body, respond, sendMessage, call_tool.
    change (response (count st0)) with r.
    rewrite Hcand, Hparts, Hcall, Htool, Hargs. simpl.
    rewrite Hsecond. reflexivity. }
  rewrite (loop_end_guarded w session st0) by (simpl; unfold maxIterations; lia).
  rewrite Hbody.
  rewrite (loop_end_guarded w session st1) by (simpl; unfold maxIterations; lia).
  rewrite (loop_body_final_text w session st1 candidate' ps' Hcand' Hparts' Hcall').
  eexists. split; [reflexivity|]. repeat split.
Qed.

Lemma tool_result_goes_back_to_model_witness :
  exists run,
    chat Cases.unlucky Scenario.question Scenario.no_context = Some run /\
    result run = {| success := true;
                    message := "Sorry, I could not reach the traffic service.";
                    toolsUsed_returned := Some ["get_traffic_flow"];
                    error := None |} /\
    is_failure (get_traffic_flow Scenario.offline Scenario.here) = true.
Proof.
  destruct (tool_result_goes_back_to_model
              Cases.unlucky Scenario.question Scenario.no_context
              Cases.one_lookup
              {| name := "get_traffic_flow"; args := Some Scenario.here |}
              Get_traffic_flow Scenario.here
              (Scenario.tool_turn "get_traffic_flow" Scenario.here)
              {| content_parts := Some
                   [ {| text := None;
                        functionCall := Some {| name := "get_traffic_flow";
                                                args := Some Scenario.here |} |} ] |}
              [ {| text := None;
                   functionCall := Some {| name := "get_traffic_flow";
                                           args := Some Scenario.here |} |} ]
              (Cases.text_turn "Sorry, I could not reach the traffic service.")
              {| content_parts := Some
                   [ {| text := Some "Sorry, I could not reach the traffic service.";
                        functionCall := None |} ] |}
              [ {| text := Some "Sorry, I could not reach the traffic service.";
                   functionCall := None |} ]
              eq_refl eq_refl eq_refl eq_refl eq_refl eq_refl eq_refl
              eq_refl eq_refl eq_refl eq_refl)
    as [run [Hrun [Hresult _]]].
  exists run. split; [exact Hrun|]. split; [exact Hresult|reflexivity].
Defined.

Lemma while_loop_tools (w : World) (session : ChatSession) :
  forall fuel st e,
    toolsUsed st = map fst (executed st) ->
    while_loop fuel w session st = Some e ->
    match e with
    | Left why st' =>
        toolsUsed st' = (map fst (executed st') ++ unknown_name why)%list
    | Raised _ st' => toolsUsed st' = map fst (executed st')
    end.
Proof.
  induction fuel as [|fuel IH]; intros st e Hinv; [discriminate|].
  rewrite while_loop_S.
  destruct (iterations st <? maxIterations)%nat.
  - assert (Hpush : forall n a,
              (toolsUsed st ++ [n])%list
                = map fst (executed st ++ [(n, a)])%list).
    { intros n a. rewrite map_app, Hinv. reflexivity. }
    unfold loop_body, respond, sendMessage, call_tool.
    destruct (first_candidate (response (count st))) as [candidate|]; simpl.
    + destruct (content_parts candidate) as [ps|]; simpl.
      * destruct (find_functionCall ps) as [fc|]; simpl.
        -- destruct (toolExecutors_get (name fc)) as [t|key|]; simpl.
           ++ destruct (args fc) as [a|]; simpl.
              ** destruct (session _) as [r|m]; simpl.
                 --- apply IH. simpl. apply Hpush.
                 --- intros H. injection H as <-. simpl. apply Hpush.
              ** intros H. injection H as <-. simpl. apply Hpush.
           ++ destruct (inherited_call _ key (args fc)) as [res|m]; simpl.
              ** destruct (session _) as [r|m]; simpl.
                 --- apply IH. simpl. apply Hpush.
                 --- intros H. injection H as <-. simpl. apply Hpush.
              ** intros H. injection H as <-. simpl. apply Hpush.
           ++ intros H. injection H as <-. simpl. rewrite Hinv. reflexivity.
        -- intros H. injection H as <-. simpl. rewrite app_nil_r. exact Hinv.
      * intros H. injection H as <-. simpl. exact Hinv.
    + intros H. injection H as <-. simpl. rewrite app_nil_r. exact Hinv.
  - intros H. injection H as <-. simpl. rewrite app_nil_r. exact Hinv.
Qed.

Lemma loop_tools_bounded (w : World) (session : ChatSession)
    (fuel : nat) (st : LoopState) (e : LoopEnd) :
  (List.length (toolsUsed st) <= iterations st)%nat ->
  while_loop fuel w session st = Some e ->
  (List.length (toolsUsed (end_state e)) <= iterations (end_state e))%nat.
Proof.
  intros Hused Hrun.
  apply (while_loop_invariant w session
           (fun s => (List.length (toolsUsed s) <= iterations s)%nat))
    with (fuel := fuel) (st := st); [|exact Hused|exact Hrun].
  intros s Hs.
  pose proof (loop_body_counts w session s) as Hc.
  pose proof (loop_body_logs w session s) as [_ [_ Hl]].
  lia.
Qed.

(** X3. The list of tools used is the record of what was called.  In every
    run of [chat] the names in the list are the names of the executor calls
    made, in their order, followed by the unknown name when the loop was
    left for one; there are at most 5; and the list [chat] returns, when it
    returns one, is this list. *)
Theorem tools_used_are_the_calls (w : World) (question : string)
    (context : Context) :
  exists run,
    chat w question context = Some run /\
    toolsUsed (final run)
      = (map fst (executed (final run)) ++ unknown_name (exit run))%list /\
    (List.length (toolsUsed (final run)) <= 5)%nat /\
    (forall used,
       toolsUsed_returned (result run) = Some used -> used = toolsUsed (final run)).
Proof.
  unfold chat, chat_fuel.
  destruct (startChat w _) as [session|m].
  - set (first := TextMessage (enrichedMessage w question (userLocation context))).
    destruct (session [first]) as [r|m].
    + destruct (loop_terminates w session r first) as [e [Hrun [Hiter _]]].
      specialize (Hrun 0%nat). rewrite Nat.add_0_r in Hrun. rewrite Hrun.
      pose proof (while_loop_tools w session (S maxIterations)
                    (initial_state r first) e eq_refl Hrun) as Htools.
      pose proof (loop_tools_bounded w session (S maxIterations)
                    (initial_state r first) e (Nat.le_refl 0) Hrun) as Hlen.
      unfold maxIterations in Hiter.
      destruct e as [why st|m st]; simpl in *.
      * eexists. split; [reflexivity|]. simpl.
        split; [exact Htools|]. split; [lia|].
        intros used H. injection H as <-. reflexivity.
      * eexists. split; [reflexivity|]. simpl.
        split; [rewrite app_nil_r; exact Htools|]. split; [lia|].
        intros used H. discriminate H.
    + eexists. split; [reflexivity|]. simpl.
      repeat split; try lia. intros used H. discriminate H.
  - eexists. split; [reflexivity|]. simpl.
    repeat split; try lia. intros used H. discriminate H.
Qed.

(** ** More on [POST /api/chat] *)

(** X4. The handler validates before it calls [chat].  A body whose message
    is missing, is not a string, is blank (nothing but Unicode white space)
    or is longer than 1000 UTF-16 code units, or whose history is a value
    other than an array, gets a 400 reply that does not depend on the model
    or the services. *)
Theorem post_validates_first (development : bool) (w w' : World)
    (body : ChatRoute.Body) :
  ChatRoute.body_message body = None \/
  (exists m, ChatRoute.body_message body = Some m /\
             (ChatRoute.blank m = true \/ (1000 < String_length m)%nat)) \/
  ChatRoute.body_conversationHistory body = ChatRoute.HistoryOther ->
  exists e,
    ChatRoute.post development w (Some body) = Some (ChatRoute.BadRequest e) /\
    ChatRoute.post development w' (Some body) = Some (ChatRoute.BadRequest e).
Proof.
  unfold ChatRoute.post.
  destruct (ChatRoute.body_message body) as [m|]; [|eexists; split; reflexivity].
  destruct (ChatRoute.blank m) eqn:Hblank; [eexists; split; reflexivity|].
  destruct (1000 <? String_length m)%nat eqn:Hlong; [eexists; split; reflexivity|].
  apply Nat.ltb_ge in Hlong.
  intros [H|[[m' [Hm [H|H]]]|H]].
  - discriminate H.
  - injection Hm as <-. congruence.
  - injection Hm as <-. lia.
  - rewrite H. eexists. split; reflexivity.
Qed.

Lemma post_validates_first_witness :
  exists e,
    ChatRoute.post false Scenario.greedy
        (Some (Cases.body_with (Some (" " ++ Cases.no_break_space))
                 ChatRoute.NoHistory))
      = Some (ChatRoute.BadRequest e) /\
    ChatRoute.post false Scenario.unreachable
        (Some (Cases.body_with (Some (" " ++ Cases.no_break_space))
                 ChatRoute.NoHistory))
      = Some (ChatRoute.BadRequest e).
Proof.
  apply (post_validates_first false Scenario.greedy Scenario.unreachable
           (Cases.body_with (Some (" " ++ Cases.no_break_space))
              ChatRoute.NoHistory)).
  right. left. exists (" " ++ Cases.no_break_space).
  split; [reflexivity|]. left. reflexivity.
Defined.

(** X5. Only the last 10 turns of the history reach the model.  For a valid
    message (not blank, at most 1000 UTF-16 code units) and an array as
    history, the handler replies with the result of [chat] on the last ten
    turns, in their order; earlier turns are dropped. *)
Theorem post_caps_history (development : bool) (w : World)
    (body : ChatRoute.Body) (m : string) (turns : list Content) :
  ChatRoute.body_message body = Some m ->
  ChatRoute.blank m = false ->
  (String_length m <= 1000)%nat ->
  ChatRoute.body_conversationHistory body = ChatRoute.HistoryArray turns ->
  exists dropped kept,
    turns = (dropped ++ kept)%list /\
    List.length kept = Nat.min 10 (List.length turns) /\
    ChatRoute.post development w (Some body)
      = option_map (fun run => ChatRoute.Ok (result run))
          (chat w m {| userLocation := ChatRoute.body_userLocation body;
                       conversationHistory := Some kept |}).
Proof.
  intros Hm Hblank Hlen Hturns.
  exists (firstn (List.length turns - 10) turns), (ChatRoute.last_ten turns).
  split; [|split].
  - unfold ChatRoute.last_ten. symmetry. apply firstn_skipn.
  - unfold ChatRoute.last_ten. rewrite length_skipn. lia.
  - unfold ChatRoute.post. rewrite Hm, Hblank, Hturns.
    replace (1000 <? String_length m)%nat with false
      by (symmetry; apply Nat.ltb_ge; exact Hlen).
    simpl. destruct (chat w m _); reflexivity.
Qed.

Lemma post_caps_history_witness :
  exists dropped kept,
    Cases.twelve_turns = (dropped ++ kept)%list /\
    List.length kept = 10%nat /\
    ChatRoute.post false Cases.talkative
        (Some (Cases.body_with (Some Cases.accented_question)
                 (ChatRoute.HistoryArray Cases.twelve_turns)))
      = option_map (fun run => ChatRoute.Ok (result run))
          (chat Cases.talkative Cases.accented_question
             {| userLocation := None; conversationHistory := Some kept |}).
Proof.
  destruct (post_caps_history false Cases.talkative
              (Cases.body_with (Some Cases.accented_question)
                 (ChatRoute.HistoryArray Cases.twelve_turns))
              Cases.accented_question Cases.twelve_turns eq_refl)
    as [dropped [kept [Hsplit [Hlen Hpost]]]].
  - vm_compute. reflexivity.
  - vm_compute. repeat constructor.
  - reflexivity.
  - exists dropped, kept. split; [exact Hsplit|]. split; [exact Hlen|exact Hpost].
Defined.

(** X6. The handler always replies, and its own 500 reply comes only from a
    missing body or a history that is 0, [NaN] or [false]; that reply has
    the fixed message and, outside development mode, no error text. *)
Theorem post_always_replies (development : bool) (w : World)
    (body : option ChatRoute.Body) :
  exists reply,
    ChatRoute.post development w body = Some reply /\
    match reply with
    | ChatRoute.ServerError m e =>
        m = "Sorry, I'm having trouble right now. Please try again in a moment!" /\
        (development = false -> e = None) /\
        (body = None \/
         exists b, body = Some b /\
                   ChatRoute.body_conversationHistory b = ChatRoute.HistoryFalsy)
    | _ => True
    end.
Proof.
  unfold ChatRoute.post, ChatRoute.server_error.
  destruct body as [b|].
  - destruct (ChatRoute.body_message b) as [m|]; [|eexists; split; [reflexivity|exact I]].
    destruct (ChatRoute.blank m); [eexists; split; [reflexivity|exact I]|].
    destruct (1000 <? String_length m)%nat; [eexists; split; [reflexivity|exact I]|].
    destruct (ChatRoute.body_conversationHistory b) as [|turns| | |] eqn:Hh; simpl;
      try (match goal with
           | |- context [chat ?w ?m ?c] =>
               destruct (chat_total w m c) as [run Hrun]; rewrite Hrun
           end);
      eexists; (split; [reflexivity|]); try exact I.
    split; [reflexivity|]. split.
    + intros ->. reflexivity.
    + right. exists b. split; [reflexivity|exact Hh].
  - eexists. split; [reflexivity|]. split; [reflexivity|]. split.
    + intros ->. reflexivity.
    + left. reflexivity.
Qed.

(** ** The fatal paths, as the caller of [POST /api/chat] sees them *)







(** ** The TomTom client *)

Lemma get_set_same {V : Type} (k : string) (v : V) (o : PlainObject.Obj V) :
  PlainObject.get k (PlainObject.set k v o) = Some v.
Proof.
  induction o as [|[k' v'] rest IH]; simpl.
  - rewrite String.eqb_refl. reflexivity.
  - destruct (String.eqb k' k) eqn:E; simpl; rewrite E; [reflexivity|exact IH].
Qed.

Lemma get_set_other {V : Type} (k k' : string) (v : V) (o : PlainObject.Obj V) :
  k' <> k ->
  PlainObject.get k' (PlainObject.set k v o) = PlainObject.get k' o.
Proof.
  intros Hne. induction o as [|[k0 v0] rest IH]; simpl.
  - replace (String.eqb k k') with false; [reflexivity|].
    symmetry. apply String.eqb_neq. congruence.
  - destruct (String.eqb k0 k) eqn:E; simpl.
    + apply String.eqb_eq in E. subst k0.
      replace (String.eqb k k') with false; [reflexivity|].
      symmetry. apply String.eqb_neq. congruence.
    + destruct (String.eqb k0 k'); [reflexivity|exact IH].
Qed.

(** X23. With an API key configured, the request interceptor sends the
    request on with [params.key] set to that key, also when the caller gave
    a [key] of its own, and with the URL and every other parameter as the
    caller gave them. *)
Theorem addKey_sets_key (apiKey : string) (config : TomTomClient.Config) :
  apiKey <> "" ->
  exists ps,
    TomTomClient.addKey (Some apiKey) config
      = Returned {| TomTomClient.url := TomTomClient.url config;
                    TomTomClient.params := Some ps |} /\
    PlainObject.get "key" ps = Some (TomTomClient.Text apiKey) /\
    forall k, k <> "key" ->
      PlainObject.get k ps
        = PlainObject.get k (GooglePlaces.default [] (TomTomClient.params config)).
Proof.
  intros Hkey. unfold TomTomClient.addKey.
  destruct apiKey as [|c rest]; [congruence|]. simpl truthy_string. cbv iota.
  eexists. split; [reflexivity|]. split.
  - apply get_set_same.
  - intros k Hk. apply get_set_other. exact Hk.
Qed.

Lemma addKey_sets_key_witness :
  exists ps,
    TomTomClient.addKey (Some "tt-key") TrafficCases.keyed_config
      = Returned {| TomTomClient.url := TomTomClient.url TrafficCases.keyed_config;
                    TomTomClient.params := Some ps |} /\
    PlainObject.get "key" ps = Some (TomTomClient.Text "tt-key") /\
    PlainObject.get "unit" ps = Some (TomTomClient.Text "KMPH").
Proof.
  destruct (addKey_sets_key "tt-key" TrafficCases.keyed_config)
    as [ps [Hrun [Hkey Hrest]]]; [discriminate|].
  exists ps. split; [exact Hrun|]. split; [exact Hkey|].
  rewrite (Hrest "unit"); [reflexivity|discriminate].
Defined.

(** X24. Without an API key, missing or empty, no request leaves the client:
    [tomtom.get] rejects with the message of the interceptor whatever the
    transport would do. *)
Theorem tomtom_get_needs_key {D : Type} (TOMTOM_API_KEY : option string)
    (transport transport' : TomTomClient.Config -> TomTomClient.AxiosError + D)
    (config : TomTomClient.Config) :
  TOMTOM_API_KEY = None \/ TOMTOM_API_KEY = Some "" ->
  TomTomClient.get TOMTOM_API_KEY transport config
    = Thrown "TOMTOM_API_KEY not configured" /\
  TomTomClient.get TOMTOM_API_KEY transport' config
    = Thrown "TOMTOM_API_KEY not configured".
Proof.
  intros [-> | ->]; split; reflexivity.
Qed.

Lemma tomtom_get_needs_key_witness :
  TomTomClient.get (Some "")
    (fun _ => inr (TrafficRoute.JString "never asked")) TrafficCases.keyed_config
    = Thrown "TOMTOM_API_KEY not configured".
Proof.
  apply (proj1 (tomtom_get_needs_key (Some "")
                  (fun _ => inr (TrafficRoute.JString "never asked"))
                  (fun _ => inr TrafficRoute.JNull)
                  TrafficCases.keyed_config (or_intror eq_refl))).
Defined.

(** X25. What the clients let through of a rejected request.  For the
    statuses 401, 403, 429 and 500 and above, the error thrown carries one
    of three fixed messages and nothing of the upstream message; for every
    other status, and when there was no response, the upstream message
    passes unchanged. *)
Theorem rejected_by_status (m : string) (status : option Z) :
  let error := {| TomTomClient.error_message := m;
                  TomTomClient.response_status := status |} in
  (forall s, status = Some s ->
     (s = 401 \/ s = 403 \/ s = 429 \/ 500 <= s)%Z ->
     In (TomTomClient.rejected error)
        ["API authentication failed"; "Rate limit exceeded";
         "External service unavailable"] /\
     In (PlacesClient.rejected error)
        ["Google API authentication failed"; "Rate limit exceeded";
         "External service unavailable"] /\
     forall m',
       TomTomClient.rejected {| TomTomClient.error_message := m';
                                TomTomClient.response_status := status |}
         = TomTomClient.rejected error /\
       PlacesClient.rejected {| TomTomClient.error_message := m';
                                TomTomClient.response_status := status |}
         = PlacesClient.rejected error) /\
  ((status = None \/
    exists s, status = Some s /\ (s < 500 /\ s <> 401 /\ s <> 403 /\ s <> 429)%Z) ->
   TomTomClient.rejected error = m /\ PlacesClient.rejected error = m).
Proof.
  intros error. unfold error, TomTomClient.rejected, PlacesClient.rejected. simpl.
  split.
  - intros s -> Hs.
    destruct (s =? 401)%Z eqn:E1; simpl; [simpl; auto 6|].
    destruct (s =? 403)%Z eqn:E2; simpl; [simpl; auto 6|].
    destruct (s =? 429)%Z eqn:E3; simpl; [simpl; auto 6|].
    destruct (500 <=? s)%Z eqn:E4; simpl; [simpl; auto 6|].
    exfalso. apply Z.eqb_neq in E1, E2, E3. apply Z.leb_gt in E4. lia.
  - intros [-> | [s [-> Hs]]]; [split; reflexivity|].
    replace (s =? 401)%Z with false by (symmetry; apply Z.eqb_neq; lia).
    replace (s =? 403)%Z with false by (symmetry; apply Z.eqb_neq; lia).
    replace (s =? 429)%Z with false by (symmetry; apply Z.eqb_neq; lia).
    replace (500 <=? s)%Z with false by (symmetry; apply Z.leb_gt; lia).
    split; reflexivity.
Qed.

Lemma rejected_by_status_witness :
  TomTomClient.rejected
    {| TomTomClient.error_message := "connect ECONNREFUSED 10.0.0.7:443";
       TomTomClient.response_status := Some 503%Z |}
    = "External service unavailable" /\
  TomTomClient.rejected
    {| TomTomClient.error_message := "Request failed with status code 404";
       TomTomClient.response_status := Some 404%Z |}
    = "Request failed with status code 404".
Proof.
  split.
  - destruct (proj1 (rejected_by_status "connect ECONNREFUSED 10.0.0.7:443"
                       (Some 503%Z)) 503%Z eq_refl) as [_ [_ Hsame]]; [lia|].
    rewrite <- (proj1 (Hsame "")). reflexivity.
  - apply (proj2 (rejected_by_status "Request failed with status code 404"
                    (Some 404%Z))).
    right. exists 404%Z. split; [reflexivity|lia].
Defined.

(** ** The cache and the traffic proxies *)

Lemma select_replace_same {V : Type} (caches : Cache.Caches V)
    (t : Cache.CacheType) (s : Cache.Store V) :
  Cache.select (Cache.replace caches t s) t = s.
Proof. destruct t; reflexivity. Qed.

Lemma select_replace_other {V : Type} (caches : Cache.Caches V)
    (t t' : Cache.CacheType) (s : Cache.Store V) :
  t' <> t -> Cache.select (Cache.replace caches t s) t' = Cache.select caches t'.
Proof. destruct t, t'; intros H; try reflexivity; congruence. Qed.

Lemma getOrFetch_hit {V : Type} (caches : Cache.Caches V)
    (name key : string) (t : Cache.CacheType) (v : V)
    (fetchFn : Completion (option V)) :
  Cache.cacheType_of name = Some t ->
  Cache.select caches t key = Some v ->
  Cache.getOrFetch caches name key fetchFn
    = (Returned {| Cache.data := Some v; Cache.cached := true |}, caches).
Proof.
  intros Ht Hhit. unfold Cache.getOrFetch. rewrite Ht, Hhit. reflexivity.
Qed.

(** X26. After a miss whose fetch resolved, the value is served from the
    cache.  [getOrFetch] returns the fetched value with [cached] false; a
    second call with the same type and key returns the same value with
    [cached] true whatever its fetch function would do, and leaves the
    caches as they are; every other key and cache is untouched. *)
Theorem getOrFetch_miss_then_hit {V : Type} (caches : Cache.Caches V)
    (name key : string) (t : Cache.CacheType) (v : V)
    (fetchFn' : Completion (option V)) :
  Cache.cacheType_of name = Some t ->
  Cache.select caches t key = None ->
  exists caches',
    Cache.getOrFetch caches name key (Returned (Some v))
      = (Returned {| Cache.data := Some v; Cache.cached := false |}, caches') /\
    Cache.getOrFetch caches' name key fetchFn'
      = (Returned {| Cache.data := Some v; Cache.cached := true |}, caches') /\
    (forall k, k <> key -> Cache.select caches' t k = Cache.select caches t k) /\
    (forall t', t' <> t -> Cache.select caches' t' = Cache.select caches t').
Proof.
  intros Ht Hmiss.
  exists (Cache.replace caches t
            (Cache.store_set (Cache.select caches t) key (Some v))).
  split; [|split; [|split]].
  - unfold Cache.getOrFetch. rewrite Ht, Hmiss. reflexivity.
  - apply (getOrFetch_hit _ name key t v fetchFn' Ht).
    rewrite select_replace_same. unfold Cache.store_set.
    rewrite String.eqb_refl. reflexivity.
  - intros k Hk. rewrite select_replace_same. unfold Cache.store_set.
    replace (String.eqb k key) with false; [reflexivity|].
    symmetry. apply String.eqb_neq. exact Hk.
  - intros t' Ht'. apply select_replace_other. exact Ht'.
Qed.

Lemma getOrFetch_miss_then_hit_witness :
  exists caches',
    Cache.getOrFetch TrafficRoute.empty_caches "traffic" "flow:25.08:55.14:10"
      (Returned (Some TrafficCases.segment_data))
      = (Returned {| Cache.data := Some TrafficCases.segment_data;
                     Cache.cached := false |}, caches') /\
    Cache.getOrFetch caches' "traffic" "flow:25.08:55.14:10" (Thrown "offline")
      = (Returned {| Cache.data := Some TrafficCases.segment_data;
                     Cache.cached := true |}, caches').
Proof.
  destruct (getOrFetch_miss_then_hit TrafficRoute.empty_caches
              "traffic" "flow:25.08:55.14:10" Cache.Traffic
              TrafficCases.segment_data (Thrown "offline") eq_refl eq_refl)
    as [caches' [Hfirst [Hsecond _]]].
  exists caches'. split; [exact Hfirst|exact Hsecond].
Defined.

(** X27. [getOrFetch] stores nothing it did not fetch.  When the fetch is
    rejected the error passes to the caller, and for a cache type that is
    none of the five an error is thrown whatever the fetch function would
    do; in both cases the caches stay as they were. *)
Theorem getOrFetch_stores_only_fetched {V : Type} (caches : Cache.Caches V)
    (name key : string) (fetchFn fetchFn' : Completion (option V)) :
  (forall t m,
     Cache.cacheType_of name = Some t ->
     Cache.select caches t key = None ->
     fetchFn = Thrown m ->
     Cache.getOrFetch caches name key fetchFn = (Thrown m, caches)) /\
  (Cache.cacheType_of name = None ->
   exists m,
     Cache.getOrFetch caches name key fetchFn = (Thrown m, caches) /\
     Cache.getOrFetch caches name key fetchFn' = (Thrown m, caches) /\
     (~ In name YallaChat.Object_prototype_keys ->
      m = "Unknown cache type: " ++ name)).
Proof.
  split.
  - intros t m Ht Hmiss ->. unfold Cache.getOrFetch. rewrite Ht, Hmiss.
    reflexivity.
  - intros Hnone. unfold Cache.getOrFetch. rewrite Hnone.
    destruct (existsb (String.eqb name) YallaChat.Object_prototype_keys) eqn:E.
    + eexists. split; [reflexivity|]. split; [reflexivity|].
      intros Hnot. exfalso. apply Hnot.
      apply existsb_exists in E. destruct E as [k [Hk Heq]].
      apply String.eqb_eq in Heq. subst k. exact Hk.
    + eexists. split; [reflexivity|]. split; reflexivity.
Qed.

Lemma getOrFetch_stores_only_fetched_witness :
  Cache.getOrFetch TrafficRoute.empty_caches "tiles" "12/2653/1765"
    (Returned (Some TrafficCases.segment_data))
    = (Thrown "Unknown cache type: tiles", TrafficRoute.empty_caches).
Proof.
  destruct (proj2 (getOrFetch_stores_only_fetched TrafficRoute.empty_caches
                     "tiles" "12/2653/1765"
                     (Returned (Some TrafficCases.segment_data))
                     (Thrown "offline")) eq_refl)
    as [m [Hrun [_ Hm]]].
  rewrite Hrun. rewrite Hm; [reflexivity|].
  simpl. intros H. repeat (destruct H as [H|H]; [discriminate H|]). exact H.
Defined.

Lemma flow_valid (tomtom_get : TomTomClient.Config -> Completion (option TrafficRoute.Json))
    (caches : Cache.Caches TrafficRoute.Json) (query : TrafficRoute.FlowQuery)
    (la ln : string) :
  TrafficRoute.lat query = Some la -> TrafficRoute.lng query = Some ln ->
  la <> "" -> ln <> "" ->
  TrafficRoute.flow tomtom_get caches query =
    let z := GooglePlaces.default "10" (TrafficRoute.zoom query) in
    match Cache.getOrFetch caches "traffic" (TrafficRoute.flow_cacheKey la ln z)
            (tomtom_get (TrafficRoute.flow_config la ln z)) with
    | (Returned fetched, caches') =>
        (TrafficRoute.Ok (TrafficRoute.with_cached fetched), caches')
    | (Thrown m, caches') =>
        (TrafficRoute.ServerError
           (TrafficRoute.message_or m "Failed to fetch traffic flow"), caches')
    end.
Proof.
  intros Hla Hln Hla' Hln'. unfold TrafficRoute.flow. rewrite Hla, Hln.
  destruct la as [|c1 r1]; [congruence|].
  destruct ln as [|c2 r2]; [congruence|]. reflexivity.
Qed.

(** X28. [GET /flow] asks TomTom once per location and zoom while the cache
    holds the answer.  After a request that missed the cache and got data,
    the same request is answered without TomTom, whatever TomTom would do:
    the reply has [_cached] true where the first had [_cached] false, every
    other field is the same, and the caches do not change. *)
Theorem flow_second_request_is_cached
    (tomtom_get tomtom_get' : TomTomClient.Config -> Completion (option TrafficRoute.Json))
    (caches : Cache.Caches TrafficRoute.Json) (query : TrafficRoute.FlowQuery)
    (la ln : string) (data : TrafficRoute.Json) :
  TrafficRoute.lat query = Some la -> TrafficRoute.lng query = Some ln ->
  la <> "" -> ln <> "" ->
  Cache.traffic caches
    (TrafficRoute.flow_cacheKey la ln
       (GooglePlaces.default "10" (TrafficRoute.zoom query))) = None ->
  tomtom_get (TrafficRoute.flow_config la ln
                (GooglePlaces.default "10" (TrafficRoute.zoom query)))
    = Returned (Some data) ->
  exists body body' caches',
    TrafficRoute.flow tomtom_get caches query = (TrafficRoute.Ok body, caches') /\
    TrafficRoute.flow tomtom_get' caches' query = (TrafficRoute.Ok body', caches') /\
    PlainObject.get "_cached" body = Some (TrafficRoute.JBool false) /\
    PlainObject.get "_cached" body' = Some (TrafficRoute.JBool true) /\
    forall k, k <> "_cached" ->
      PlainObject.get k body' = PlainObject.get k body /\
      PlainObject.get k body = PlainObject.get k (TrafficRoute.spread (Some data)).
Proof.
  intros Hla Hln Hla' Hln' Hmiss Hget.
  set (key := TrafficRoute.flow_cacheKey la ln
                (GooglePlaces.default "10" (TrafficRoute.zoom query))) in *.
  set (caches' := Cache.replace caches Cache.Traffic
                    (Cache.store_set (Cache.traffic caches) key (Some data))).
  assert (Hfirst : Cache.getOrFetch caches "traffic" key (Returned (Some data))
                   = (Returned {| Cache.data := Some data; Cache.cached := false |},
                      caches')).
  { unfold Cache.getOrFetch.
    change (Cache.cacheType_of "traffic") with (Some Cache.Traffic). cbv iota.
    change (Cache.select caches Cache.Traffic) with (Cache.traffic caches).
    rewrite Hmiss. reflexivity. }
  assert (Hsecond : forall fetchFn,
            Cache.getOrFetch caches' "traffic" key fetchFn
            = (Returned {| Cache.data := Some data; Cache.cached := true |},
               caches')).
  { intros fetchFn. apply (getOrFetch_hit caches' "traffic" key Cache.Traffic).
    - reflexivity.
    - unfold caches'. rewrite select_replace_same. unfold Cache.store_set.
      rewrite String.eqb_refl. reflexivity. }
  eexists. eexists. exists caches'.
  rewrite !(flow_valid _ _ query la ln Hla Hln Hla' Hln').
  cbv zeta. fold key. rewrite Hget, Hfirst, Hsecond.
  split; [reflexivity|]. split; [reflexivity|].
  unfold TrafficRoute.with_cached. simpl Cache.cached. simpl Cache.data.
  split; [apply get_set_same|]. split; [apply get_set_same|].
  intros k Hk. rewrite !(get_set_other "_cached" k) by exact Hk.
  split; reflexivity.
Qed.

Lemma flow_second_request_is_cached_witness :
  exists body body' caches',
    TrafficRoute.flow TrafficCases.answering TrafficRoute.empty_caches
      TrafficCases.marina = (TrafficRoute.Ok body, caches') /\
    TrafficRoute.flow TrafficCases.silent caches' TrafficCases.marina
      = (TrafficRoute.Ok body', caches') /\
    PlainObject.get "_cached" body = Some (TrafficRoute.JBool false) /\
    PlainObject.get "_cached" body' = Some (TrafficRoute.JBool true).
Proof.
  destruct (flow_second_request_is_cached
              TrafficCases.answering TrafficCases.silent
              TrafficRoute.empty_caches TrafficCases.marina
              "25.08" "55.14" TrafficCases.segment_data eq_refl eq_refl)
    as [body [body' [caches' [H1 [H2 [H3 [H4 _]]]]]]];
    try discriminate; try reflexivity.
  exists body, body', caches'. repeat split; assumption.
Defined.

(** X29. The two cached proxies reject an incomplete query before anything
    else: without [lat] or [lng], or with one of them empty, [GET /flow]
    replies 400, and so does [GET /incidents] without one of the four
    bounds; neither touches the caches or depends on TomTom. *)
Theorem proxies_validate_first
    (tomtom_get tomtom_get' : TomTomClient.Config -> Completion (option TrafficRoute.Json))
    (caches : Cache.Caches TrafficRoute.Json) :
  (forall query,
     TrafficRoute.required (TrafficRoute.lat query) = None \/
     TrafficRoute.required (TrafficRoute.lng query) = None ->
     TrafficRoute.flow tomtom_get caches query
       = (TrafficRoute.BadRequest "lat and lng are required", caches) /\
     TrafficRoute.flow tomtom_get' caches query
       = (TrafficRoute.BadRequest "lat and lng are required", caches)) /\
  (forall query,
     TrafficRoute.required (TrafficRoute.minLat query) = None \/
     TrafficRoute.required (TrafficRoute.minLng query) = None \/
     TrafficRoute.required (TrafficRoute.maxLat query) = None \/
     TrafficRoute.required (TrafficRoute.maxLng query) = None ->
     TrafficRoute.incidents tomtom_get caches query
       = (TrafficRoute.BadRequest
            "Bounding box required: minLat, minLng, maxLat, maxLng", caches) /\
     TrafficRoute.incidents tomtom_get' caches query
       = (TrafficRoute.BadRequest
            "Bounding box required: minLat, minLng, maxLat, maxLng", caches)).
Proof.
  split.
  - intros query H. unfold TrafficRoute.flow, TrafficRoute.required in *.
    destruct (TrafficRoute.lat query) as [[|c1 r1]|],
             (TrafficRoute.lng query) as [[|c2 r2]|];
      simpl in *; try (split; reflexivity);
      destruct H as [H|H]; discriminate H.
  - intros query H. unfold TrafficRoute.incidents.
    destruct (TrafficRoute.required (TrafficRoute.minLat query)),
             (TrafficRoute.required (TrafficRoute.minLng query)),
             (TrafficRoute.required (TrafficRoute.maxLat query)),
             (TrafficRoute.required (TrafficRoute.maxLng query));
      try (split; reflexivity);
      destruct H as [H|[H|[H|H]]]; discriminate H.
Qed.

Lemma proxies_validate_first_witness :
  TrafficRoute.flow TrafficCases.answering TrafficRoute.empty_caches
    TrafficCases.no_latitude
    = (TrafficRoute.BadRequest "lat and lng are required", TrafficRoute.empty_caches) /\
  TrafficRoute.incidents TrafficCases.answering TrafficRoute.empty_caches
    TrafficCases.half_box
    = (TrafficRoute.BadRequest
         "Bounding box required: minLat, minLng, maxLat, maxLng",
       TrafficRoute.empty_caches).
Proof.
  destruct (proxies_validate_first TrafficCases.answering TrafficCases.silent
              TrafficRoute.empty_caches) as [Hflow Hinc].
  split.
  - apply (proj1 (Hflow TrafficCases.no_latitude (or_introl eq_refl))).
  - apply (proj1 (Hinc TrafficCases.half_box
                    (or_intror (or_intror (or_introl eq_refl))))).
Defined.

(** X30. A failed fetch is reported and not cached.  When [GET /flow] misses
    the cache and TomTom rejects, the reply is a 500 with the error's
    message, or "Failed to fetch traffic flow" when that message is empty,
    and the caches are unchanged, so that the next request asks again. *)
Theorem flow_failure_is_not_cached
    (tomtom_get : TomTomClient.Config -> Completion (option TrafficRoute.Json))
    (caches : Cache.Caches TrafficRoute.Json) (query : TrafficRoute.FlowQuery)
    (la ln m : string) :
  TrafficRoute.lat query = Some la -> TrafficRoute.lng query = Some ln ->
  la <> "" -> ln <> "" ->
  Cache.traffic caches
    (TrafficRoute.flow_cacheKey la ln
       (GooglePlaces.default "10" (TrafficRoute.zoom query))) = None ->
  tomtom_get (TrafficRoute.flow_config la ln
                (GooglePlaces.default "10" (TrafficRoute.zoom query)))
    = Thrown m ->
  TrafficRoute.flow tomtom_get caches query
    = (TrafficRoute.ServerError
         (if String.eqb m "" then "Failed to fetch traffic flow" else m),
       caches).
Proof.
  intros Hla Hln Hla' Hln' Hmiss Hget.
  rewrite (flow_valid _ _ query la ln Hla Hln Hla' Hln'). cbv zeta.
  rewrite Hget. unfold Cache.getOrFetch.
  change (Cache.cacheType_of "traffic") with (Some Cache.Traffic). cbv iota.
  change (Cache.select caches Cache.Traffic) with (Cache.traffic caches).
  rewrite Hmiss. unfold TrafficRoute.message_or. destruct m; reflexivity.
Qed.

Lemma flow_failure_is_not_cached_witness :
  TrafficRoute.flow TrafficCases.silent TrafficRoute.empty_caches
    TrafficCases.marina
    = (TrafficRoute.ServerError "Failed to fetch traffic flow",
       TrafficRoute.empty_caches).
Proof.
  apply (flow_failure_is_not_cached TrafficCases.silent
           TrafficRoute.empty_caches TrafficCases.marina "25.08" "55.14" "");
    try reflexivity; discriminate.
Defined.

(** ** Places and speeds *)

(** X22. A text search never asks for more than 20 results: the request
    carries the caller's limit when it is below 20 and 20 otherwise, and 20
    when [search_place] calls it, which gives no limit. *)
Theorem requestBody_caps_results (query : option string) (options : Options) :
  (maxResultCount (requestBody query options) <= 20)%Q /\
  (forall limit, opt_limit options = Some limit -> (limit <= 20)%Q ->
     maxResultCount (requestBody query options) = limit) /\
  (forall a, maxResultCount (search_place_request a) = 20%Q).
Proof.
  unfold requestBody, Math_min. simpl. split; [|split].
  - destruct (ltb 20 (GooglePlaces.default 20 (opt_limit options))) eqn:E.
    + apply Qle_refl.
    + apply ltb_ge in E. exact E.
  - intros limit -> Hle. simpl.
    replace (ltb 20 limit) with false; [reflexivity|].
    symmetry. apply ltb_ge. exact Hle.
  - intros a. unfold search_place_request, search_place_options, requestBody.
    destruct (truthy_opt truthy_number (nearLat a)
              && truthy_opt truthy_number (nearLon a)); reflexivity.
Qed.

Lemma or_string_truthy (a : option string) (b : string) :
  b <> "" -> GooglePlaces.default b (or_string a (Some b)) <> "".
Proof.
  intros Hb. unfold or_string.
  destruct a as [[|c s]|]; simpl; try exact Hb. discriminate.
Qed.

(** A transformed place always has a category: the primary type when
    there is one, else the first type, else "place"; it is never empty.  Its
    name is the display name when that has text, else the formatted
    address; its position is there exactly when the place has a location. *)
Theorem transformPlace_fields (place : Place) :
  sp_category (transformPlace place) <> "" /\
  (forall t, primaryType place = Some t -> t <> "" ->
     sp_category (transformPlace place) = t) /\
  (forall n, displayName_text place = Some n -> n <> "" ->
     sp_name (transformPlace place) = Some n) /\
  (displayName_text place = None \/ displayName_text place = Some "" ->
     sp_name (transformPlace place) = formattedAddress place) /\
  (sp_position (transformPlace place) = None <-> location place = None).
Proof.
  unfold transformPlace. simpl. split; [|split; [|split; [|split]]].
  - apply or_string_truthy. discriminate.
  - intros t -> Ht. unfold or_string. destruct t; [congruence|reflexivity].
  - intros n -> Hn. unfold or_string. destruct n; [congruence|reflexivity].
  - intros [-> | ->]; reflexivity.
  - reflexivity.
Qed.

(** X21. The two speeds of a flow report are the measured speeds rounded to
    the nearest whole km/h: neither is off by more than one half. *)
Theorem flow_report_speeds (flow : FlowSegmentData) :
  (inject_Z (currentSpeedKmh (flow_report flow)) - (1 # 2) <= currentSpeed flow
   /\ currentSpeed flow < inject_Z (currentSpeedKmh (flow_report flow)) + (1 # 2))%Q /\
  (inject_Z (freeFlowSpeedKmh (flow_report flow)) - (1 # 2) <= freeFlowSpeed flow
   /\ freeFlowSpeed flow < inject_Z (freeFlowSpeedKmh (flow_report flow)) + (1 # 2))%Q.
Proof.
  assert (Hround : forall x : Q,
             (inject_Z (Math_round x) - (1 # 2) <= x
              /\ x < inject_Z (Math_round x) + (1 # 2))%Q).
  { intros x. unfold Math_round.
    pose proof (Qfloor_le (x + (1 # 2))) as Hle.
    pose proof (Qlt_floor (x + (1 # 2))) as Hlt.
    rewrite inject_Z_plus in Hlt. change (inject_Z 1) with 1%Q in Hlt.
    split; lra. }
  unfold flow_report. simpl. split; apply Hround.
Qed.
